(** * WealthGenie spreadsheet ingestion: the upload modal and the upload page

    A shallow embedding of the workbook normalisation code of
    [src/components/upload-modal.tsx] and [src/components/upload-page.tsx]:
    header resolution by substring search, the date and amount decoders,
    the three row normalisers, the per-sheet dispatch and the upload
    handler's emptiness check.

    Conventions of the embedding.
    - A JavaScript string is the [string] of its UTF-8 bytes.
    - A JavaScript number is a binary64 value, [spec_float] with
      precision 53 and maximal exponent 1024.
    - A row object produced by [XLSX.utils.sheet_to_json] is the association
      list of its own properties in [Object.keys] order.
    - Code that can throw returns a [Completion]; the lines written with
      [console.warn] are a writer component next to it.  The lines of
      [console.log] and [console.error] are not modelled. *)

From Stdlib Require Import String Ascii List ZArith Lia Bool Arith.
From Stdlib Require Import Floats.SpecFloat.
From Stdlib Require Import Decimal DecimalString.
Import ListNotations.

Local Open Scope list_scope.
Local Open Scope string_scope.

(* ================================================================== *)
(** * The JavaScript built-ins the code calls *)
(* ================================================================== *)

Module JS.

(** ** Strings *)

Definition bytes (l : list N) : string :=
  string_of_list_ascii (map ascii_of_N l).

Definition code (c : ascii) : N := N_of_ascii c.

(** [matchAt pats s]: the length of the first pattern of [pats] that
    [s] starts with. *)
Fixpoint matchAt (pats : list string) (s : string) : option nat :=
  match pats with
  | [] => None
  | p :: ps => if String.prefix p s then Some (String.length p) else matchAt ps s
  end.

(** [String.prototype.includes]: [t] occurs in [s]. *)
Fixpoint includes (s t : string) : bool :=
  String.prefix t s ||
  match s with
  | EmptyString => false
  | String _ rest => includes rest t
  end.

(** [String.prototype.toLowerCase].  ASCII capitals are lowered.  Two
    characters outside ASCII lower to ASCII letters and are lowered too:
    U+0130 (bytes C4 B0) gives "i" followed by U+0307 (CC 87), and the
    Kelvin sign U+212A (E2 84 AA) gives "k".  Every other character
    outside ASCII lowers to characters outside ASCII and is left as it
    is: the callers only search the result for ASCII words, and bytes
    from 128 up never take part in such a match. *)
Definition lowerAscii (c : ascii) : ascii :=
  let n := code c in
  if ((65 <=? n) && (n <=? 90))%N then ascii_of_N (n + 32) else c.

Fixpoint lowerFrom (skip : nat) (s : string) : string :=
  match s with
  | EmptyString => EmptyString
  | String c rest =>
      match skip with
      | S k => lowerFrom k rest
      | O =>
          if String.prefix (bytes [196; 176]%N) s
          then "i" ++ bytes [204; 135]%N ++ lowerFrom 1 rest
          else if String.prefix (bytes [226; 132; 170]%N) s
          then "k" ++ lowerFrom 2 rest
          else String (lowerAscii c) (lowerFrom 0 rest)
      end
  end.

Definition toLowerCase (s : string) : string := lowerFrom 0 s.

(** The characters of the regular-expression class [\s]: WhiteSpace and
    LineTerminator of ECMAScript, as UTF-8 byte sequences. *)
Definition whiteSpace : list string :=
  map bytes
    [ [9]; [10]; [11]; [12]; [13]; [32];               (* \t \n \v \f \r space *)
      [194; 160];                                      (* U+00A0 *)
      [225; 154; 128];                                 (* U+1680 *)
      [226; 128; 128]; [226; 128; 129]; [226; 128; 130];
      [226; 128; 131]; [226; 128; 132]; [226; 128; 133];
      [226; 128; 134]; [226; 128; 135]; [226; 128; 136];
      [226; 128; 137]; [226; 128; 138];                (* U+2000 .. U+200A *)
      [226; 128; 168]; [226; 128; 169];                (* U+2028, U+2029 *)
      [226; 128; 175];                                 (* U+202F *)
      [226; 129; 159];                                 (* U+205F *)
      [227; 128; 128];                                 (* U+3000 *)
      [239; 187; 191] ]%N.                             (* U+FEFF *)

(** [s.replace(/[...]/g, '')] for a class given by the byte sequences of
    its characters: every occurrence is removed. *)
Fixpoint removeFrom (pats : list string) (skip : nat) (s : string) : string :=
  match s with
  | EmptyString => EmptyString
  | String c rest =>
      match skip with
      | S k => removeFrom pats k rest
      | O =>
          match matchAt pats s with
          | Some (S k) => removeFrom pats k rest
          | _ => String c (removeFrom pats 0 rest)
          end
      end
  end.

Definition removeAll (pats : list string) (s : string) : string :=
  removeFrom pats 0 s.

(** Leading white space is skipped (the first step of [parseFloat]). *)
Fixpoint trimFrom (skip : nat) (s : string) : string :=
  match s with
  | EmptyString => EmptyString
  | String c rest =>
      match skip with
      | S k => trimFrom k rest
      | O =>
          match matchAt whiteSpace s with
          | Some (S k) => trimFrom k rest
          | _ => s
          end
      end
  end.

Definition trimStart (s : string) : string := trimFrom 0 s.

(** Decimal text of a natural number, as [String(n)] and template
    literals print an integer. *)
Definition natToString (n : nat) : string :=
  NilZero.string_of_uint (Nat.to_uint n).

Definition ZToString (z : Z) : string :=
  match z with
  | Z0 => "0"
  | Zpos p => NilZero.string_of_uint (Pos.to_uint p)
  | Zneg p => "-" ++ NilZero.string_of_uint (Pos.to_uint p)
  end.

Fixpoint repeatString (n : nat) (s : string) : string :=
  match n with
  | O => EmptyString
  | S k => s ++ repeatString k s
  end.

(** [s.padStart(n, '0')]. *)
Definition padStart0 (n : nat) (s : string) : string :=
  repeatString (n - String.length s) "0" ++ s.

(** [parts.join(', ')]. *)
Definition join (sep : string) (parts : list string) : string :=
  String.concat sep parts.

(** ** Numbers *)

Definition number : Type := spec_float.

Definition prec : Z := 53.
Definition emax : Z := 1024.

Definition NaN : number := S754_nan.
Definition zero : number := S754_zero false.

Definition isNaN (x : number) : bool :=
  match x with
  | S754_nan => true
  | _ => false
  end.

(** [x < y] on numbers. *)
Definition lt (x y : number) : bool := SFltb x y.

Definition abs (x : number) : number := SFabs x.

(** The number of an integer. *)
Definition ofZ (z : Z) : number := binary_normalize prec emax z 0 false.

(** The number nearest to [m * 10^e] (ties to even), with sign [neg]. *)
Definition ofDecimal (neg : bool) (m : Z) (e : Z) : number :=
  match m with
  | Zpos p =>
      match e with
      | Zneg k =>
          let '(q, e', loc) :=
            SFdiv_core_binary prec emax (Zpos p) e (Z.pow_pos 5 k) 0 in
          binary_round_aux prec emax neg q e' loc
      | _ =>
          match (Zpos p * 5 ^ e)%Z with
          | Zpos q => binary_round prec emax neg q e
          | _ => S754_zero neg
          end
      end
  | _ => S754_zero neg
  end.

Definition isDigit (c : ascii) : bool :=
  ((48 <=? code c) && (code c <=? 57))%N.

Definition digitValue (c : ascii) : Z := Z.of_N (code c - 48).

(** The longest run of decimal digits at the start of [s], and the rest. *)
Fixpoint takeDigits (s : string) : list ascii * string :=
  match s with
  | String c rest =>
      if isDigit c
      then let '(ds, r) := takeDigits rest in (c :: ds, r)
      else ([], s)
  | EmptyString => ([], s)
  end.

Definition digitsToZ (ds : list ascii) : Z :=
  fold_left (fun acc c => (acc * 10 + digitValue c)%Z) ds 0%Z.

Definition takeSign (s : string) : bool * string :=
  match s with
  | String "-" rest => (true, rest)
  | String "+" rest => (false, rest)
  | _ => (false, s)
  end.

(** The value of an ExponentPart at the start of [s], 0 when there is
    none (an "e" that no digit follows is not part of the literal). *)
Definition exponentPart (s : string) : Z :=
  match s with
  | String c rest =>
      if (Ascii.eqb c "e" || Ascii.eqb c "E")%bool
      then
        let '(neg, r) := takeSign rest in
        match fst (takeDigits r) with
        | [] => 0%Z
        | ds => if neg then (- digitsToZ ds)%Z else digitsToZ ds
        end
      else 0%Z
  | EmptyString => 0%Z
  end.

(** [parseFloat]: leading white space is skipped, then the longest
    prefix that is a StrDecimalLiteral is read; [NaN] when there is
    none. *)
Definition parseFloat (input : string) : number :=
  let '(neg, s1) := takeSign (trimStart input) in
  if String.prefix "Infinity" s1 then S754_infinity neg
  else
    let '(ip, s2) := takeDigits s1 in
    let '(fp, s3) :=
      match s2 with
      | String "." rest => takeDigits rest
      | _ => ([], s2)
      end in
    match (ip ++ fp)%list with
    | [] => NaN
    | ds => ofDecimal neg (digitsToZ ds) (exponentPart s3 - Z.of_nat (List.length fp))
    end.

(** *** Number::toString

    [shortest x]: the digits [s], their count [k] and the exponent [n] of
    the ECMAScript definition: [k] is as small as possible such that
    [s * 10^(n-k)] is the number [x], with [10^(k-1) <= s < 10^k]; among
    several [s] the one nearest to [x] is taken, the even one on a tie. *)

(** A finite positive number as a fraction. *)
Definition fraction (m : positive) (e : Z) : Z * Z :=
  match e with
  | Zneg k => (Zpos m, Z.pow_pos 2 k)
  | _ => (Zpos m * 2 ^ e, 1)%Z
  end.

Definition decimalDigits (z : Z) : Z :=
  Z.of_nat (Decimal.nb_digits (N.to_uint (Z.to_N z))).

(** The [n] with [10^(n-1) <= num/den < 10^n]. *)
Definition decimalExponent (num den : Z) : Z :=
  if (den <=? num)%Z
  then decimalDigits (num / den)
  else (1 - decimalDigits (den / num))%Z.

(** The two [k]-digit neighbours of [num/den] at exponent [n], the
    nearer one first. *)
Definition neighbours (num den n k : Z) : Z * Z :=
  let '(a, b) :=
    if (n <=? k)%Z then (num * 10 ^ (k - n), den)%Z
    else (num, den * 10 ^ (n - k))%Z in
  let lo := (a / b)%Z in
  let r := (a mod b)%Z in
  match (2 * r ?= b)%Z with
  | Lt => (lo, lo + 1)%Z
  | Gt => (lo + 1, lo)%Z
  | Eq => if Z.even lo then (lo, lo + 1)%Z else (lo + 1, lo)%Z
  end.

(** A candidate with [k + 1] digits is [10^k]: one digit fewer, one
    exponent more. *)
Definition normalised (c n k : Z) : Z * Z :=
  if (c =? 10 ^ k)%Z then (10 ^ (k - 1), n + 1)%Z else (c, n).

Definition roundTrips (x : number) (c n k : Z) : bool :=
  (0 <? c)%Z && SFeqb (ofDecimal false c (n - k)) x.

Fixpoint shortestFrom (fuel : nat) (x : number) (num den n k : Z) : Z * Z * Z :=
  let '(c1, c2) := neighbours num den n k in
  if roundTrips x c1 n k then (normalised c1 n k, k)
  else if roundTrips x c2 n k then (normalised c2 n k, k)
  else
    match fuel with
    | O => (normalised c1 n k, k)
    | S f => shortestFrom f x num den n (k + 1)
    end.

Definition shortest (m : positive) (e : Z) : Z * Z * Z :=
  let '(num, den) := fraction m e in
  shortestFrom 16 (S754_finite false m e) num den (decimalExponent num den) 1.

(** The text of a positive finite number from its digits. *)
Definition formatDigits (s n k : Z) : string :=
  let ds := ZToString s in
  if ((k <=? n) && (n <=? 21))%Z
  then ds ++ repeatString (Z.to_nat (n - k)) "0"
  else if ((0 <? n) && (n <=? 21))%Z
  then substring 0 (Z.to_nat n) ds ++ "." ++
       substring (Z.to_nat n) (Z.to_nat (k - n)) ds
  else if ((-6 <? n) && (n <=? 0))%Z
  then "0." ++ repeatString (Z.to_nat (- n)) "0" ++ ds
  else
    let ex := (if (0 <=? n - 1)%Z then "+" else "-") ++ ZToString (Z.abs (n - 1)) in
    if (k =? 1)%Z then ds ++ "e" ++ ex
    else substring 0 1 ds ++ "." ++ substring 1 (Z.to_nat (k - 1)) ds ++ "e" ++ ex.

Definition numberToString (x : number) : string :=
  match x with
  | S754_nan => "NaN"
  | S754_zero _ => "0"
  | S754_infinity false => "Infinity"
  | S754_infinity true => "-Infinity"
  | S754_finite neg m e =>
      let '(s, n, k) := shortest m e in
      (if neg then "-" else "") ++ formatDigits s n k
  end.

(** [x | 0] (ToInt32): the integer part, modulo 2^32, read as a signed
    32-bit integer; 0 for NaN and the infinities. *)
Definition toInt32 (x : number) : Z :=
  match x with
  | S754_finite neg m e =>
      let mag := match e with
                 | Zneg k => (Zpos m / Z.pow_pos 2 k)%Z
                 | _ => (Zpos m * 2 ^ e)%Z
                 end in
      let int := if neg then (- mag)%Z else mag in
      let r := (int mod 2 ^ 32)%Z in
      if (2 ^ 31 <=? r)%Z then (r - 2 ^ 32)%Z else r
  | _ => 0%Z
  end.

(** ** Values *)

(** The primitive values a cell of a decoded sheet can hold; the rows
    are typed [any] in the source. *)
Inductive value : Type :=
  | Undefined
  | Null
  | Bool (b : bool)
  | Num (x : number)
  | Str (s : string).

(** ToBoolean, the test of [if (v)], [v ? a : b] and [a && b]. *)
Definition toBoolean (v : value) : bool :=
  match v with
  | Undefined | Null => false
  | Bool b => b
  | Num (S754_zero _) | Num S754_nan => false
  | Num _ => true
  | Str EmptyString => false
  | Str _ => true
  end.

(** [String(v)]. *)
Definition toString (v : value) : string :=
  match v with
  | Undefined => "undefined"
  | Null => "null"
  | Bool true => "true"
  | Bool false => "false"
  | Num x => numberToString x
  | Str s => s
  end.

(** ** Objects used as rows *)

(** A row object: its own properties in [Object.keys] order. *)
Definition object : Type := list (string * value).

Definition keys (o : object) : list string := map fst o.

(** [o[k]]: the value of the first property named [k], [undefined] when
    there is none. *)
Fixpoint get (o : object) (k : string) : value :=
  match o with
  | [] => Undefined
  | (k', v) :: rest => if String.eqb k' k then v else get rest k
  end.

(** ** Completions *)

(** The outcome of code that can throw; only the [message] of the
    thrown error is ever read. *)
Inductive Completion (A : Type) : Type :=
  | Normal (a : A)
  | Throw (message : string).

Arguments Normal {A} a.
Arguments Throw {A} message.

Definition bindC {A B} (c : Completion A) (f : A -> Completion B) : Completion B :=
  match c with
  | Normal a => f a
  | Throw msg => Throw msg
  end.

(** Code that also writes [console.warn] lines: the lines written, in
    order, and the completion. *)
Definition Eff (A : Type) : Type := list string * Completion A.

Definition ret {A} (a : A) : Eff A := ([], Normal a).

Definition warn (line : string) : Eff unit := ([line], Normal tt).

Definition lift {A} (c : Completion A) : Eff A := ([], c).

Definition bind {A B} (c : Eff A) (f : A -> Eff B) : Eff B :=
  match c with
  | (w1, Normal a) => let '(w2, r) := f a in ((w1 ++ w2)%list, r)
  | (w1, Throw msg) => (w1, Throw msg)
  end.

End JS.

Declare Scope eff_scope.
Delimit Scope eff_scope with eff.
Notation "x <- c ;; k" := (JS.bind c (fun x => k))
  (at level 61, c at next level, right associativity) : eff_scope.
Notation "c ;;; k" := (JS.bind c (fun _ => k))
  (at level 61, right associativity) : eff_scope.
Notation "x <~ c ;; k" := (JS.bindC c (fun x => k))
  (at level 61, c at next level, right associativity) : eff_scope.

(* ================================================================== *)
(** * What the host and the SheetJS library provide *)
(* ================================================================== *)

Module XLSX.

(** The fields of the object [XLSX.SSF.parse_date_code] returns that the
    code reads. *)
Record DateCode : Type := { y : Z; m : Z; d : Z }.

(** A decoded workbook: [SheetNames] in order, each with
    [XLSX.utils.sheet_to_json(workbook.Sheets[sheetName])]. *)
Definition Workbook : Type := list (string * list JS.object).

(** The civil date of a day count from 1970-01-01 (proleptic Gregorian
    calendar), which is what [new Date(1900, 0, 1)] followed by
    [setDate] computes on the calendar fields. *)
Definition civilFromDays (days : Z) : DateCode :=
  let z := (days + 719468)%Z in
  let era := (z / 146097)%Z in
  let doe := (z - era * 146097)%Z in
  let yoe := ((doe - doe / 1460 + doe / 36524 - doe / 146096) / 365)%Z in
  let doy := (doe - (365 * yoe + yoe / 4 - yoe / 100))%Z in
  let mp := ((5 * doy + 2) / 153)%Z in
  let day := (doy - (153 * mp + 2) / 5 + 1)%Z in
  let month := if (mp <? 10)%Z then (mp + 3)%Z else (mp - 9)%Z in
  let year := (yoe + era * 400 + (if (month <=? 2)%Z then 1 else 0))%Z in
  {| y := year; m := month; d := day |}.

(** The library's [parse_date_code] on the 1900 date system: [null]
    outside 0 .. 2958465; serial 60 is the 29 February 1900 of the
    spreadsheet calendar, serial 0 is "1900-01-00", and serial 1 is
    1 January 1900.  Only the whole days of the serial are read: the
    library also rounds a time of day within a ten-thousandth of a
    second of midnight up to the next day, which is left out, so this
    function is exact on whole-number serials. *)
Definition parse_date_code (v : JS.number) : option DateCode :=
  if (JS.lt (JS.ofZ 2958465) v || JS.lt v JS.zero)%bool then None
  else
    let date := JS.toInt32 v in
    if (date =? 60)%Z then Some {| y := 1900; m := 2; d := 29 |}
    else if (date =? 0)%Z then Some {| y := 1900; m := 1; d := 0 |}
    else
      let date' := if (60 <? date)%Z then (date - 1)%Z else date in
      Some (civilFromDays (date' - 1 - 25567)).

End XLSX.

(** The parts of the run-time environment that the code calls and that
    neither the repository nor the language fixes. *)
Record Host : Type := {
  (** [XLSX.SSF.parse_date_code(v)]; [None] is [null]. *)
  parse_date_code : JS.number -> option XLSX.DateCode;
  (** [new Date(text)] for a text: [None] when [getTime()] is NaN,
      else [toISOString().split('T')[0]]. *)
  isoDateOfText : string -> option string;
  (** The [message] of the TypeError raised by reading a property of
      [null]. *)
  nullReadMessage : string
}.

(* ================================================================== *)
(** * The decoders shared by every row normaliser *)
(* ================================================================== *)

Section Decoders.

Variable H : Host.

(** [Object.keys(row).find(key => tokens.some(t =>
    key.toLowerCase().includes(t)))]: the source writes the disjunction
    of [includes] tests out, in the order of [tokens]. *)
Definition matchesAny (tokens : list string) (key : string) : bool :=
  existsb (fun t => JS.includes (JS.toLowerCase key) t) tokens.

Definition findKey (tokens : list string) (row : JS.object) : option string :=
  find (matchesAny tokens) (JS.keys row).

(** The template literal
    [`${date.y}-${String(date.m).padStart(2, '0')}-${String(date.d).padStart(2, '0')}`]. *)
Definition formatDateCode (date : XLSX.DateCode) : string :=
  JS.ZToString (XLSX.y date) ++ "-" ++
  JS.padStart0 2 (JS.ZToString (XLSX.m date)) ++ "-" ++
  JS.padStart0 2 (JS.ZToString (XLSX.d date)).

(** [new Date(v)] for a truthy [v] that is not a number, then
    [toISOString().split('T')[0]] when [getTime()] is not NaN.  A text
    goes to the host's parser; [true] is the time value 1, a millisecond
    into 1970-01-01. *)
Definition isoDate (v : JS.value) : option string :=
  match v with
  | JS.Str s => isoDateOfText H s
  | JS.Bool true => Some "1970-01-01"
  | _ => None
  end.

(** The "Parse date" block, the same in the four normalisers:
<<
    let dateStr = row[key];
    if (typeof dateStr === 'number') {
      const date = XLSX.SSF.parse_date_code(dateStr);
      dateStr = `${date.y}-...`;            // throws when date is null
    } else if (dateStr) {
      const parsedDate = new Date(dateStr);
      if (!isNaN(parsedDate.getTime())) dateStr = parsedDate.toISOString().split('T')[0];
    }
>> *)
Definition decodeDate (dateStr : JS.value) : JS.Completion JS.value :=
  match dateStr with
  | JS.Num x =>
      match parse_date_code H x with
      | Some date => JS.Normal (JS.Str (formatDateCode date))
      | None => JS.Throw (nullReadMessage H)
      end
  | _ =>
      if JS.toBoolean dateStr
      then match isoDate dateStr with
           | Some iso => JS.Normal (JS.Str iso)
           | None => JS.Normal dateStr
           end
      else JS.Normal dateStr
  end.

(** [s.replace(/[₹,\s]/g, '')]. *)
Definition stripCurrency (s : string) : string :=
  JS.removeAll ("₹" :: "," :: JS.whiteSpace) s.

(** [parseFloat(String(cell).replace(/[₹,\s]/g, ''))]. *)
Definition decodeAmount (cell : JS.value) : JS.number :=
  JS.parseFloat (stripCurrency (JS.toString cell)).

End Decoders.

(* ================================================================== *)
(** * upload-modal.tsx *)
(* ================================================================== *)

Module Modal.

(** [interface ParsedTransaction].  [date] holds whatever the date block
    leaves in [dateStr], which is a text except for a falsy cell. *)
Record ParsedTransaction : Type := {
  date : JS.value;
  description : string;
  category : string;
  amount : JS.number;
  type : string;
  source : option string
}.

(** [interface ParsedEMI]; the fields are prefixed where two records of
    the source share a name. *)
Record ParsedEMI : Type := {
  emi_name : string;
  emi_amount : JS.number;
  dueDate : JS.value;
  totalAmount : option JS.number;
  paid : JS.number
}.

(** [interface ParsedSavingsGoal]. *)
Record ParsedSavingsGoal : Type := {
  goal_name : string;
  targetAmount : JS.number;
  currentAmount : JS.number;
  deadline : JS.value
}.

(** [interface ParsedData]. *)
Record ParsedData : Type := {
  transactions : list ParsedTransaction;
  emis : list ParsedEMI;
  savingsGoals : list ParsedSavingsGoal
}.

Section Normalisers.

Variable H : Host.

(** The token lists of [parseTransactionsSheet]. *)
Definition dateTokens := ["date"].
Definition descTokens := ["description"; "details"; "particulars"; "narration"].
Definition categoryTokens := ["category"].
Definition amountTokens := ["amount"; "debit"; "credit"].
Definition typeTokens := ["type"].
Definition sourceTokens := ["source"; "account"].

(** The warning of a row whose amount is NaN; [i] is the loop index. *)
Definition invalidAmountWarning (i : nat) : string :=
  "Row " ++ JS.natToString (i + 2) ++ " has invalid amount, skipping".

(** The body of the loop of [parseTransactionsSheet] for the row at
    index [i]: [None] is a [continue], [Some t] the record pushed.  The
    set [missingFields] the loop fills is never read and is left out.  A
    key that [find] returns contains a token, so it is a non-empty text
    and [!key] only tests that none was found. *)
Definition transactionOfRow (i : nat) (row : JS.object)
  : JS.Eff (option ParsedTransaction) :=
  let dateKey := findKey dateTokens row in
  let descKey := findKey descTokens row in
  let categoryKey := findKey categoryTokens row in
  let amountKey := findKey amountTokens row in
  let typeKey := findKey typeTokens row in
  let sourceKey := findKey sourceTokens row in
  match dateKey, descKey, amountKey with
  | Some dateKey, Some descKey, Some amountKey =>
      (dateStr <- JS.lift (decodeDate H (JS.get row dateKey)) ;;
       let amount := decodeAmount (JS.get row amountKey) in
       if JS.isNaN amount
       then (JS.warn (invalidAmountWarning i) ;;; JS.ret None)
       else
         let transactionType :=
           match typeKey with
           | Some typeKey =>
               if JS.toBoolean (JS.get row typeKey)
               then JS.toString (JS.get row typeKey)
               else if JS.lt amount JS.zero then "Expense" else "Income"
           | None => if JS.lt amount JS.zero then "Expense" else "Income"
           end in
         JS.ret (Some
           {| date := dateStr;
              description := JS.toString (JS.get row descKey);
              category := match categoryKey with
                          | Some categoryKey => JS.toString (JS.get row categoryKey)
                          | None => "Uncategorized"
                          end;
              amount := JS.abs amount;
              type := transactionType;
              source := match sourceKey with
                        | Some sourceKey => Some (JS.toString (JS.get row sourceKey))
                        | None => None
                        end |}))%eff
  | _, _, _ => JS.ret None
  end.

(** [for (let i = 0; i < jsonData.length; i++)]: the rows from index [i]
    on, [transactions] being the array built so far. *)
Fixpoint transactionsLoop (i : nat) (rows : list JS.object)
    (transactions : list ParsedTransaction) : JS.Eff (list ParsedTransaction) :=
  match rows with
  | [] => JS.ret transactions
  | row :: rest =>
      (r <- transactionOfRow i row ;;
       transactionsLoop (S i) rest
         (match r with
          | Some t => (transactions ++ [t])%list
          | None => transactions
          end))%eff
  end.

Definition parseTransactionsSheet (jsonData : list JS.object)
    (availableColumns : list string) : JS.Eff (list ParsedTransaction) :=
  transactionsLoop 0 jsonData [].

(** [for (const row of jsonData)] around a body that either continues
    or pushes one record. *)
Fixpoint pushEach {A : Type} (body : JS.object -> JS.Completion (option A))
    (rows : list JS.object) (out : list A) : JS.Completion (list A) :=
  match rows with
  | [] => JS.Normal out
  | row :: rest =>
      (r <~ body row ;;
       pushEach body rest
         (match r with
          | Some a => (out ++ [a])%list
          | None => out
          end))%eff
  end.

(** The token lists of [parseEMISheet]. *)
Definition emiNameTokens := ["name"; "loan"; "emi"].
Definition emiAmountTokens := ["amount"; "emi"].
Definition dueDateTokens := ["due"; "date"; "end"].
Definition totalTokens := ["total"].
Definition paidTokens := ["paid"].

(** The body of the loop of [parseEMISheet]. *)
Definition emiOfRow (row : JS.object) : JS.Completion (option ParsedEMI) :=
  let nameKey := findKey emiNameTokens row in
  let amountKey := findKey emiAmountTokens row in
  let dueDateKey := findKey dueDateTokens row in
  let totalKey := findKey totalTokens row in
  let paidKey := findKey paidTokens row in
  match nameKey, amountKey, dueDateKey with
  | Some nameKey, Some amountKey, Some dueDateKey =>
      (dateStr <~ decodeDate H (JS.get row dueDateKey) ;;
       let amount := decodeAmount (JS.get row amountKey) in
       if JS.isNaN amount then JS.Normal None
       else
         JS.Normal (Some
           {| emi_name := JS.toString (JS.get row nameKey);
              emi_amount := amount;
              dueDate := dateStr;
              totalAmount := match totalKey with
                             | Some totalKey => Some (decodeAmount (JS.get row totalKey))
                             | None => None
                             end;
              paid := match paidKey with
                      | Some paidKey => decodeAmount (JS.get row paidKey)
                      | None => JS.zero
                      end |}))%eff
  | _, _, _ => JS.Normal None
  end.

Definition parseEMISheet (jsonData : list JS.object) : JS.Completion (list ParsedEMI) :=
  pushEach emiOfRow jsonData [].

(** The token lists of [parseSavingsSheet]. *)
Definition goalNameTokens := ["name"; "goal"].
Definition targetTokens := ["target"; "goal"].
Definition currentTokens := ["current"; "saved"].
Definition deadlineTokens := ["deadline"; "date"; "target date"].

(** The body of the loop of [parseSavingsSheet]. *)
Definition goalOfRow (row : JS.object) : JS.Completion (option ParsedSavingsGoal) :=
  let nameKey := findKey goalNameTokens row in
  let targetKey := findKey targetTokens row in
  let currentKey := findKey currentTokens row in
  let deadlineKey := findKey deadlineTokens row in
  match nameKey, targetKey, deadlineKey with
  | Some nameKey, Some targetKey, Some deadlineKey =>
      (dateStr <~ decodeDate H (JS.get row deadlineKey) ;;
       let target := decodeAmount (JS.get row targetKey) in
       let current := match currentKey with
                      | Some currentKey => decodeAmount (JS.get row currentKey)
                      | None => JS.zero
                      end in
       if JS.isNaN target then JS.Normal None
       else
         JS.Normal (Some
           {| goal_name := JS.toString (JS.get row nameKey);
              targetAmount := target;
              currentAmount := current;
              deadline := dateStr |}))%eff
  | _, _, _ => JS.Normal None
  end.

Definition parseSavingsSheet (jsonData : list JS.object)
  : JS.Completion (list ParsedSavingsGoal) :=
  pushEach goalOfRow jsonData [].

(** The callback of [workbook.SheetNames.forEach]: [result] is the
    object the callback mutates. *)
Definition sheetCallback (result : ParsedData) (sheet : string * list JS.object)
  : JS.Eff ParsedData :=
  let '(sheetName, jsonData) := sheet in
  match jsonData with
  | [] => JS.ret result
  | firstRow :: _ =>
      let availableColumns := JS.keys firstRow in
      let sheetType := JS.toLowerCase sheetName in
      if (JS.includes sheetType "emi" || JS.includes sheetType "loan")%bool
      then
        (parsed <- JS.lift (parseEMISheet jsonData) ;;
         JS.ret {| transactions := transactions result;
                   emis := parsed;
                   savingsGoals := savingsGoals result |})%eff
      else if (JS.includes sheetType "saving" || JS.includes sheetType "goal")%bool
      then
        (parsed <- JS.lift (parseSavingsSheet jsonData) ;;
         JS.ret {| transactions := transactions result;
                   emis := emis result;
                   savingsGoals := parsed |})%eff
      else
        (parsed <- parseTransactionsSheet jsonData availableColumns ;;
         JS.ret {| transactions := (transactions result ++ parsed)%list;
                   emis := emis result;
                   savingsGoals := savingsGoals result |})%eff
  end.

Fixpoint forEachSheet (sheets : XLSX.Workbook) (result : ParsedData)
  : JS.Eff ParsedData :=
  match sheets with
  | [] => JS.ret result
  | sheet :: rest =>
      (result' <- sheetCallback result sheet ;; forEachSheet rest result')%eff
  end.

Definition emptyData : ParsedData :=
  {| transactions := []; emis := []; savingsGoals := [] |}.

(** What reading and decoding the file gave: [reader.onerror], or
    [reader.onload] with the outcome of [XLSX.read]. *)
Inductive FileRead : Type :=
  | ReadError
  | Loaded (workbook : JS.Completion XLSX.Workbook).

(** [parseExcelFile]: the settled promise, [Throw] being a rejection
    with the message of its [Error]. *)
Definition parseExcelFile (file : FileRead) : JS.Eff ParsedData :=
  match file with
  | ReadError => JS.lift (JS.Throw "Failed to read file")
  | Loaded (JS.Throw msg) => JS.lift (JS.Throw ("Failed to parse Excel file: " ++ msg))
  | Loaded (JS.Normal workbook) =>
      match forEachSheet workbook emptyData with
      | (w, JS.Normal result) => (w, JS.Normal result)
      | (w, JS.Throw msg) => (w, JS.Throw ("Failed to parse Excel file: " ++ msg))
      end
  end.

End Normalisers.

(** ** The upload handler *)

Inductive Toast : Type :=
  | ToastSuccess (text : string)
  | ToastError (text : string).

(** The component state and the toasts shown. *)
Record State : Type := {
  uploadedFile : option string;
  isProcessing : bool;
  parsedData : ParsedData;
  parseError : option string;
  toasts : list Toast
}.

(** The REST API the handler calls after parsing. *)
Record Backend : Type := {
  (** [fileApi.add] followed by the [add] of every transaction, EMI and
      savings goal; the id of the file record. *)
  store : string -> ParsedData -> JS.Completion string;
  (** [fileApi.setActive]. *)
  setActive : string -> JS.Completion unit
}.

Section Handler.

Variable H : Host.
Variable api : Backend.

Definition noValidData : string :=
  "No valid data found in file. Please check the format.".

(** The [summary] array of the success toast. *)
Definition summaryPart (count : nat) (what : string) : list string :=
  if (0 <? count)%nat then [JS.natToString count ++ what] else [].

Definition summary (data : ParsedData) : list string :=
  (summaryPart (List.length (transactions data)) " transactions" ++
   summaryPart (List.length (emis data)) " EMIs" ++
   summaryPart (List.length (savingsGoals data)) " savings goals")%list.

(** The [try] block of [handleFileUpload]: the data set by
    [setParsedData], the toasts shown, and how the block completes. *)
Definition tryUpload (fileName : string) (file : FileRead)
  : list string * (option ParsedData * list Toast * JS.Completion unit) :=
  match parseExcelFile H file with
  | (w, JS.Throw msg) => (w, (None, [], JS.Throw msg))
  | (w, JS.Normal data) =>
      (w,
       if ((List.length (transactions data) =? 0)%nat &&
           (List.length (emis data) =? 0)%nat &&
           (List.length (savingsGoals data) =? 0)%nat)%bool
       then (Some data, [], JS.Throw noValidData)
       else
         match store api fileName data with
         | JS.Throw msg => (Some data, [], JS.Throw msg)
         | JS.Normal fileId =>
             let success :=
               ToastSuccess ("Success! Imported " ++ JS.join ", " (summary data) ++
                             " from " ++ fileName) in
             (Some data, [success], setActive api fileId)
         end)
  end.

(** [handleFileUpload] for a chosen file, up to the end of its
    [finally]: the console warnings and the state the handler leaves.
    The [catch] shows [error.message || 'Failed to process file'] and
    resets the file name and the data. *)
Definition handleFileUpload (st : State) (fileName : string) (file : FileRead)
  : list string * State :=
  let '(w, (data, shown, completion)) := tryUpload fileName file in
  (w,
   match completion with
   | JS.Normal _ =>
       {| uploadedFile := Some fileName;
          isProcessing := false;
          parsedData := match data with Some d => d | None => parsedData st end;
          parseError := None;
          toasts := (toasts st ++ shown)%list |}
   | JS.Throw msg =>
       let text := if JS.toBoolean (JS.Str msg) then msg else "Failed to process file" in
       {| uploadedFile := None;
          isProcessing := false;
          parsedData := emptyData;
          parseError := Some text;
          toasts := (toasts st ++ shown ++ [ToastError text])%list |}
   end).

End Handler.

End Modal.

(* ================================================================== *)
(** * upload-page.tsx *)
(* ================================================================== *)

Module Page.

(** [interface ParsedTransaction] of the page has the fields of the
    modal's, and the same record is used. *)
Definition ParsedTransaction : Type := Modal.ParsedTransaction.

Section Parser.

Variable H : Host.

(** The token lists of the page's loop. *)
Definition dateTokens := ["date"].
Definition descTokens := ["description"; "details"; "particulars"].
Definition categoryTokens := ["category"].
Definition amountTokens := ["amount"].
Definition typeTokens := ["type"].
Definition sourceTokens := ["source"].

Definition missingFieldsWarning (i : nat) : string :=
  "Row " ++ JS.natToString (i + 2) ++ " is missing required fields, skipping".

Definition invalidAmountWarning (i : nat) : string :=
  "Row " ++ JS.natToString (i + 2) ++ " has invalid amount, skipping".

(** The body of the loop of the page's [parseExcelFile]. *)
Definition transactionOfRow (i : nat) (row : JS.object)
  : JS.Eff (option ParsedTransaction) :=
  let dateKey := findKey dateTokens row in
  let descKey := findKey descTokens row in
  let categoryKey := findKey categoryTokens row in
  let amountKey := findKey amountTokens row in
  let typeKey := findKey typeTokens row in
  let sourceKey := findKey sourceTokens row in
  match dateKey, descKey, amountKey, typeKey with
  | Some dateKey, Some descKey, Some amountKey, Some typeKey =>
      (dateStr <- JS.lift (decodeDate H (JS.get row dateKey)) ;;
       let amount := decodeAmount (JS.get row amountKey) in
       if JS.isNaN amount
       then (JS.warn (invalidAmountWarning i) ;;; JS.ret None)
       else
         JS.ret (Some
           {| Modal.date := dateStr;
              Modal.description := JS.toString (JS.get row descKey);
              Modal.category := match categoryKey with
                                | Some categoryKey => JS.toString (JS.get row categoryKey)
                                | None => "Uncategorized"
                                end;
              Modal.amount := JS.abs amount;
              Modal.type := JS.toString (JS.get row typeKey);
              Modal.source := match sourceKey with
                              | Some sourceKey => Some (JS.toString (JS.get row sourceKey))
                              | None => None
                              end |}))%eff
  | _, _, _, _ => (JS.warn (missingFieldsWarning i) ;;; JS.ret None)%eff
  end.

Fixpoint transactionsLoop (i : nat) (rows : list JS.object)
    (transactions : list ParsedTransaction) : JS.Eff (list ParsedTransaction) :=
  match rows with
  | [] => JS.ret transactions
  | row :: rest =>
      (r <- transactionOfRow i row ;;
       transactionsLoop (S i) rest
         (match r with
          | Some t => (transactions ++ [t])%list
          | None => transactions
          end))%eff
  end.

(** [XLSX.utils.sheet_to_json(workbook.Sheets[workbook.SheetNames[0]])];
    the library gives no rows for a sheet that is not there. *)
Definition firstSheet (workbook : XLSX.Workbook) : list JS.object :=
  match workbook with
  | [] => []
  | (_, jsonData) :: _ => jsonData
  end.

(** The page's [parseExcelFile]: the settled promise. *)
Definition parseExcelFile (file : Modal.FileRead) : JS.Eff (list ParsedTransaction) :=
  match file with
  | Modal.ReadError => JS.lift (JS.Throw "Failed to read file")
  | Modal.Loaded (JS.Throw msg) =>
      JS.lift (JS.Throw ("Failed to parse Excel file: " ++ msg))
  | Modal.Loaded (JS.Normal workbook) =>
      match firstSheet workbook with
      | [] => JS.lift (JS.Throw "Excel file is empty")
      | jsonData =>
          match transactionsLoop 0 jsonData [] with
          | (w, JS.Normal []) =>
              (w, JS.Throw "No valid transactions found in file. Please check the format.")
          | (w, JS.Normal transactions) => (w, JS.Normal transactions)
          | (w, JS.Throw msg) => (w, JS.Throw ("Failed to parse Excel file: " ++ msg))
          end
      end
  end.

End Parser.

End Page.

(* ================================================================== *)
(** * The specification's sheet classifier *)
(* ================================================================== *)

Module Spec.

(** SheetRole of the specification. *)
Inductive SheetRole : Type :=
  | Transactions
  | Installments
  | SavingsGoals.

(** The specification's rule, in its priority order: (a) the sheet name
    contains "emi" or "loan", whatever the case, gives Installments; (b)
    the name contains "saving" or "goal" gives SavingsGoals; (c)
    otherwise Transactions. *)
Definition nameContains (sheetName word : string) : bool :=
  JS.includes (JS.toLowerCase sheetName) word.

Definition classify (sheetName : string) : SheetRole :=
  if (nameContains sheetName "emi" || nameContains sheetName "loan")%bool
  then Installments
  else if (nameContains sheetName "saving" || nameContains sheetName "goal")%bool
  then SavingsGoals
  else Transactions.

End Spec.

(* ================================================================== *)
(** * A host for the worked examples *)
(* ================================================================== *)

Module Example.

Definition isLeapYear (year : Z) : bool :=
  ((year mod 4 =? 0) && (negb (year mod 100 =? 0) || (year mod 400 =? 0)))%Z%bool.

Definition daysInMonth (year month : Z) : Z :=
  if (month =? 2)%Z then (if isLeapYear year then 29 else 28)%Z
  else if ((month =? 4) || (month =? 6) || (month =? 9) || (month =? 11))%Z%bool
  then 30%Z else 31%Z.

(** A date parser that recognises a calendar date written YYYY-MM-DD,
    which [new Date] reads as midnight UTC of that day, and no other
    text. *)
Definition isoDateOnly (text : string) : option string :=
  match list_ascii_of_string text with
  | [y1; y2; y3; y4; "-"%char; m1; m2; "-"%char; d1; d2] =>
      if forallb JS.isDigit [y1; y2; y3; y4; m1; m2; d1; d2]
      then
        let year := JS.digitsToZ [y1; y2; y3; y4] in
        let month := JS.digitsToZ [m1; m2] in
        let day := JS.digitsToZ [d1; d2] in
        if ((1 <=? month) && (month <=? 12) &&
            (1 <=? day) && (day <=? daysInMonth year month))%Z%bool
        then Some text else None
      else None
  | _ => None
  end.

(** SheetJS's date codes, the date parser above, and the message V8
    gives for [date.y] on [null]. *)
Definition host : Host :=
  {| parse_date_code := XLSX.parse_date_code;
     isoDateOfText := isoDateOnly;
     nullReadMessage := "Cannot read properties of null (reading 'y')" |}.

(** ** Rows and workbooks of the examples *)

(** The row [{Date: 45000, Description: "Rent", Amount: "₹ 15,000"}]. *)
Definition rentRow : JS.object :=
  [("Date", JS.Num (JS.ofZ 45000));
   ("Description", JS.Str "Rent");
   ("Amount", JS.Str "₹ 15,000")].

Definition rentRecord : Modal.ParsedTransaction :=
  {| Modal.date := JS.Str "2023-03-15";
     Modal.description := "Rent";
     Modal.category := "Uncategorized";
     Modal.amount := JS.ofZ 15000;
     Modal.type := "Income";
     Modal.source := None |}.

(** A well-formed row for day [n] of a statement, and a row whose amount
    is the text "N/A". *)
Definition entryRow (n : Z) : JS.object :=
  [("Date", JS.Num (JS.ofZ (45000 + n)));
   ("Description", JS.Str ("Entry " ++ JS.ZToString n));
   ("Amount", JS.Num (JS.ofZ (100 * n)))].

Definition entryRecord (n : Z) : Modal.ParsedTransaction :=
  {| Modal.date := JS.Str ("2023-03-" ++ JS.ZToString (15 + n));
     Modal.description := "Entry " ++ JS.ZToString n;
     Modal.category := "Uncategorized";
     Modal.amount := JS.ofZ (100 * n);
     Modal.type := "Income";
     Modal.source := None |}.

Definition badAmountRow : JS.object :=
  [("Date", JS.Num (JS.ofZ 45004));
   ("Description", JS.Str "Entry 4");
   ("Amount", JS.Str "N/A")].

Definition firstThree : list JS.object := map entryRow [1; 2; 3]%Z.
Definition lastSix : list JS.object := map entryRow [5; 6; 7; 8; 9; 10]%Z.

(** Ten rows, the fourth with the amount "N/A", and the same sheet
    without that row. *)
Definition tenRows : list JS.object := (firstThree ++ badAmountRow :: lastSix)%list.
Definition nineRows : list JS.object := (firstThree ++ lastSix)%list.

Definition statement (rows : list JS.object) : Modal.FileRead :=
  Modal.Loaded (JS.Normal [("Q1", rows)]).

(** A row whose "Credit" column stands before its "Amount" column. *)
Definition creditAmountRow : JS.object :=
  [("Credit", JS.Str "200");
   ("Amount", JS.Str "100");
   ("Date", JS.Num (JS.ofZ 45000));
   ("Description", JS.Str "Transfer")].

(** A transactions row with a "Type" column and a date written as text. *)
Definition typedRow : JS.object :=
  [("Date", JS.Str "2023-03-15");
   ("Description", JS.Str "Groceries");
   ("Amount", JS.Str "-1,250.50");
   ("Type", JS.Str "expense")].

(** An instalment row with a negative amount and no "total" or "paid"
    column, and a row of a savings sheet whose only column besides the
    deadline is "Goal". *)
Definition carLoanRow : JS.object :=
  [("Loan", JS.Str "Car");
   ("Amount", JS.Str "-500");
   ("Due", JS.Num (JS.ofZ 45000))].

Definition homeLoanRow : JS.object :=
  [("Loan", JS.Str "Home");
   ("Amount", JS.Num (JS.ofZ 900));
   ("Due", JS.Num (JS.ofZ 45031))].

Definition goalRow : JS.object :=
  [("Goal", JS.Str "5000");
   ("Deadline", JS.Num (JS.ofZ 45000))].

(** Two statement sheets and two instalment sheets, interleaved. *)
Definition mixedWorkbook : Modal.FileRead :=
  Modal.Loaded (JS.Normal
    [("Q1", [rentRow]); ("EMI 1", [carLoanRow]);
     ("Q2", [typedRow]); ("EMI 2", [homeLoanRow])]).

Definition carLoanRecord : Modal.ParsedEMI :=
  {| Modal.emi_name := "Car";
     Modal.emi_amount := JS.parseFloat "-500";
     Modal.dueDate := JS.Str "2023-03-15";
     Modal.totalAmount := None;
     Modal.paid := JS.zero |}.

Definition homeLoanRecord : Modal.ParsedEMI :=
  {| Modal.emi_name := "Home";
     Modal.emi_amount := JS.ofZ 900;
     Modal.dueDate := JS.Str "2023-04-15";
     Modal.totalAmount := None;
     Modal.paid := JS.zero |}.

Definition typedRecord : Modal.ParsedTransaction :=
  {| Modal.date := JS.Str "2023-03-15";
     Modal.description := "Groceries";
     Modal.category := "Uncategorized";
     Modal.amount := JS.parseFloat "1250.5";
     Modal.type := "expense";
     Modal.source := None |}.

(** A row whose "Type" cell holds the number 0, and a goal row whose
    deadline is a serial below zero. *)
Definition zeroTypeRow : JS.object :=
  [("Date", JS.Num (JS.ofZ 45000));
   ("Description", JS.Str "Refund");
   ("Amount", JS.Str "-250");
   ("Type", JS.Num (JS.ofZ 0))].

Definition zeroTypeRecord : Modal.ParsedTransaction :=
  {| Modal.date := JS.Str "2023-03-15";
     Modal.description := "Refund";
     Modal.category := "Uncategorized";
     Modal.amount := JS.ofZ 250;
     Modal.type := "Expense";
     Modal.source := None |}.

Definition goalRecord : Modal.ParsedSavingsGoal :=
  {| Modal.goal_name := "5000";
     Modal.targetAmount := JS.ofZ 5000;
     Modal.currentAmount := JS.zero;
     Modal.deadline := JS.Str "2023-03-15" |}.

Definition lateGoalRow : JS.object :=
  [("Goal", JS.Str "5000");
   ("Deadline", JS.Num (JS.ofZ (-1)))].

(** A workbook whose only sheet has one row with no usable column. *)
Definition notesOnly : Modal.FileRead :=
  Modal.Loaded (JS.Normal [("Notes", [[("Remark", JS.Str "nothing here")]])]).

(** A backend that stores everything under one id. *)
Definition backend : Modal.Backend :=
  {| Modal.store := fun _ _ => JS.Normal "file-1";
     Modal.setActive := fun _ => JS.Normal tt |}.

Definition idle : Modal.State :=
  {| Modal.uploadedFile := None;
     Modal.isProcessing := false;
     Modal.parsedData := Modal.emptyData;
     Modal.parseError := None;
     Modal.toasts := [] |}.

End Example.

(* ================================================================== *)
(** * Vocabulary of the statements *)
(* ================================================================== *)

Section Vocabulary.

Variable H : Host.

(** [row] is a valid transactions row of the modal and [t] is the record
    it pushes. *)
Definition emits (row : JS.object) (t : Modal.ParsedTransaction) : Prop :=
  Modal.transactionOfRow H 0 row = ([], JS.Normal (Some t)).

(** The three required headers of [row] are found, its date cell
    decodes without an exception, and its amount cell does not decode
    to a number. *)
Definition amountFails (row : JS.object) : Prop :=
  exists dateKey descKey amountKey dateStr,
    findKey Modal.dateTokens row = Some dateKey /\
    findKey Modal.descTokens row = Some descKey /\
    findKey Modal.amountTokens row = Some amountKey /\
    decodeDate H (JS.get row dateKey) = JS.Normal dateStr /\
    JS.isNaN (decodeAmount (JS.get row amountKey)) = true.

(** A valid transactions row of the modal: the three required headers
    are found, the date cell decodes without an exception and the
    amount cell decodes to a number. *)
Definition validRow (row : JS.object) : bool :=
  match findKey Modal.dateTokens row,
        findKey Modal.descTokens row,
        findKey Modal.amountTokens row with
  | Some dateKey, Some _, Some amountKey =>
      match decodeDate H (JS.get row dateKey) with
      | JS.Normal _ => negb (JS.isNaN (decodeAmount (JS.get row amountKey)))
      | JS.Throw _ => false
      end
  | _, _, _ => false
  end.

(** The three required headers of [row] are found and its date cell
    makes the date block throw, which ends the normaliser. *)
Definition rowThrows (row : JS.object) : bool :=
  match findKey Modal.dateTokens row,
        findKey Modal.descTokens row,
        findKey Modal.amountTokens row with
  | Some dateKey, Some _, Some _ =>
      match decodeDate H (JS.get row dateKey) with
      | JS.Normal _ => false
      | JS.Throw _ => true
      end
  | _, _, _ => false
  end.

(** [0 <= x], which fails for NaN. *)
Definition nonNegative (x : JS.number) : Prop := SFleb JS.zero x = true.

(** [key] contains one of the words, whatever the case. *)
Definition containsAny (words : list string) (key : string) : Prop :=
  matchesAny words key = true.


(** A sheet that gives no record of any role. *)
Definition yieldsNothing (sheet : string * list JS.object) : Prop :=
  exists w, Modal.sheetCallback H Modal.emptyData sheet = (w, JS.Normal Modal.emptyData).




(** The words the modal accepts for a header and the page does not. *)
Definition modalOnlyTokens : list string := ["narration"; "debit"; "credit"; "account"].

(** A row on which the two transaction parsers read the same columns:
    no header contains a word only the modal knows, and a "type" header
    is found whose cell is truthy. *)
Definition readAlike (row : JS.object) : Prop :=
  Forall (fun k => ~ containsAny modalOnlyTokens k) (JS.keys row) /\
  exists typeKey,
    findKey Modal.typeTokens row = Some typeKey /\
    JS.toBoolean (JS.get row typeKey) = true.

End Vocabulary.

(* ================================================================== *)
(** * Numbers in JSON *)
(* ================================================================== *)

Module Json.

(** A number as [JSON.stringify] or [c.json] writes it and
    [response.json()] or [c.req.json()] reads it back: NaN and the
    infinities are written [null]; a finite number is printed with
    [Number::toString] and the text is read again. *)
Definition ofNumber (x : JS.number) : JS.value :=
  match x with
  | S754_finite _ _ _ | S754_zero _ => JS.Num (JS.parseFloat (JS.numberToString x))
  | _ => JS.Null
  end.

End Json.

(* ================================================================== *)
(** * supabase/functions/server/index.tsx *)
(* ================================================================== *)

Module Server.

(** The values of one request that the code reads from the clock and
    the random generator: [Date.now()], the text
    [Math.random().toString(36).substr(2, 9)] and
    [new Date().toISOString()]. *)
Record Stamp : Type := {
  now : Z;
  random36 : string;
  isoNow : string
}.

(** What the routes call and the repository does not fix. *)
Record Platform : Type := {
  (** [supabase.auth.getUser(token)]: the id of the user, [None] when
      the call gives an error or no user. *)
  getUser : string -> option string;
  (** The stamp of the n-th record the server creates. *)
  stamp : nat -> Stamp;
  (** [new Date(t.date).getFullYear().toString() === year]. *)
  yearIs : JS.value -> string -> bool;
  (** [new Date(t.date).getMonth() === parseInt(month)]. *)
  monthIs : JS.value -> string -> bool
}.

(** The key-value store.  [kv_store.tsx] is not among the sources:
    [kv.get] and [kv.set] are taken to read and to replace the value
    kept under a key, the value being kept as JSON carries it.  The
    keys are a family name followed by the user id, so keys of two
    families never coincide and the store is one map per family, from
    the user id to what the routes keep there: lists of objects with
    primitive fields, and the id of the active file ([undefined] when
    none was set).  [created] counts the records created, to index the
    stamps. *)
Record Store : Type := {
  transactions : string -> list JS.object;
  emis : string -> list JS.object;
  savings : string -> list JS.object;
  files : string -> list JS.object;
  activeFile : string -> JS.value;
  created : nat
}.

(** The map [m] with [v] under the key [k]. *)
Definition update {A : Type} (m : string -> A) (k : string) (v : A) : string -> A :=
  fun k' => if String.eqb k' k then v else m k'.

(** A response: [c.json(payload)] with its default status 200, or
    [c.json({ error }, status)].  The payload is what the client reads
    from the response.  A record a route builds is written as JSON both
    by [kv.set] and by [c.json]: its fields taken from the body are
    values JSON has brought, which it carries on as they are, and a
    number the route computes with [parseFloat] is carried as
    [Json.ofNumber] gives it, [null] when it is NaN or infinite. *)
Inductive Reply (A : Type) : Type :=
  | Ok (payload : A)
  | Failed (status : nat) (error : string).

Arguments Ok {A} payload.
Arguments Failed {A} status error.

(** [s.split(sep)] for a separator of one character. *)
Fixpoint splitFrom (sep : ascii) (current : string) (s : string) : list string :=
  match s with
  | EmptyString => [current]
  | String c rest =>
      if Ascii.eqb c sep
      then current :: splitFrom sep EmptyString rest
      else splitFrom sep (current ++ String c EmptyString) rest
  end.

Definition split (sep : ascii) (s : string) : list string :=
  splitFrom sep EmptyString s.

(** [a || b]. *)
Definition orElse (a b : JS.value) : JS.value :=
  if JS.toBoolean a then a else b.

(** [a === b] on primitive values. *)
Definition strictEq (a b : JS.value) : bool :=
  match a, b with
  | JS.Undefined, JS.Undefined => true
  | JS.Null, JS.Null => true
  | JS.Bool x, JS.Bool y => Bool.eqb x y
  | JS.Num x, JS.Num y => SFeqb x y
  | JS.Str s, JS.Str t => String.eqb s t
  | _, _ => false
  end.

(** [parseFloat(v)] of a primitive value, which is first made a text. *)
Definition parseFloatOf (v : JS.value) : JS.number :=
  JS.parseFloat (JS.toString v).

Section Routes.

Variable P : Platform.

(** [verifyUser]: an error text, or the id of the user. *)
Definition verifyUser (authHeader : option string) : string + string :=
  match authHeader with
  | None => inl "No authorization header"
  | Some EmptyString => inl "No authorization header"
  | Some header =>
      match nth_error (split " " header) 1 with
      | None => inl "No token provided"
      | Some EmptyString => inl "No token provided"
      | Some token =>
          match getUser P token with
          | Some user => inr user
          | None => inl "Invalid token or user not found"
          end
      end
  end.

(** The id of a new record:
    [`${prefix}_${Date.now()}_${Math.random().toString(36).substr(2, 9)}`]. *)
Definition newId (prefix : string) (s : Stamp) : string :=
  prefix ++ "_" ++ JS.ZToString (now s) ++ "_" ++ random36 s.

(** Every route starts with the same test:
<<
    const { error, user } = await verifyUser(c.req.header('Authorization'));
    if (error || !user) return c.json({ error: error || 'Unauthorized' }, 401);
>>
    The [catch] of a route, which answers 500, is for a store that
    cannot be reached and a body that is not JSON, which the model does
    not have. *)
Definition authorised {A : Type} (authHeader : option string) (store : Store)
    (route : string -> Reply A * Store) : Reply A * Store :=
  match verifyUser authHeader with
  | inl error => (Failed 401 error, store)
  | inr user => route user
  end.

(** [app.post(".../transactions")]. *)
Definition postTransaction (authHeader : option string) (body : JS.object)
    (store : Store) : Reply JS.object * Store :=
  authorised authHeader store (fun user =>
    let date := JS.get body "date" in
    let description := JS.get body "description" in
    let category := JS.get body "category" in
    let amount := JS.get body "amount" in
    let type := JS.get body "type" in
    let source := JS.get body "source" in
    let fileId := JS.get body "fileId" in
    if (negb (JS.toBoolean date) || negb (JS.toBoolean description) ||
        negb (JS.toBoolean category) || negb (JS.toBoolean amount) ||
        negb (JS.toBoolean type))%bool
    then (Failed 400 "Missing required fields", store)
    else
      let existingTransactions := transactions store user in
      let s := stamp P (created store) in
      let newTransaction : JS.object :=
        [("id", JS.Str (newId "txn" s));
         ("date", date);
         ("description", description);
         ("category", category);
         ("amount", Json.ofNumber (parseFloatOf amount));
         ("type", type);
         ("source", orElse source JS.Null);
         ("fileId", orElse fileId JS.Null);
         ("createdAt", JS.Str (isoNow s))] in
      (Ok newTransaction,
       {| transactions := update (transactions store) user
                            (existingTransactions ++ [newTransaction])%list;
          emis := emis store;
          savings := savings store;
          files := files store;
          activeFile := activeFile store;
          created := S (created store) |})).

(** The query of [app.get(".../transactions")]: [c.req.query(name)] for
    the four names. *)
Record TransactionQuery : Type := {
  q_year : option string;
  q_month : option string;
  q_type : option string;
  q_fileId : option string
}.

(** [if (param) items = items.filter(test)]: an absent or empty parameter
    filters nothing. *)
Definition filterIf (param : option string) (test : string -> JS.object -> bool)
    (items : list JS.object) : list JS.object :=
  match param with
  | None => items
  | Some EmptyString => items
  | Some text => filter (test text) items
  end.

(** [app.get(".../transactions")]. *)
Definition getTransactions (authHeader : option string) (query : TransactionQuery)
    (store : Store) : Reply (list JS.object) * Store :=
  authorised authHeader store (fun user =>
    let all := transactions store user in
    let byFile :=
      filterIf (q_fileId query)
        (fun fileId t => strictEq (JS.get t "fileId") (JS.Str fileId)) all in
    let byYear :=
      filterIf (q_year query) (fun year t => yearIs P (JS.get t "date") year) byFile in
    let byMonth :=
      filterIf (q_month query) (fun month t => monthIs P (JS.get t "date") month) byYear in
    let byType :=
      filterIf (q_type query)
        (fun type t => strictEq (JS.get t "type") (JS.Str type)) byMonth in
    (Ok byType, store)).

(** [app.delete(".../transactions/:id")]. *)
Definition deleteTransaction (authHeader : option string) (transactionId : string)
    (store : Store) : Reply unit * Store :=
  authorised authHeader store (fun user =>
    let existing := transactions store user in
    let updatedTransactions :=
      filter (fun t => negb (strictEq (JS.get t "id") (JS.Str transactionId))) existing in
    if (List.length existing =? List.length updatedTransactions)%nat
    then (Failed 404 "Transaction not found", store)
    else
      (Ok tt,
       {| transactions := update (transactions store) user updatedTransactions;
          emis := emis store;
          savings := savings store;
          files := files store;
          activeFile := activeFile store;
          created := created store |})).

(** [app.post(".../emis")]. *)
Definition postEmi (authHeader : option string) (body : JS.object)
    (store : Store) : Reply JS.object * Store :=
  authorised authHeader store (fun user =>
    let name := JS.get body "name" in
    let amount := JS.get body "amount" in
    let dueDate := JS.get body "dueDate" in
    let totalAmount := JS.get body "totalAmount" in
    let paid := JS.get body "paid" in
    let fileId := JS.get body "fileId" in
    if (negb (JS.toBoolean name) || negb (JS.toBoolean amount) ||
        negb (JS.toBoolean dueDate))%bool
    then (Failed 400 "Missing required fields", store)
    else
      let existingEmis := emis store user in
      let s := stamp P (created store) in
      let newEmi : JS.object :=
        [("id", JS.Str (newId "emi" s));
         ("name", name);
         ("amount", Json.ofNumber (parseFloatOf amount));
         ("dueDate", dueDate);
         ("totalAmount",
          Json.ofNumber (if JS.toBoolean totalAmount then parseFloatOf totalAmount
                         else JS.zero));
         ("paid",
          Json.ofNumber (if JS.toBoolean paid then parseFloatOf paid else JS.zero));
         ("status", JS.Str "upcoming");
         ("fileId", orElse fileId JS.Null);
         ("createdAt", JS.Str (isoNow s))] in
      (Ok newEmi,
       {| transactions := transactions store;
          emis := update (emis store) user (existingEmis ++ [newEmi])%list;
          savings := savings store;
          files := files store;
          activeFile := activeFile store;
          created := S (created store) |})).

(** [app.post(".../savings")]. *)
Definition postSavings (authHeader : option string) (body : JS.object)
    (store : Store) : Reply JS.object * Store :=
  authorised authHeader store (fun user =>
    let name := JS.get body "name" in
    let targetAmount := JS.get body "targetAmount" in
    let currentAmount := JS.get body "currentAmount" in
    let deadline := JS.get body "deadline" in
    let status := JS.get body "status" in
    let fileId := JS.get body "fileId" in
    if (negb (JS.toBoolean name) || negb (JS.toBoolean targetAmount) ||
        negb (JS.toBoolean deadline))%bool
    then (Failed 400 "Missing required fields", store)
    else
      let existingSavings := savings store user in
      let s := stamp P (created store) in
      let newGoal : JS.object :=
        [("id", JS.Str (newId "goal" s));
         ("name", name);
         ("targetAmount", Json.ofNumber (parseFloatOf targetAmount));
         ("currentAmount",
          Json.ofNumber (if JS.toBoolean currentAmount then parseFloatOf currentAmount
                         else JS.zero));
         ("deadline", deadline);
         ("status", orElse status (JS.Str "on-track"));
         ("fileId", orElse fileId JS.Null);
         ("createdAt", JS.Str (isoNow s))] in
      (Ok newGoal,
       {| transactions := transactions store;
          emis := emis store;
          savings := update (savings store) user (existingSavings ++ [newGoal])%list;
          files := files store;
          activeFile := activeFile store;
          created := S (created store) |})).

(** [app.post(".../files")]. *)
Definition postFile (authHeader : option string) (body : JS.object)
    (store : Store) : Reply JS.object * Store :=
  authorised authHeader store (fun user =>
    let fileName := JS.get body "fileName" in
    let transactionCount := JS.get body "transactionCount" in
    if (negb (JS.toBoolean fileName) || negb (JS.toBoolean transactionCount))%bool
    then (Failed 400 "Missing required fields", store)
    else
      let existingFiles := files store user in
      let s := stamp P (created store) in
      let newFile : JS.object :=
        [("id", JS.Str (newId "file" s));
         ("fileName", fileName);
         ("transactionCount", transactionCount);
         ("uploadedAt", JS.Str (isoNow s))] in
      (Ok newFile,
       {| transactions := transactions store;
          emis := emis store;
          savings := savings store;
          files := update (files store) user (existingFiles ++ [newFile])%list;
          activeFile := update (activeFile store) user (JS.get newFile "id");
          created := S (created store) |})).

(** [app.post(".../files/active")]. *)
Definition postActiveFile (authHeader : option string) (body : JS.object)
    (store : Store) : Reply JS.value * Store :=
  authorised authHeader store (fun user =>
    let fileId := JS.get body "fileId" in
    if negb (JS.toBoolean fileId)
    then (Failed 400 "File ID is required", store)
    else
      (Ok fileId,
       {| transactions := transactions store;
          emis := emis store;
          savings := savings store;
          files := files store;
          activeFile := update (activeFile store) user fileId;
          created := created store |})).

End Routes.

End Server.
(* ================================================================== *)
(** * utils/api.ts *)
(* ================================================================== *)

Module Api.

(** A primitive value as [JSON.stringify] writes it and [c.req.json()]
    reads it back: a number goes as [Json.ofNumber] says, NaN and the
    infinities becoming [null]; a text, a boolean and [null] go as they
    are. *)
Definition jsonValue (v : JS.value) : JS.value :=
  match v with
  | JS.Num x => Json.ofNumber x
  | _ => v
  end.

(** [JSON.stringify(object)] read back by the server: a property whose
    value is [undefined] is left out. *)
Fixpoint json (fields : JS.object) : JS.object :=
  match fields with
  | [] => []
  | (_, JS.Undefined) :: rest => json rest
  | (k, v) :: rest => (k, jsonValue v) :: json rest
  end.

(** The header every call of the client sends:
    ['Authorization': `Bearer ${accessToken}`]. *)
Definition bearer (accessToken : string) : option string :=
  Some ("Bearer " ++ accessToken).

(** [apiCall]: the data of a response that is [ok], and otherwise
    [throw new Error(data.error || 'API request failed')].  The data
    are the payload as the route built it; the handlers read nothing
    from it but the id of the file record, a text, which JSON carries
    unchanged. *)
Definition apiCall {A : Type} (response : Server.Reply A * Server.Store)
  : JS.Completion A * Server.Store :=
  match response with
  | (Server.Ok data, store) => (JS.Normal data, store)
  | (Server.Failed _ error, store) =>
      (JS.Throw (if JS.toBoolean (JS.Str error) then error else "API request failed"),
       store)
  end.

Section Calls.

Variable P : Server.Platform.
Variable accessToken : string.

(** [transactionApi.add]; the data is the [transaction] of the reply. *)
Definition transactionApi_add (transaction : JS.object) (store : Server.Store) :=
  apiCall (Server.postTransaction P (bearer accessToken) (json transaction) store).

(** [emiApi.add], [savingsApi.add]. *)
Definition emiApi_add (emi : JS.object) (store : Server.Store) :=
  apiCall (Server.postEmi P (bearer accessToken) (json emi) store).

Definition savingsApi_add (goal : JS.object) (store : Server.Store) :=
  apiCall (Server.postSavings P (bearer accessToken) (json goal) store).

(** [fileApi.add]; the data is the [file] of the reply. *)
Definition fileApi_add (file : JS.object) (store : Server.Store) :=
  apiCall (Server.postFile P (bearer accessToken) (json file) store).

(** [fileApi.setActive]. *)
Definition fileApi_setActive (fileId : JS.value) (store : Server.Store) :=
  apiCall (Server.postActiveFile P (bearer accessToken) (json [("fileId", fileId)]) store).

End Calls.

End Api.

(* ================================================================== *)
(** * The upload handlers against the server *)
(* ================================================================== *)

Module Flow.

(** The objects the handlers pass to the client: the parsed records as
    the object literals of the normalisers build them. *)
Definition transactionObject (t : Modal.ParsedTransaction) : JS.object :=
  [("date", Modal.date t);
   ("description", JS.Str (Modal.description t));
   ("category", JS.Str (Modal.category t));
   ("amount", JS.Num (Modal.amount t));
   ("type", JS.Str (Modal.type t));
   ("source", match Modal.source t with
              | Some s => JS.Str s
              | None => JS.Undefined
              end)].

Definition emiObject (e : Modal.ParsedEMI) : JS.object :=
  [("name", JS.Str (Modal.emi_name e));
   ("amount", JS.Num (Modal.emi_amount e));
   ("dueDate", Modal.dueDate e);
   ("totalAmount", match Modal.totalAmount e with
                   | Some x => JS.Num x
                   | None => JS.Undefined
                   end);
   ("paid", JS.Num (Modal.paid e))].

Definition goalObject (g : Modal.ParsedSavingsGoal) : JS.object :=
  [("name", JS.Str (Modal.goal_name g));
   ("targetAmount", JS.Num (Modal.targetAmount g));
   ("currentAmount", JS.Num (Modal.currentAmount g));
   ("deadline", Modal.deadline g)].

(** [{ ...record, fileId }]. *)
Definition withFileId (record : JS.object) (fileId : JS.value) : JS.object :=
  (record ++ [("fileId", fileId)])%list.

(** [for (const item of items) { await add(item); }]: the first call
    that throws ends the loop. *)
Fixpoint addEach {A B : Type}
    (add : A -> Server.Store -> JS.Completion B * Server.Store)
    (items : list A) (store : Server.Store) : JS.Completion unit * Server.Store :=
  match items with
  | [] => (JS.Normal tt, store)
  | item :: rest =>
      match add item store with
      | (JS.Normal _, store') => addEach add rest store'
      | (JS.Throw msg, store') => (JS.Throw msg, store')
      end
  end.

Section Handlers.

Variable H : Host.
Variable P : Server.Platform.
Variable accessToken : string.

(** The calls of the modal's [handleFileUpload] from [fileApi.add] to
    the last [savingsApi.add]: the id of the file record. *)
Definition persist (fileName : string) (data : Modal.ParsedData)
    (store : Server.Store) : JS.Completion JS.value * Server.Store :=
  match Api.fileApi_add P accessToken
          [("fileName", JS.Str fileName);
           ("transactionCount",
            JS.Num (JS.ofZ (Z.of_nat (List.length (Modal.transactions data)))))]
          store with
  | (JS.Throw msg, store1) => (JS.Throw msg, store1)
  | (JS.Normal fileRecord, store1) =>
      let fileId := JS.get fileRecord "id" in
      match addEach (fun t => Api.transactionApi_add P accessToken
                                (withFileId (transactionObject t) fileId))
                    (Modal.transactions data) store1 with
      | (JS.Throw msg, store2) => (JS.Throw msg, store2)
      | (JS.Normal _, store2) =>
          match addEach (fun e => Api.emiApi_add P accessToken
                                    (withFileId (emiObject e) fileId))
                        (Modal.emis data) store2 with
          | (JS.Throw msg, store3) => (JS.Throw msg, store3)
          | (JS.Normal _, store3) =>
              match addEach (fun g => Api.savingsApi_add P accessToken
                                        (withFileId (goalObject g) fileId))
                            (Modal.savingsGoals data) store3 with
              | (JS.Throw msg, store4) => (JS.Throw msg, store4)
              | (JS.Normal _, store4) => (JS.Normal fileId, store4)
              end
          end
      end
  end.

(** The state the [catch] and the [finally] of the modal's handler
    leave, [shown] being the toasts shown before the error. *)
Definition failure (st : Modal.State) (msg : string) (shown : list Modal.Toast)
  : Modal.State :=
  let text := if JS.toBoolean (JS.Str msg) then msg else "Failed to process file" in
  {| Modal.uploadedFile := None;
     Modal.isProcessing := false;
     Modal.parsedData := Modal.emptyData;
     Modal.parseError := Some text;
     Modal.toasts := (Modal.toasts st ++ shown ++ [Modal.ToastError text])%list |}.

(** [handleFileUpload] of the modal with its calls answered by the
    server: the warnings, the state of the component up to the end of
    the [finally], and the store. *)
Definition handleFileUpload (st : Modal.State) (fileName : string)
    (file : Modal.FileRead) (store : Server.Store)
  : list string * Modal.State * Server.Store :=
  match Modal.parseExcelFile H file with
  | (w, JS.Throw msg) => (w, failure st msg [], store)
  | (w, JS.Normal data) =>
      if (Nat.eqb (List.length (Modal.transactions data)) 0 &&
          Nat.eqb (List.length (Modal.emis data)) 0 &&
          Nat.eqb (List.length (Modal.savingsGoals data)) 0)%bool
      then (w, failure st Modal.noValidData [], store)
      else
        match persist fileName data store with
        | (JS.Throw msg, store') => (w, failure st msg [], store')
        | (JS.Normal fileId, store') =>
            let success :=
              Modal.ToastSuccess ("Success! Imported " ++
                                  JS.join ", " (Modal.summary data) ++
                                  " from " ++ fileName) in
            match Api.fileApi_setActive P accessToken fileId store' with
            | (JS.Throw msg, store'') => (w, failure st msg [success], store'')
            | (JS.Normal _, store'') =>
                (w,
                 {| Modal.uploadedFile := Some fileName;
                    Modal.isProcessing := false;
                    Modal.parsedData := data;
                    Modal.parseError := None;
                    Modal.toasts := (Modal.toasts st ++ [success])%list |},
                 store'')
            end
        end
  end.

(** The state of the upload page. *)
Record PageState : Type := {
  uploadedFile : option string;
  isProcessing : bool;
  parsedTransactions : list Page.ParsedTransaction;
  parseError : option string;
  toasts : list Modal.Toast
}.

(** [handleFileUpload] of the upload page: every record is sent as it
    was parsed, without a file id. *)
Definition pageHandleFileUpload (st : PageState) (fileName : string)
    (file : Modal.FileRead) (store : Server.Store)
  : list string * PageState * Server.Store :=
  let failed (msg : string) :=
    let text := if JS.toBoolean (JS.Str msg) then msg else "Failed to process file" in
    {| uploadedFile := None;
       isProcessing := false;
       parsedTransactions := [];
       parseError := Some text;
       toasts := (toasts st ++ [Modal.ToastError text])%list |} in
  match Page.parseExcelFile H file with
  | (w, JS.Throw msg) => (w, failed msg, store)
  | (w, JS.Normal transactions) =>
      match addEach (fun t => Api.transactionApi_add P accessToken (transactionObject t))
                    transactions store with
      | (JS.Throw msg, store') => (w, failed msg, store')
      | (JS.Normal _, store') =>
          (w,
           {| uploadedFile := Some fileName;
              isProcessing := false;
              parsedTransactions := transactions;
              parseError := None;
              toasts := (toasts st ++
                         [Modal.ToastSuccess
                            ("File uploaded! " ++
                             JS.natToString (List.length transactions) ++
                             " transactions imported.")])%list |},
           store')
      end
  end.

End Handlers.

End Flow.

(* ================================================================== *)
(** * Vocabulary of the further properties *)
(* ================================================================== *)

Section FurtherVocabulary.

Variable H : Host.

(** One of the three required headers of a transactions row of the
    modal is not found. *)
Definition lacksRequired (row : JS.object) : bool :=
  match findKey Modal.dateTokens row,
        findKey Modal.descTokens row,
        findKey Modal.amountTokens row with
  | Some _, Some _, Some _ => false
  | _, _, _ => true
  end.

Definition countRows (p : JS.object -> bool) (rows : list JS.object) : nat :=
  List.length (filter p rows).

(** The sheet has at least one row. *)
Definition hasRows (sheet : string * list JS.object) : bool :=
  match snd sheet with
  | [] => false
  | _ :: _ => true
  end.

(** What a sheet adds to the transactions of the result: the records of
    its rows when it has rows and its name gives the role Transactions,
    nothing otherwise. *)
Definition sheetTransactions (sheet : string * list JS.object)
  : list Modal.ParsedTransaction :=
  match Spec.classify (fst sheet), snd sheet with
  | Spec.Transactions, firstRow :: rest =>
      match snd (Modal.parseTransactionsSheet H (firstRow :: rest) (JS.keys firstRow)) with
      | JS.Normal records => records
      | JS.Throw _ => []
      end
  | _, _ => []
  end.

(** [row] has the headers that the normaliser of the sheet's role
    requires, and the cell under its date header is a number that
    [parse_date_code] answers with [null]. *)
Definition dateRefused (required : list (list string)) (dateWords : list string)
    (row : JS.object) : Prop :=
  Forall (fun words => findKey words row <> None) required /\
  exists dateKey x,
    findKey dateWords row = Some dateKey /\
    JS.get row dateKey = JS.Num x /\
    parse_date_code H x = None.

Definition refusedDate (sheetName : string) (row : JS.object) : Prop :=
  match Spec.classify sheetName with
  | Spec.Transactions =>
      dateRefused [Modal.descTokens; Modal.amountTokens] Modal.dateTokens row
  | Spec.Installments =>
      dateRefused [Modal.emiNameTokens; Modal.emiAmountTokens] Modal.dueDateTokens row
  | Spec.SavingsGoals =>
      dateRefused [Modal.goalNameTokens; Modal.targetTokens] Modal.deadlineTokens row
  end.

(** The state [handleFileUpload] leaves after a failure with the text
    [text]. *)
Definition failedWith (st st' : Modal.State) (text : string) : Prop :=
  Modal.uploadedFile st' = None /\
  Modal.isProcessing st' = false /\
  Modal.parsedData st' = Modal.emptyData /\
  Modal.parseError st' = Some text /\
  exists shown, Modal.toasts st' =
                (Modal.toasts st ++ shown ++ [Modal.ToastError text])%list.

(** Every transaction has an amount that is not below zero, and the
    amount of every instalment and the target of every goal is a number. *)
Definition soundData (data : Modal.ParsedData) : Prop :=
  Forall (fun t => nonNegative (Modal.amount t)) (Modal.transactions data) /\
  Forall (fun e => JS.isNaN (Modal.emi_amount e) = false) (Modal.emis data) /\
  Forall (fun g => JS.isNaN (Modal.targetAmount g) = false) (Modal.savingsGoals data).

(** A record of the page: its amount is not below zero and its kind is
    [String] of the cell under the "type" header of a row of [rows]. *)
Definition pageRecord (rows : list JS.object) (t : Modal.ParsedTransaction) : Prop :=
  nonNegative (Modal.amount t) /\
  exists row typeKey,
    In row rows /\ findKey Page.typeTokens row = Some typeKey /\
    Modal.type t = JS.toString (JS.get row typeKey).

(** The data holds a record of some role. *)
Definition hasRecords (data : Modal.ParsedData) : Prop :=
  Modal.transactions data <> [] \/ Modal.emis data <> [] \/ Modal.savingsGoals data <> [].

End FurtherVocabulary.

(* ================================================================== *)
(** * Vocabulary of the properties of the server and the handlers *)
(* ================================================================== *)

Section ServerVocabulary.

Variable P : Server.Platform.

(** The request carries a header that [verifyUser] accepts for
    [user]. *)
Definition signedIn (accessToken user : string) : Prop :=
  Server.verifyUser P (Api.bearer accessToken) = inr user.

(** The five fields the transactions route requires are truthy once
    the record has gone through JSON. *)
Definition sendable (t : Modal.ParsedTransaction) : bool :=
  (JS.toBoolean (Api.jsonValue (Modal.date t)) &&
   JS.toBoolean (JS.Str (Modal.description t)) &&
   JS.toBoolean (JS.Str (Modal.category t)) &&
   JS.toBoolean (Api.jsonValue (JS.Num (Modal.amount t))) &&
   JS.toBoolean (JS.Str (Modal.type t)))%bool.

(** The same for the three fields the instalments route requires and
    the three the savings route requires. *)
Definition sendableEmi (e : Modal.ParsedEMI) : bool :=
  (JS.toBoolean (JS.Str (Modal.emi_name e)) &&
   JS.toBoolean (Api.jsonValue (JS.Num (Modal.emi_amount e))) &&
   JS.toBoolean (Api.jsonValue (Modal.dueDate e)))%bool.

Definition sendableGoal (g : Modal.ParsedSavingsGoal) : bool :=
  (JS.toBoolean (JS.Str (Modal.goal_name g)) &&
   JS.toBoolean (Api.jsonValue (JS.Num (Modal.targetAmount g))) &&
   JS.toBoolean (Api.jsonValue (Modal.deadline g)))%bool.

(** The record the transactions route creates, as the [n]-th record of
    the server, for the body [body]. *)
Definition storedTransaction (n : nat) (body : JS.object) : JS.object :=
  let s := Server.stamp P n in
  [("id", JS.Str (Server.newId "txn" s));
   ("date", JS.get body "date");
   ("description", JS.get body "description");
   ("category", JS.get body "category");
   ("amount", Json.ofNumber (Server.parseFloatOf (JS.get body "amount")));
   ("type", JS.get body "type");
   ("source", Server.orElse (JS.get body "source") JS.Null);
   ("fileId", Server.orElse (JS.get body "fileId") JS.Null);
   ("createdAt", JS.Str (Server.isoNow s))].

(** The records the instalments route and the savings route create. *)
Definition storedEmi (n : nat) (body : JS.object) : JS.object :=
  let s := Server.stamp P n in
  [("id", JS.Str (Server.newId "emi" s));
   ("name", JS.get body "name");
   ("amount", Json.ofNumber (Server.parseFloatOf (JS.get body "amount")));
   ("dueDate", JS.get body "dueDate");
   ("totalAmount",
    Json.ofNumber (if JS.toBoolean (JS.get body "totalAmount")
                   then Server.parseFloatOf (JS.get body "totalAmount") else JS.zero));
   ("paid",
    Json.ofNumber (if JS.toBoolean (JS.get body "paid")
                   then Server.parseFloatOf (JS.get body "paid") else JS.zero));
   ("status", JS.Str "upcoming");
   ("fileId", Server.orElse (JS.get body "fileId") JS.Null);
   ("createdAt", JS.Str (Server.isoNow s))].

Definition storedGoal (n : nat) (body : JS.object) : JS.object :=
  let s := Server.stamp P n in
  [("id", JS.Str (Server.newId "goal" s));
   ("name", JS.get body "name");
   ("targetAmount", Json.ofNumber (Server.parseFloatOf (JS.get body "targetAmount")));
   ("currentAmount",
    Json.ofNumber (if JS.toBoolean (JS.get body "currentAmount")
                   then Server.parseFloatOf (JS.get body "currentAmount") else JS.zero));
   ("deadline", JS.get body "deadline");
   ("status", Server.orElse (JS.get body "status") (JS.Str "on-track"));
   ("fileId", Server.orElse (JS.get body "fileId") JS.Null);
   ("createdAt", JS.Str (Server.isoNow s))].

(** The records created one after the other by [make], the first as the
    [n]-th record of the server. *)
Fixpoint storedFrom (make : nat -> JS.object -> JS.object) (n : nat)
    (bodies : list JS.object) : list JS.object :=
  match bodies with
  | [] => []
  | body :: rest => make n body :: storedFrom make (S n) rest
  end.

(** The file record the files route creates as the [n]-th record. *)
Definition storedFile (n : nat) (body : JS.object) : JS.object :=
  let s := Server.stamp P n in
  [("id", JS.Str (Server.newId "file" s));
   ("fileName", JS.get body "fileName");
   ("transactionCount", JS.get body "transactionCount");
   ("uploadedAt", JS.Str (Server.isoNow s))].

(** The body of [fileApi.add] for a file with [count] transactions. *)
Definition fileBody (fileName : string) (count : nat) : JS.object :=
  Api.json [("fileName", JS.Str fileName);
            ("transactionCount", JS.Num (JS.ofZ (Z.of_nat count)))].

(** The bodies the modal sends for an instalment and for a goal. *)
Definition emiBody (fileId : JS.value) (e : Modal.ParsedEMI) : JS.object :=
  Api.json (Flow.withFileId (Flow.emiObject e) fileId).

Definition goalBody (fileId : JS.value) (g : Modal.ParsedSavingsGoal) : JS.object :=
  Api.json (Flow.withFileId (Flow.goalObject g) fileId).

(** From [store] to [store'] the lists of [user] have grown by the
    records [txs], [es] and [gs] at their ends, and nothing else of the
    three families has changed. *)
Definition grown (user : string) (store store' : Server.Store)
    (txs es gs : list JS.object) : Prop :=
  Server.transactions store' user = (Server.transactions store user ++ txs)%list /\
  Server.emis store' user = (Server.emis store user ++ es)%list /\
  Server.savings store' user = (Server.savings store user ++ gs)%list /\
  (forall other, other <> user ->
     Server.transactions store' other = Server.transactions store other /\
     Server.emis store' other = Server.emis store other /\
     Server.savings store' other = Server.savings store other) /\
  Server.files store' = Server.files store /\
  Server.activeFile store' = Server.activeFile store /\
  Server.created store' =
    Server.created store + List.length txs + List.length es + List.length gs.

(** The body the modal sends for a transaction of the file [fileId],
    and the body the page sends. *)
Definition modalBody (fileId : JS.value) (t : Modal.ParsedTransaction) : JS.object :=
  Api.json (Flow.withFileId (Flow.transactionObject t) fileId).

Definition pageBody (t : Modal.ParsedTransaction) : JS.object :=
  Api.json (Flow.transactionObject t).

(** The two stores differ at most in the transactions of [user]. *)
Definition onlyTransactionsOf (user : string) (store store' : Server.Store) : Prop :=
  (forall other, other <> user ->
     Server.transactions store' other = Server.transactions store other) /\
  Server.emis store' = Server.emis store /\
  Server.savings store' = Server.savings store /\
  Server.files store' = Server.files store /\
  Server.activeFile store' = Server.activeFile store.

(** The transactions of [items] that carry the file id [fileId]. *)
Definition ofFile (fileId : string) (items : list JS.object) : list JS.object :=
  filter (fun t => Server.strictEq (JS.get t "fileId") (JS.Str fileId)) items.

(** No transaction of [items] has the id [id]. *)
Definition noneWithId (id : string) (items : list JS.object) : Prop :=
  Forall (fun t => Server.strictEq (JS.get t "id") (JS.Str id) = false) items.


Definition byFile (fileId : string) : Server.TransactionQuery :=
  {| Server.q_year := None; Server.q_month := None;
     Server.q_type := None; Server.q_fileId := Some fileId |}.

End ServerVocabulary.

Module ServerExample.

(** A platform that knows one token, creates its n-th record at the
    n-th millisecond after an instant, and reads the year and the month
    off a date written YYYY-MM-DD. *)
Definition platform : Server.Platform :=
  {| Server.getUser := fun token =>
       if String.eqb token "secret" then Some "user-1" else None;
     Server.stamp := fun n =>
       {| Server.now := 1700000000000 + Z.of_nat n;
          Server.random36 := "k3x9q0z7a";
          Server.isoNow := "2023-11-14T22:13:20.000Z" |};
     Server.yearIs := fun date year =>
       match date with
       | JS.Str text => String.eqb (substring 0 4 text) year
       | _ => false
       end;
     Server.monthIs := fun date month =>
       match date with
       | JS.Str text =>
           SFeqb (JS.parseFloat (substring 5 2 text))
                 (SFadd JS.prec JS.emax (JS.parseFloat month) (JS.ofZ 1))
       | _ => false
       end |}.

(** The store before anything was kept. *)
Definition emptyStore : Server.Store :=
  {| Server.transactions := fun _ => [];
     Server.emis := fun _ => [];
     Server.savings := fun _ => [];
     Server.files := fun _ => [];
     Server.activeFile := fun _ => JS.Undefined;
     Server.created := 0 |}.

(** A workbook with one sheet of instalments and nothing else. *)
Definition loansOnly : Modal.FileRead :=
  Modal.Loaded (JS.Normal [("EMI", [Example.homeLoanRow])]).

(** A row with the amount 0 and the record parsed from it, and a
    statement whose second row it is. *)
Definition zeroAmountRow : JS.object :=
  [("Date", JS.Num (JS.ofZ 45001));
   ("Description", JS.Str "Reversal");
   ("Amount", JS.Num (JS.ofZ 0))].

Definition zeroAmountRecord : Modal.ParsedTransaction :=
  {| Modal.date := JS.Str "2023-03-16";
     Modal.description := "Reversal";
     Modal.category := "Uncategorized";
     Modal.amount := JS.zero;
     Modal.type := "Income";
     Modal.source := None |}.

Definition reversalStatement : Modal.FileRead :=
  Example.statement [Example.rentRow; zeroAmountRow; Example.typedRow].

Definition reversalData : Modal.ParsedData :=
  {| Modal.transactions := [Example.rentRecord; zeroAmountRecord; Example.typedRecord];
     Modal.emis := [];
     Modal.savingsGoals := [] |}.

(** The data parsed from the workbook of two statements and two
    instalment sheets. *)
Definition mixedData : Modal.ParsedData :=
  {| Modal.transactions := [Example.rentRecord; Example.typedRecord];
     Modal.emis := [Example.homeLoanRecord];
     Modal.savingsGoals := [] |}.

(** The store after the first user has sent the rent record from the
    page. *)
Definition rentKept : Server.Store :=
  {| Server.transactions := fun user =>
       if String.eqb user "user-1"
       then [storedTransaction platform 0 (pageBody Example.rentRecord)]
       else [];
     Server.emis := fun _ => [];
     Server.savings := fun _ => [];
     Server.files := fun _ => [];
     Server.activeFile := fun _ => JS.Undefined;
     Server.created := 1 |}.

End ServerExample.

(* ================================================================== *)
(** * Properties *)
(* ================================================================== *)

Import JS.
Local Open Scope list_scope.

(** ** The writer and the loops *)

Lemma bind_ret_l {A B} (a : A) (f : A -> Eff B) : bind ([], Normal a) f = f a.
Proof. unfold bind. destruct (f a) as [w r]. reflexivity. Qed.

Lemma bind_lift_normal {A B} (a : A) (f : A -> Eff B) : bind (lift (Normal a)) f = f a.
Proof. apply bind_ret_l. Qed.

Lemma bind_lift_throw {A B} (msg : string) (f : A -> Eff B) :
  bind (lift (Throw msg)) f = ([], Throw msg).
Proof. reflexivity. Qed.

Lemma bind_warn {B} (line : string) (f : unit -> Eff B) :
  bind (warn line) f = (line :: fst (f tt), snd (f tt)).
Proof. unfold bind, warn. destruct (f tt) as [w r]. reflexivity. Qed.

Lemma snd_bind {A B} (c : Eff A) (f : A -> Eff B) :
  snd (bind c f) =
  match snd c with
  | Normal a => snd (f a)
  | Throw msg => Throw msg
  end.
Proof.
  destruct c as [w [a|msg]]; simpl; [|reflexivity].
  destruct (f a) as [w2 r]. reflexivity.
Qed.

Section TransactionRows.

Variable H : Host.

(** The loop index only shows in the text of the warning. *)
Lemma emits_at_any_index row t i :
  emits H row t -> Modal.transactionOfRow H i row = ([], Normal (Some t)).
Proof.
  unfold emits, Modal.transactionOfRow.
  destruct (findKey Modal.dateTokens row) as [dk|]; [|discriminate].
  destruct (findKey Modal.descTokens row) as [sk|]; [|discriminate].
  destruct (findKey Modal.amountTokens row) as [ak|]; [|discriminate].
  destruct (decodeDate H (get row dk)) as [ds|msg].
  - rewrite !bind_lift_normal.
    destruct (isNaN (decodeAmount (get row ak))).
    + rewrite !bind_warn. simpl. discriminate.
    + trivial.
  - rewrite !bind_lift_throw. discriminate.
Qed.

Lemma amountFails_is_skipped row i :
  amountFails H row ->
  Modal.transactionOfRow H i row = ([Modal.invalidAmountWarning i], Normal None).
Proof.
  intros (dk & sk & ak & ds & Hd & Hs & Ha & Hdate & Hnan).
  unfold Modal.transactionOfRow.
  rewrite Hd, Hs, Ha, Hdate, bind_lift_normal, Hnan, bind_warn.
  reflexivity.
Qed.

Lemma loop_over_valid_rows rows txs :
  Forall2 (emits H) rows txs ->
  forall i acc rest,
    Modal.transactionsLoop H i (rows ++ rest) acc =
    Modal.transactionsLoop H (i + List.length rows) rest (acc ++ txs).
Proof.
  induction 1 as [|row t rows txs Hrow _ IH]; intros i acc rest.
  - simpl. rewrite Nat.add_0_r, app_nil_r. reflexivity.
  - simpl. rewrite (emits_at_any_index _ _ i Hrow), bind_ret_l, IH.
    rewrite <- app_assoc. simpl. f_equal. lia.
Qed.

Lemma loop_of_valid_rows rows txs i acc :
  Forall2 (emits H) rows txs ->
  Modal.transactionsLoop H i rows acc = ([], Normal (acc ++ txs)).
Proof.
  intros Hrows.
  rewrite <- (app_nil_r rows), (loop_over_valid_rows _ _ Hrows).
  reflexivity.
Qed.

(** The completion of a row, and of the loop, does not depend on the
    loop index. *)
Lemma row_result_at_any_index row i j :
  snd (Modal.transactionOfRow H i row) = snd (Modal.transactionOfRow H j row).
Proof.
  unfold Modal.transactionOfRow.
  destruct (findKey Modal.dateTokens row) as [dk|]; [|reflexivity].
  destruct (findKey Modal.descTokens row) as [sk|]; [|reflexivity].
  destruct (findKey Modal.amountTokens row) as [ak|]; [|reflexivity].
  rewrite !snd_bind.
  destruct (snd (lift (decodeDate H (get row dk)))); [|reflexivity].
  destruct (isNaN (decodeAmount (get row ak))); reflexivity.
Qed.

Lemma loop_result_at_any_index rows :
  forall i j acc,
    snd (Modal.transactionsLoop H i rows acc) = snd (Modal.transactionsLoop H j rows acc).
Proof.
  induction rows as [|row rows IH]; intros i j acc; simpl; [reflexivity|].
  rewrite !snd_bind, (row_result_at_any_index row i j).
  destruct (snd (Modal.transactionOfRow H j row)); [apply IH|reflexivity].
Qed.

Lemma loop_result_without_skipped_row bad :
  amountFails H bad ->
  forall before after i acc,
    snd (Modal.transactionsLoop H i (before ++ bad :: after) acc) =
    snd (Modal.transactionsLoop H i (before ++ after) acc).
Proof.
  intros Hbad before after.
  induction before as [|row before IH]; intros i acc; simpl.
  - rewrite snd_bind, (amountFails_is_skipped _ _ Hbad). simpl.
    apply loop_result_at_any_index.
  - rewrite !snd_bind.
    destruct (snd (Modal.transactionOfRow H i row)); [apply IH|reflexivity].
Qed.

End TransactionRows.

(** ** C1: a row with an undecodable amount *)

(** C1, as amended.  The loop of [parseTransactionsSheet] is a fold over
    the rows: a row whose amount does not decode changes nothing in what
    is returned for the rows around it, whatever they are, and when it
    stands between valid rows the records of the rows before and after
    it are all returned, in order, so one such row among ten leaves nine
    records.
    The skip is reported by one [console.warn] line that names the
    spreadsheet row [i + 2] (the fourth data row is "Row 5"); the value
    [parseExcelFile] resolves to holds the three collections and
    nothing about the skip. *)
Theorem C1_invalid_amount_row_is_skipped
    (H : Host) (sheetName : string) (before after : list JS.object)
    (bad : JS.object) (recordsBefore recordsAfter : list Modal.ParsedTransaction)
    (availableColumns : list string) :
  Forall2 (emits H) before recordsBefore ->
  amountFails H bad ->
  Forall2 (emits H) after recordsAfter ->
  Spec.classify sheetName = Spec.Transactions ->
  (forall rows rows' : list JS.object,
      snd (Modal.parseTransactionsSheet H (rows ++ bad :: rows') availableColumns) =
      snd (Modal.parseTransactionsSheet H (rows ++ rows') availableColumns)) /\
  Modal.parseTransactionsSheet H (before ++ bad :: after) availableColumns =
    ([Modal.invalidAmountWarning (List.length before)],
     Normal (recordsBefore ++ recordsAfter)) /\
  List.length (recordsBefore ++ recordsAfter) = List.length before + List.length after /\
  Modal.parseExcelFile H (Modal.Loaded (Normal [(sheetName, before ++ bad :: after)])) =
    ([Modal.invalidAmountWarning (List.length before)],
     Normal {| Modal.transactions := recordsBefore ++ recordsAfter;
               Modal.emis := [];
               Modal.savingsGoals := [] |}).
Proof.
  intros Hbefore Hbad Hafter Hrole.
  assert (Hparse : forall cols,
    Modal.parseTransactionsSheet H (before ++ bad :: after) cols =
    ([Modal.invalidAmountWarning (List.length before)],
     Normal (recordsBefore ++ recordsAfter))).
  { intros cols. unfold Modal.parseTransactionsSheet.
    rewrite (loop_over_valid_rows H _ _ Hbefore). simpl.
    rewrite (amountFails_is_skipped H _ _ Hbad).
    cbv beta iota delta [bind].
    rewrite (loop_of_valid_rows H _ _ _ _ Hafter).
    reflexivity. }
  split; [|split; [apply Hparse|split]].
  - intros rows rows'. apply loop_result_without_skipped_row, Hbad.
  - rewrite !length_app.
    rewrite (Forall2_length Hbefore), (Forall2_length Hafter). reflexivity.
  - unfold Modal.parseExcelFile, Modal.forEachSheet, Modal.sheetCallback.
    unfold Spec.classify, Spec.nameContains in Hrole.
    destruct (before ++ bad :: after) as [|firstRow others] eqn:Hrows.
    { destruct before; discriminate. }
    destruct (includes (toLowerCase sheetName) "emi" ||
              includes (toLowerCase sheetName) "loan")%bool; [discriminate|].
    destruct (includes (toLowerCase sheetName) "saving" ||
              includes (toLowerCase sheetName) "goal")%bool; [discriminate|].
    rewrite Hparse. reflexivity.
Qed.

(** Ten rows with "N/A" in the fourth: nine records and the warning for
    "Row 5". *)
Lemma C1_ten_rows_witness :
  (forall rows rows' : list JS.object,
      snd (Modal.parseTransactionsSheet Example.host
             (rows ++ Example.badAmountRow :: rows') ["Date"; "Description"; "Amount"]%string) =
      snd (Modal.parseTransactionsSheet Example.host
             (rows ++ rows') ["Date"; "Description"; "Amount"]%string)) /\
  Modal.parseTransactionsSheet Example.host Example.tenRows
      ["Date"; "Description"; "Amount"] =
    (["Row 5 has invalid amount, skipping"],
     Normal (map Example.entryRecord [1; 2; 3] ++
             map Example.entryRecord [5; 6; 7; 8; 9; 10])%Z) /\
  List.length (map Example.entryRecord [1; 2; 3] ++
               map Example.entryRecord [5; 6; 7; 8; 9; 10])%Z = 3 + 6 /\
  Modal.parseExcelFile Example.host (Example.statement Example.tenRows) =
    (["Row 5 has invalid amount, skipping"],
     Normal {| Modal.transactions :=
                 (map Example.entryRecord [1; 2; 3] ++
                  map Example.entryRecord [5; 6; 7; 8; 9; 10])%Z;
               Modal.emis := [];
               Modal.savingsGoals := [] |}).
Proof.
  apply (C1_invalid_amount_row_is_skipped Example.host "Q1"
           Example.firstThree Example.lastSix Example.badAmountRow
           (map Example.entryRecord [1; 2; 3]%Z)
           (map Example.entryRecord [5; 6; 7; 8; 9; 10]%Z)).
  - repeat constructor; vm_compute; reflexivity.
  - exists "Date", "Description", "Amount", (Str "2023-03-19").
    repeat split; vm_compute; reflexivity.
  - repeat constructor; vm_compute; reflexivity.
  - vm_compute; reflexivity.
Defined.

(** C1 as stated fails: the value returned for the ten rows is the value
    returned for the nine rows left when the bad row is deleted, so
    nothing read from it can report a skip at row 4 for the one and no
    skip for the other. *)
Lemma C1_result_records_no_skip :
  snd (Modal.parseExcelFile Example.host (Example.statement Example.tenRows)) =
  snd (Modal.parseExcelFile Example.host (Example.statement Example.nineRows)) /\
  ~ exists diagnostics : Completion Modal.ParsedData -> list nat,
      diagnostics (snd (Modal.parseExcelFile Example.host
                          (Example.statement Example.tenRows))) = [4] /\
      diagnostics (snd (Modal.parseExcelFile Example.host
                          (Example.statement Example.nineRows))) = [].
Proof.
  assert (Hsame :
    snd (Modal.parseExcelFile Example.host (Example.statement Example.tenRows)) =
    snd (Modal.parseExcelFile Example.host (Example.statement Example.nineRows)))
    by (vm_compute; reflexivity).
  split; [exact Hsame|].
  intros (diagnostics & Hten & Hnine).
  rewrite Hsame, Hnine in Hten. discriminate.
Qed.


(** ** C2: kind and magnitude of a valid row *)

Lemma abs_nonNegative (x : number) : isNaN x = false -> nonNegative (abs x).
Proof. destruct x as [s|s| |s m e]; intros Hx; try discriminate; reflexivity. Qed.

(** A row that does not throw gives a record when it is valid, without
    a warning, and is passed over when it is not. *)
Lemma row_emitted_or_skipped (H : Host) (i : nat) (row : JS.object) :
  rowThrows H row = false ->
  (validRow H row = true /\
   exists t, Modal.transactionOfRow H i row = ([], Normal (Some t))) \/
  (validRow H row = false /\
   exists w, Modal.transactionOfRow H i row = (w, Normal None)).
Proof.
  unfold rowThrows, validRow, Modal.transactionOfRow.
  destruct (findKey Modal.dateTokens row) as [dk|];
    [|intros _; right; split; [reflexivity|exists []; reflexivity]].
  destruct (findKey Modal.descTokens row) as [sk|];
    [|intros _; right; split; [reflexivity|exists []; reflexivity]].
  destruct (findKey Modal.amountTokens row) as [ak|];
    [|intros _; right; split; [reflexivity|exists []; reflexivity]].
  destruct (decodeDate H (get row dk)) as [ds|msg]; [intros _|discriminate].
  rewrite bind_lift_normal.
  destruct (isNaN (decodeAmount (get row ak))).
  - right. split; [reflexivity|]. rewrite bind_warn. eexists. reflexivity.
  - left. split; [reflexivity|]. eexists. reflexivity.
Qed.

(** The kind and the amount of the record pushed for a row. *)
Lemma emitted_kind_and_magnitude
    (H : Host) (i : nat) (row : JS.object) (w : list string)
    (t : Modal.ParsedTransaction) :
  Modal.transactionOfRow H i row = (w, Normal (Some t)) ->
  exists amountKey,
    findKey Modal.amountTokens row = Some amountKey /\
    (forall typeKey,
        findKey Modal.typeTokens row = Some typeKey ->
        toBoolean (get row typeKey) = true ->
        Modal.type t = toString (get row typeKey)) /\
    (forall typeKey text,
        findKey Modal.typeTokens row = Some typeKey ->
        get row typeKey = Str text -> text <> EmptyString ->
        Modal.type t = text) /\
    (findKey Modal.typeTokens row = None \/
     (exists typeKey, findKey Modal.typeTokens row = Some typeKey /\
                      toBoolean (get row typeKey) = false) ->
     (lt (decodeAmount (get row amountKey)) zero = true -> Modal.type t = "Expense"%string) /\
     (lt (decodeAmount (get row amountKey)) zero = false -> Modal.type t = "Income"%string)) /\
    Modal.amount t = abs (decodeAmount (get row amountKey)) /\
    nonNegative (Modal.amount t).
Proof.
  unfold Modal.transactionOfRow.
  destruct (findKey Modal.dateTokens row) as [dk|]; [|discriminate].
  destruct (findKey Modal.descTokens row) as [sk|]; [|discriminate].
  destruct (findKey Modal.amountTokens row) as [ak|]; [|discriminate].
  destruct (decodeDate H (get row dk)) as [ds|msg];
    [rewrite bind_lift_normal | rewrite bind_lift_throw; discriminate].
  destruct (isNaN (decodeAmount (get row ak))) eqn:Hnan;
    [rewrite bind_warn; discriminate|].
  intros Hrow. injection Hrow as _ Ht. subst t. simpl.
  exists ak. split; [reflexivity|].
  assert (Htruthy : forall typeKey,
    findKey Modal.typeTokens row = Some typeKey ->
    toBoolean (get row typeKey) = true ->
    match findKey Modal.typeTokens row with
    | Some typeKey0 =>
        if toBoolean (get row typeKey0) then toString (get row typeKey0)
        else if lt (decodeAmount (get row ak)) zero then "Expense"%string
             else "Income"%string
    | None => if lt (decodeAmount (get row ak)) zero then "Expense"%string
              else "Income"%string
    end = toString (get row typeKey)).
  { intros typeKey Hk Hcell. rewrite Hk, Hcell. reflexivity. }
  split; [exact Htruthy|]. split; [|split; [|split; [reflexivity|]]].
  - intros typeKey text Hk Hcell Htext.
    rewrite (Htruthy typeKey Hk); rewrite Hcell; [reflexivity|].
    destruct text; [contradiction|reflexivity].
  - intros [Hnone|(typeKey & Hk & Hcell)]; split; intros Hsign.
    + rewrite Hnone, Hsign. reflexivity.
    + rewrite Hnone, Hsign. reflexivity.
    + rewrite Hk, Hcell, Hsign. reflexivity.
    + rewrite Hk, Hcell, Hsign. reflexivity.
  - apply abs_nonNegative, Hnan.
Qed.

(** The loop over rows none of which throws: one record for every
    valid row, in row order, each related to its row by [R]. *)
Lemma loop_records_of_valid_rows (H : Host)
    (R : JS.object -> Modal.ParsedTransaction -> Prop) :
  (forall i row t,
      Modal.transactionOfRow H i row = ([], Normal (Some t)) -> R row t) ->
  forall rows,
    Forall (fun row => rowThrows H row = false) rows ->
    forall i acc,
      exists w records,
        Modal.transactionsLoop H i rows acc = (w, Normal (acc ++ records)) /\
        Forall2 R (filter (validRow H) rows) records.
Proof.
  intros HR. induction 1 as [|row rows Hrow _ IH]; intros i acc.
  - exists [], []. rewrite app_nil_r. split; [reflexivity|constructor].
  - cbn [Modal.transactionsLoop filter].
    destruct (row_emitted_or_skipped H i row Hrow)
      as [(Hvalid & t & Ht)|(Hvalid & w0 & Hskip)]; rewrite Hvalid.
    + rewrite Ht, bind_ret_l.
      destruct (IH (S i) (acc ++ [t])) as (w & records & Hloop & Hrecords).
      exists w, (t :: records). split.
      * rewrite Hloop, <- app_assoc. reflexivity.
      * constructor; [apply (HR i), Ht|exact Hrecords].
    + rewrite Hskip. unfold bind.
      destruct (IH (S i) acc) as (w & records & Hloop & Hrecords).
      rewrite Hloop. exists (w0 ++ w), records. split; [reflexivity|exact Hrecords].
Qed.

(** C2, as amended.  For every sheet in which no row makes the date
    block throw, [parseTransactionsSheet] returns exactly one record
    for every valid row (the date, description and amount headers are
    found and the amount cell decodes to a number), in row order, and
    none for the other rows; and for every valid row and its record:
    when a "type" header is found and its cell is truthy, the kind is
    [String] of that cell, which for a cell holding a non-empty text is
    that text verbatim; when no "type" header is found or its cell is
    falsy (an empty text, the number 0, FALSE), the kind is "Expense"
    when the decoded amount is below zero and "Income" when it is not;
    and the amount of the record is the absolute value of the decoded
    amount, which is not below zero. *)
Theorem C2_kind_and_magnitude
    (H : Host) (rows : list JS.object) (availableColumns : list string) :
  Forall (fun row => rowThrows H row = false) rows ->
  exists w records,
    Modal.parseTransactionsSheet H rows availableColumns = (w, Normal records) /\
    Forall2
      (fun row t =>
         exists amountKey,
           findKey Modal.amountTokens row = Some amountKey /\
           (forall typeKey,
               findKey Modal.typeTokens row = Some typeKey ->
               toBoolean (get row typeKey) = true ->
               Modal.type t = toString (get row typeKey)) /\
           (forall typeKey text,
               findKey Modal.typeTokens row = Some typeKey ->
               get row typeKey = Str text -> text <> EmptyString ->
               Modal.type t = text) /\
           (findKey Modal.typeTokens row = None \/
            (exists typeKey, findKey Modal.typeTokens row = Some typeKey /\
                             toBoolean (get row typeKey) = false) ->
            (lt (decodeAmount (get row amountKey)) zero = true ->
             Modal.type t = "Expense"%string) /\
            (lt (decodeAmount (get row amountKey)) zero = false ->
             Modal.type t = "Income"%string)) /\
           Modal.amount t = abs (decodeAmount (get row amountKey)) /\
           nonNegative (Modal.amount t))
      (filter (validRow H) rows) records.
Proof.
  intros Hrows. unfold Modal.parseTransactionsSheet.
  destruct (loop_records_of_valid_rows H _
              (fun i row t => emitted_kind_and_magnitude H i row [] t)
              rows Hrows 0 [])
    as (w & records & Hloop & Hrecords).
  exists w, records. split; [exact Hloop|exact Hrecords].
Qed.

(** A sheet of four rows: one without a type column, one whose amount
    is "N/A", one with the type "expense", and one whose type cell
    holds 0.  Three records are returned. *)
Lemma C2_four_rows_witness :
  exists w records,
    Modal.parseTransactionsSheet Example.host
        [Example.rentRow; Example.badAmountRow; Example.typedRow; Example.zeroTypeRow]
        ["Date"; "Description"; "Amount"]%string = (w, Normal records) /\
    Forall2
      (fun row t =>
         exists amountKey,
           findKey Modal.amountTokens row = Some amountKey /\
           (forall typeKey,
               findKey Modal.typeTokens row = Some typeKey ->
               toBoolean (get row typeKey) = true ->
               Modal.type t = toString (get row typeKey)) /\
           (forall typeKey text,
               findKey Modal.typeTokens row = Some typeKey ->
               get row typeKey = Str text -> text <> EmptyString ->
               Modal.type t = text) /\
           (findKey Modal.typeTokens row = None \/
            (exists typeKey, findKey Modal.typeTokens row = Some typeKey /\
                             toBoolean (get row typeKey) = false) ->
            (lt (decodeAmount (get row amountKey)) zero = true ->
             Modal.type t = "Expense"%string) /\
            (lt (decodeAmount (get row amountKey)) zero = false ->
             Modal.type t = "Income"%string)) /\
           Modal.amount t = abs (decodeAmount (get row amountKey)) /\
           nonNegative (Modal.amount t))
      (filter (validRow Example.host)
         [Example.rentRow; Example.badAmountRow; Example.typedRow; Example.zeroTypeRow])
      records.
Proof.
  apply (C2_kind_and_magnitude Example.host
           [Example.rentRow; Example.badAmountRow; Example.typedRow; Example.zeroTypeRow]).
  repeat constructor; vm_compute; reflexivity.
Defined.

(** C2 as stated fails: the row is valid, a "type" header is found and
    its cell is not empty, for it holds the number 0, whose text is
    "0"; the kind of the record is not that text but "Expense",
    inferred from the sign of the amount "-250". *)
Lemma C2_zero_type_cell_is_inferred :
  validRow Example.host Example.zeroTypeRow = true /\
  findKey Modal.typeTokens Example.zeroTypeRow = Some "Type"%string /\
  get Example.zeroTypeRow "Type" = Num (ofZ 0) /\
  toString (get Example.zeroTypeRow "Type") = "0"%string /\
  Modal.parseTransactionsSheet Example.host [Example.zeroTypeRow]
      ["Date"; "Description"; "Amount"; "Type"]%string =
    ([], Normal [Example.zeroTypeRecord]) /\
  Modal.type Example.zeroTypeRecord = "Expense"%string /\
  Modal.type Example.zeroTypeRecord <> toString (get Example.zeroTypeRow "Type").
Proof.
  repeat split; try (vm_compute; reflexivity). vm_compute. discriminate.
Qed.

(** ** C7: the worked example *)

(** C7.  For the sheet whose one row is
    [{Date: 45000, Description: "Rent", Amount: "₹ 15,000"}], which has
    no type column, the transactions normaliser returns the one record
    with date "2023-03-15", description "Rent", category
    "Uncategorized", amount 15000 and kind "Income", and so does
    [parseExcelFile] for a workbook with that sheet: the rupee sign, the
    comma and the space are removed before the amount is parsed, and the
    serial is printed with two-digit month and day.  The row gives the
    same record at every index of a sheet.  The date code is the one of
    [XLSX.parse_date_code]. *)
Theorem C7_rent_row (i : nat) (availableColumns : list string) :
  Modal.parseTransactionsSheet Example.host
      [[("Date", Num (ofZ 45000)); ("Description", Str "Rent");
        ("Amount", Str "₹ 15,000")]]%string availableColumns =
    ([], Normal [{| Modal.date := Str "2023-03-15";
                    Modal.description := "Rent";
                    Modal.category := "Uncategorized";
                    Modal.amount := ofZ 15000;
                    Modal.type := "Income";
                    Modal.source := None |}]) /\
  Modal.parseExcelFile Example.host
      (Modal.Loaded (Normal
         [("Q1", [[("Date", Num (ofZ 45000)); ("Description", Str "Rent");
                   ("Amount", Str "₹ 15,000")]])]))%string =
    ([], Normal {| Modal.transactions :=
                     [{| Modal.date := Str "2023-03-15";
                         Modal.description := "Rent";
                         Modal.category := "Uncategorized";
                         Modal.amount := ofZ 15000;
                         Modal.type := "Income";
                         Modal.source := None |}];
                   Modal.emis := [];
                   Modal.savingsGoals := [] |}) /\
  Modal.transactionOfRow Example.host i
      [("Date", Num (ofZ 45000)); ("Description", Str "Rent");
       ("Amount", Str "₹ 15,000")]%string =
    ([], Normal (Some {| Modal.date := Str "2023-03-15";
                         Modal.description := "Rent";
                         Modal.category := "Uncategorized";
                         Modal.amount := ofZ 15000;
                         Modal.type := "Income";
                         Modal.source := None |})) /\
  stripCurrency "₹ 15,000" = "15000"%string /\
  decodeAmount (Str "₹ 15,000") = ofZ 15000 /\
  decodeDate Example.host (Num (ofZ 45000)) = Normal (Str "2023-03-15").
Proof.
  split; [|split; [|split]].
  - unfold Modal.parseTransactionsSheet. vm_compute. reflexivity.
  - vm_compute. reflexivity.
  - apply (emits_at_any_index Example.host). vm_compute. reflexivity.
  - repeat split; vm_compute; reflexivity.
Qed.

(** ** C3: the collections across sheets *)

(** C3 fails on the code.  In a workbook with the sheets "Q1", "EMI 1",
    "Q2" and "EMI 2", each of one valid row, the transactions of "Q1"
    and "Q2" are both returned, in sheet order, but the instalment of
    "EMI 1" is lost: [result.emis] is assigned, not extended, so only
    the record of "EMI 2" is returned, although "EMI 1" alone parses to
    its record. *)
Theorem C3_later_instalment_sheet_replaces_earlier :
  Modal.parseExcelFile Example.host Example.mixedWorkbook =
    ([], Normal {| Modal.transactions := [Example.rentRecord; Example.typedRecord];
                   Modal.emis := [Example.homeLoanRecord];
                   Modal.savingsGoals := [] |}) /\
  Modal.parseEMISheet Example.host [Example.carLoanRow] =
    Normal [Example.carLoanRecord] /\
  Modal.parseEMISheet Example.host [Example.homeLoanRow] =
    Normal [Example.homeLoanRecord].
Proof. repeat split; vm_compute; reflexivity. Qed.

(** ** C4: a workbook without any usable row *)

Lemma nothing_from_every_sheet (H : Host) (workbook : XLSX.Workbook) :
  Forall (yieldsNothing H) workbook ->
  exists w, Modal.forEachSheet H workbook Modal.emptyData = (w, Normal Modal.emptyData).
Proof.
  induction 1 as [|sheet rest (w1 & Hsheet) _ (w2 & IH)].
  - exists []. reflexivity.
  - exists (w1 ++ w2). simpl. rewrite Hsheet. unfold bind. rewrite IH. reflexivity.
Qed.

(** C4.  When the decoded workbook has at least one sheet and every
    sheet gives no record of any role, [handleFileUpload] ends in its
    [catch]: the state carries the error "No valid data found in file.
    Please check the format.", the same text is shown as an error
    toast, the file name and the data are reset, and the backend is not
    consulted.  The text is not one of the messages of a failed read or
    a failed parse. *)
Theorem C4_no_usable_data_is_a_failure
    (H : Host) (api : Modal.Backend) (st : Modal.State) (fileName : string)
    (workbook : XLSX.Workbook) :
  workbook <> [] ->
  Forall (yieldsNothing H) workbook ->
  exists w,
    Modal.parseExcelFile H (Modal.Loaded (Normal workbook)) =
      (w, Normal Modal.emptyData) /\
    Modal.handleFileUpload H api st fileName (Modal.Loaded (Normal workbook)) =
      (w, {| Modal.uploadedFile := None;
             Modal.isProcessing := false;
             Modal.parsedData := Modal.emptyData;
             Modal.parseError := Some Modal.noValidData;
             Modal.toasts := Modal.toasts st ++ [Modal.ToastError Modal.noValidData] |}) /\
    Modal.noValidData <> "Failed to read file"%string /\
    forall msg, Modal.noValidData <> ("Failed to parse Excel file: " ++ msg)%string.
Proof.
  intros _ Hsheets.
  destruct (nothing_from_every_sheet H workbook Hsheets) as (w & Hall).
  exists w.
  assert (Hparse : Modal.parseExcelFile H (Modal.Loaded (Normal workbook)) =
                   (w, Normal Modal.emptyData)).
  { unfold Modal.parseExcelFile. rewrite Hall. reflexivity. }
  split; [exact Hparse|]. split; [|split].
  - unfold Modal.handleFileUpload, Modal.tryUpload. rewrite Hparse. reflexivity.
  - discriminate.
  - intros msg. discriminate.
Qed.

(** A workbook whose only sheet is a page of notes. *)
Lemma C4_notes_only_witness :
  exists w,
    Modal.parseExcelFile Example.host Example.notesOnly = (w, Normal Modal.emptyData) /\
    Modal.handleFileUpload Example.host Example.backend Example.idle "notes.xlsx"
        Example.notesOnly =
      (w, {| Modal.uploadedFile := None;
             Modal.isProcessing := false;
             Modal.parsedData := Modal.emptyData;
             Modal.parseError := Some Modal.noValidData;
             Modal.toasts := [] ++ [Modal.ToastError Modal.noValidData] |}) /\
    Modal.noValidData <> "Failed to read file"%string /\
    forall msg, Modal.noValidData <> ("Failed to parse Excel file: " ++ msg)%string.
Proof.
  apply (C4_no_usable_data_is_a_failure Example.host Example.backend Example.idle
           "notes.xlsx" [("Notes", [[("Remark", Str "nothing here")]])]%string).
  - discriminate.
  - repeat constructor. exists []. vm_compute. reflexivity.
Defined.

(** ** C5: the role of a sheet *)




(** ** C6: the amounts of instalments and savings goals *)

(** C6, as amended.  An emitted instalment carries the decoded amount
    cell as it is, sign included, and that number is not NaN; its
    [totalAmount] is absent when no "total" header is found and its
    [paid] is 0 when no "paid" header is found.  An emitted savings goal
    carries the decoded target cell as it is, not NaN, and its
    [currentAmount] is 0 when no "current" or "saved" header is found. *)
Theorem C6_emitted_amounts (H : Host) (row : JS.object) :
  (forall t : Modal.ParsedEMI,
      Modal.emiOfRow H row = Normal (Some t) ->
      (exists amountKey,
          findKey Modal.emiAmountTokens row = Some amountKey /\
          Modal.emi_amount t = decodeAmount (get row amountKey)) /\
      isNaN (Modal.emi_amount t) = false /\
      (findKey Modal.totalTokens row = None -> Modal.totalAmount t = None) /\
      (findKey Modal.paidTokens row = None -> Modal.paid t = zero)) /\
  (forall g : Modal.ParsedSavingsGoal,
      Modal.goalOfRow H row = Normal (Some g) ->
      (exists targetKey,
          findKey Modal.targetTokens row = Some targetKey /\
          Modal.targetAmount g = decodeAmount (get row targetKey)) /\
      isNaN (Modal.targetAmount g) = false /\
      (findKey Modal.currentTokens row = None -> Modal.currentAmount g = zero)).
Proof.
  split.
  - intros t. unfold Modal.emiOfRow.
    destruct (findKey Modal.emiNameTokens row) as [nk|]; [|discriminate].
    destruct (findKey Modal.emiAmountTokens row) as [ak|]; [|discriminate].
    destruct (findKey Modal.dueDateTokens row) as [dk|]; [|discriminate].
    destruct (decodeDate H (get row dk)) as [ds|msg]; simpl; [|discriminate].
    destruct (isNaN (decodeAmount (get row ak))) eqn:Hnan; [discriminate|].
    intros Ht. injection Ht as <-. simpl.
    split; [exists ak; split; reflexivity|].
    split; [exact Hnan|].
    split; intros ->; reflexivity.
  - intros g. unfold Modal.goalOfRow.
    destruct (findKey Modal.goalNameTokens row) as [nk|]; [|discriminate].
    destruct (findKey Modal.targetTokens row) as [tk|]; [|discriminate].
    destruct (findKey Modal.deadlineTokens row) as [dk|]; [|discriminate].
    destruct (decodeDate H (get row dk)) as [ds|msg]; simpl; [|discriminate].
    destruct (isNaN (decodeAmount (get row tk))) eqn:Hnan; [discriminate|].
    intros Hg. injection Hg as <-. simpl.
    split; [exists tk; split; reflexivity|].
    split; [exact Hnan|].
    intros ->; reflexivity.
Qed.

(** The car loan of the examples and the single-column goal. *)
Lemma C6_loan_and_goal_witness :
  (isNaN (Modal.emi_amount Example.carLoanRecord) = false /\
   Modal.totalAmount Example.carLoanRecord = None /\
   Modal.paid Example.carLoanRecord = zero) /\
  (exists g, Modal.goalOfRow Example.host Example.goalRow = Normal (Some g) /\
             isNaN (Modal.targetAmount g) = false /\
             Modal.currentAmount g = zero).
Proof.
  split.
  - destruct (proj1 (C6_emitted_amounts Example.host Example.carLoanRow)
                Example.carLoanRecord) as (_ & Hnan & Htotal & Hpaid).
    + vm_compute. reflexivity.
    + split; [exact Hnan|]. split; [apply Htotal|apply Hpaid]; vm_compute; reflexivity.
  - assert (Hrow : exists g,
      Modal.goalOfRow Example.host Example.goalRow = Normal (Some g))
      by (eexists; vm_compute; reflexivity).
    destruct Hrow as (g & Hrow). exists g.
    destruct (proj2 (C6_emitted_amounts Example.host Example.goalRow) g Hrow)
      as (_ & Hnan & Hcurrent).
    split; [exact Hrow|]. split; [exact Hnan|].
    apply Hcurrent. vm_compute. reflexivity.
Defined.

(** C6 as stated fails: the instalment row with the amount "-500" and no
    "total" column is emitted with an amount below zero and without a
    [totalAmount]. *)
Lemma C6_negative_amount_is_emitted :
  Modal.emiOfRow Example.host Example.carLoanRow = Normal (Some Example.carLoanRecord) /\
  lt (Modal.emi_amount Example.carLoanRecord) zero = true /\
  ~ nonNegative (Modal.emi_amount Example.carLoanRecord) /\
  findKey Modal.totalTokens Example.carLoanRow = None /\
  Modal.totalAmount Example.carLoanRecord <> Some zero.
Proof.
  repeat split; try (vm_compute; reflexivity); vm_compute; discriminate.
Qed.

(** ** C8: the header bound to the amount *)






(** ** C9: one header for the name and the target of a goal *)

(** The records pushed by a loop are put after those the array holds,
    and a loop over two runs of rows is the loop over the second begun
    with what the first leaves. *)
Lemma pushEach_from {A} (body : JS.object -> Completion (option A))
    (rows : list JS.object) :
  forall out,
    Modal.pushEach body rows out =
    match Modal.pushEach body rows [] with
    | Normal l => Normal (out ++ l)
    | Throw msg => Throw msg
    end.
Proof.
  induction rows as [|row rows IH]; intros out; simpl.
  - rewrite app_nil_r. reflexivity.
  - destruct (body row) as [[a|]|msg]; simpl; [| |reflexivity].
    + rewrite (IH (out ++ [a])), (IH [a]).
      destruct (Modal.pushEach body rows []) as [l|msg]; [|reflexivity].
      rewrite <- app_assoc. reflexivity.
    + apply IH.
Qed.

Lemma pushEach_app {A} (body : JS.object -> Completion (option A))
    (rows rows' : list JS.object) :
  forall out,
    Modal.pushEach body (rows ++ rows') out =
    match Modal.pushEach body rows out with
    | Normal l => Modal.pushEach body rows' l
    | Throw msg => Throw msg
    end.
Proof.
  induction rows as [|row rows IH]; intros out; simpl; [reflexivity|].
  destruct (body row) as [[a|]|msg]; simpl; [apply IH|apply IH|reflexivity].
Qed.

(** C9, as amended.  A savings row whose name and target resolve to
    the same header, as they do when a "Goal" column is the only one
    eligible for either, is not skipped for that.  In a sheet whose
    other rows give the goals [goalsBefore] and [goalsAfter],
    [parseSavingsSheet] passes the row over when no deadline header is
    found or when the cell under the shared header does not decode to a
    number; it throws, so that no goal at all is returned, when the
    deadline cell makes the date block throw (a serial that
    [parse_date_code] refuses); and otherwise it returns, between the
    goals of the rows before and after, a goal whose name is the text
    of that cell and whose target is its number. *)
Theorem C9_shared_header_row
    (H : Host) (before after : list JS.object) (row : JS.object) (key : string)
    (goalsBefore goalsAfter : list Modal.ParsedSavingsGoal) :
  findKey Modal.goalNameTokens row = Some key ->
  findKey Modal.targetTokens row = Some key ->
  Modal.parseSavingsSheet H before = Normal goalsBefore ->
  Modal.parseSavingsSheet H after = Normal goalsAfter ->
  Modal.parseSavingsSheet H (before ++ row :: after) =
    match findKey Modal.deadlineTokens row with
    | None => Normal (goalsBefore ++ goalsAfter)
    | Some deadlineKey =>
        match decodeDate H (get row deadlineKey) with
        | Throw msg => Throw msg
        | Normal dateStr =>
            if isNaN (decodeAmount (get row key))
            then Normal (goalsBefore ++ goalsAfter)
            else Normal (goalsBefore ++
                         {| Modal.goal_name := toString (get row key);
                            Modal.targetAmount := decodeAmount (get row key);
                            Modal.currentAmount :=
                              match findKey Modal.currentTokens row with
                              | Some currentKey => decodeAmount (get row currentKey)
                              | None => zero
                              end;
                            Modal.deadline := dateStr |} :: goalsAfter)
        end
    end.
Proof.
  intros Hname Htarget Hbefore Hafter. unfold Modal.parseSavingsSheet in *.
  rewrite pushEach_app, Hbefore.
  cbn [Modal.pushEach]. unfold Modal.goalOfRow at 1. rewrite Hname, Htarget.
  destruct (findKey Modal.deadlineTokens row) as [dk|].
  - destruct (decodeDate H (get row dk)) as [ds|msg]; [|reflexivity].
    cbn [bindC].
    destruct (isNaN (decodeAmount (get row key))); cbn [bindC];
      rewrite pushEach_from, Hafter; [reflexivity|].
    rewrite <- app_assoc. reflexivity.
  - cbn [bindC]. rewrite pushEach_from, Hafter. reflexivity.
Qed.

(** The row with the columns "Goal" and "Deadline" only, after a row
    like it and before a row without a deadline. *)
Lemma C9_goal_column_witness :
  Modal.parseSavingsSheet Example.host
      ([Example.goalRow] ++ Example.goalRow :: [[("Goal"%string, Str "9000")]]) =
    Normal ([Example.goalRecord] ++ Example.goalRecord :: []).
Proof.
  rewrite (C9_shared_header_row Example.host [Example.goalRow]
             [[("Goal"%string, Str "9000")]] Example.goalRow "Goal"%string
             [Example.goalRecord] []);
    vm_compute; reflexivity.
Defined.

(** C9 as stated fails: "Goal" is the one header of the row eligible for
    the name words and for the target words, and the row is emitted.
    With a deadline serial below zero the same row is not skipped
    either: the normaliser throws. *)
Lemma C9_goal_only_row_is_emitted :
  keys Example.goalRow = ["Goal"; "Deadline"]%string /\
  matchesAny Modal.goalNameTokens "Goal" = true /\
  matchesAny Modal.targetTokens "Goal" = true /\
  matchesAny Modal.goalNameTokens "Deadline" = false /\
  matchesAny Modal.targetTokens "Deadline" = false /\
  Modal.goalOfRow Example.host Example.goalRow =
    Normal (Some {| Modal.goal_name := "5000";
                    Modal.targetAmount := ofZ 5000;
                    Modal.currentAmount := zero;
                    Modal.deadline := Str "2023-03-15" |}) /\
  Modal.parseSavingsSheet Example.host [Example.goalRow] <> Normal [] /\
  Modal.parseSavingsSheet Example.host [Example.lateGoalRow] =
    Throw (nullReadMessage Example.host).
Proof.
  repeat split; try (vm_compute; reflexivity). vm_compute. discriminate.
Qed.

(** ** C10: the page and the modal *)

Lemma find_ext_in {A} (p q : A -> bool) (l : list A) :
  (forall x, In x l -> p x = q x) -> find p l = find q l.
Proof.
  induction l as [|a l IH]; intros Hpq; simpl; [reflexivity|].
  rewrite <- (Hpq a (or_introl eq_refl)).
  destruct (p a); [reflexivity|]. apply IH. intros x Hx. apply Hpq. right. exact Hx.
Qed.

Lemma modalOnly_words_absent (key : string) :
  ~ containsAny modalOnlyTokens key ->
  includes (toLowerCase key) "narration" = false /\
  includes (toLowerCase key) "debit" = false /\
  includes (toLowerCase key) "credit" = false /\
  includes (toLowerCase key) "account" = false.
Proof.
  unfold containsAny, matchesAny, modalOnlyTokens. simpl. intros Hnone.
  destruct (includes (toLowerCase key) "narration");
  destruct (includes (toLowerCase key) "debit");
  destruct (includes (toLowerCase key) "credit");
  destruct (includes (toLowerCase key) "account");
  simpl in Hnone; auto; contradiction Hnone; reflexivity.
Qed.

Section PageAndModal.

Variable H : Host.

Lemma same_keys_found (row : JS.object) :
  Forall (fun k => ~ containsAny modalOnlyTokens k) (keys row) ->
  findKey Page.descTokens row = findKey Modal.descTokens row /\
  findKey Page.amountTokens row = findKey Modal.amountTokens row /\
  findKey Page.sourceTokens row = findKey Modal.sourceTokens row.
Proof.
  intros Hkeys. rewrite Forall_forall in Hkeys.
  repeat split; apply find_ext_in; intros k Hk;
    destruct (modalOnly_words_absent k (Hkeys k Hk)) as (Hn & Hd & Hc & Ha);
    unfold matchesAny; simpl; rewrite ?Hn, ?Hd, ?Hc, ?Ha; reflexivity.
Qed.

Lemma rows_read_alike (row : JS.object) (i j : nat) :
  readAlike row ->
  snd (Page.transactionOfRow H i row) = snd (Modal.transactionOfRow H j row).
Proof.
  intros (Hkeys & typeKey & Htype & Hcell).
  destruct (same_keys_found row Hkeys) as (Hdesc & Hamount & Hsource).
  unfold Page.transactionOfRow, Modal.transactionOfRow.
  rewrite Hdesc, Hamount, Hsource.
  change (findKey Page.dateTokens row) with (findKey Modal.dateTokens row).
  change (findKey Page.categoryTokens row) with (findKey Modal.categoryTokens row).
  change (findKey Page.typeTokens row) with (findKey Modal.typeTokens row).
  rewrite Htype, Hcell.
  destruct (findKey Modal.dateTokens row) as [dk|]; [|reflexivity].
  destruct (findKey Modal.descTokens row) as [sk|]; [|reflexivity].
  destruct (findKey Modal.amountTokens row) as [ak|]; [|reflexivity].
  rewrite !snd_bind.
  destruct (decodeDate H (get row dk)) as [ds|msg]; simpl; [|reflexivity].
  destruct (isNaN (decodeAmount (get row ak))); reflexivity.
Qed.

Lemma loops_agree (rows : list JS.object) :
  Forall readAlike rows ->
  forall i j acc,
    snd (Page.transactionsLoop H i rows acc) = snd (Modal.transactionsLoop H j rows acc).
Proof.
  induction 1 as [|row rows Hrow _ IH]; intros i j acc; simpl; [reflexivity|].
  rewrite !snd_bind, (rows_read_alike row i j Hrow).
  destruct (snd (Modal.transactionOfRow H j row)) as [r|msg]; [apply IH|reflexivity].
Qed.

End PageAndModal.

(** C10, as amended.  When the first sheet of the workbook has at
    least one row, no header of it contains "narration", "debit",
    "credit" or "account", and every row has a "type" header with a
    non-empty (truthy) cell, the loop of the upload page and the
    transactions normaliser of the upload modal emit the same list of
    records, or throw the same error, and [parseExcelFile] of the page
    settles accordingly: it resolves with the list of the modal's
    normaliser when that list is not empty, rejects the file with "No
    valid transactions found in file. Please check the format." when
    the list is empty, and rejects with "Failed to parse Excel file: "
    and the message when the normaliser throws.  (The warnings
    differ.) *)
Theorem C10_page_and_modal_agree_on_typed_rows
    (H : Host) (sheetName : string) (rows : list JS.object)
    (others : XLSX.Workbook) (availableColumns : list string) :
  rows <> [] ->
  Forall readAlike rows ->
  snd (Page.transactionsLoop H 0 rows []) =
    snd (Modal.parseTransactionsSheet H rows availableColumns) /\
  snd (Page.parseExcelFile H (Modal.Loaded (Normal ((sheetName, rows) :: others)))) =
    match snd (Modal.parseTransactionsSheet H rows availableColumns) with
    | Normal [] =>
        Throw "No valid transactions found in file. Please check the format."
    | Normal transactions => Normal transactions
    | Throw msg => Throw ("Failed to parse Excel file: " ++ msg)%string
    end.
Proof.
  intros Hsome Hrows.
  assert (Hloops : snd (Page.transactionsLoop H 0 rows []) =
                   snd (Modal.parseTransactionsSheet H rows availableColumns)).
  { unfold Modal.parseTransactionsSheet. apply loops_agree, Hrows. }
  split; [exact Hloops|].
  rewrite <- Hloops. unfold Page.parseExcelFile, Page.firstSheet.
  destruct rows as [|row rows]; [contradiction|].
  destruct (Page.transactionsLoop H 0 (row :: rows) []) as [w [[|t l]|msg]];
    reflexivity.
Qed.

(** The sheet whose one row has the type "expense". *)
Lemma C10_typed_row_witness :
  snd (Page.transactionsLoop Example.host 0 [Example.typedRow] []) =
    snd (Modal.parseTransactionsSheet Example.host [Example.typedRow]
           ["Date"; "Description"; "Amount"; "Type"]%string) /\
  snd (Page.parseExcelFile Example.host
         (Modal.Loaded (Normal [("Q1"%string, [Example.typedRow])]))) =
    match snd (Modal.parseTransactionsSheet Example.host [Example.typedRow]
                 ["Date"; "Description"; "Amount"; "Type"]%string) with
    | Normal [] =>
        Throw "No valid transactions found in file. Please check the format."
    | Normal transactions => Normal transactions
    | Throw msg => Throw ("Failed to parse Excel file: " ++ msg)%string
    end.
Proof.
  apply (C10_page_and_modal_agree_on_typed_rows Example.host "Q1"
           [Example.typedRow] []).
  - discriminate.
  - repeat constructor.
    + intros Hk; vm_compute in Hk; discriminate.
    + intros Hk; vm_compute in Hk; discriminate.
    + intros Hk; vm_compute in Hk; discriminate.
    + intros Hk; vm_compute in Hk; discriminate.
    + exists "Type"%string. split; vm_compute; reflexivity.
Defined.

(** C10 as stated fails: for the rent row, which has no type column, the
    modal emits the record and the page emits none, warns, and rejects
    the file. *)
Lemma C10_untyped_row_differs :
  snd (Modal.parseTransactionsSheet Example.host [Example.rentRow]
         ["Date"; "Description"; "Amount"]%string) = Normal [Example.rentRecord] /\
  snd (Page.transactionsLoop Example.host 0 [Example.rentRow] []) = Normal [] /\
  Page.parseExcelFile Example.host (Example.statement [Example.rentRow]) =
    (["Row 2 is missing required fields, skipping"%string],
     Throw "No valid transactions found in file. Please check the format.") /\
  snd (Page.transactionsLoop Example.host 0 [Example.rentRow] []) <>
  snd (Modal.parseTransactionsSheet Example.host [Example.rentRow]
         ["Date"; "Description"; "Amount"]%string).
Proof.
  repeat split; try (vm_compute; reflexivity). vm_compute. discriminate.
Qed.

(* ================================================================== *)
(** * Further properties of the upload modal and the upload page *)
(* ================================================================== *)

(** ** Header lookup *)

Lemma includes_nonempty (s t : string) :
  includes s t = true -> t <> EmptyString -> s <> EmptyString.
Proof.
  intros Hinc Ht ->. simpl in Hinc. destruct t; [contradiction|discriminate].
Qed.

Lemma get_of_key (row : JS.object) (key : string) :
  In key (keys row) -> exists cell, In (key, cell) row /\ get row key = cell.
Proof.
  induction row as [|[k v] row IH]; simpl; [contradiction|].
  destruct (String.eqb k key) eqn:Hk.
  - apply String.eqb_eq in Hk. subst k. intros _. exists v. auto.
  - intros [Heq|Hin].
    + subst k. rewrite String.eqb_refl in Hk. discriminate.
    + destruct (IH Hin) as (cell & Hcell & Hget). exists cell. auto.
Qed.

(** X1.  A key that the header search returns is a key of the row, its
    lower-cased text contains one of the words searched for, and reading
    the row at that key gives the cell of a property the row has, never
    the [undefined] of a missing property.  When no word is empty the key
    is not the empty text, so the test [!key] of the source only asks
    whether a key was found. *)
Theorem X1_found_key_is_a_header_of_the_row
    (words : list string) (row : JS.object) (key : string) :
  findKey words row = Some key ->
  In key (keys row) /\
  (exists word, In word words /\ includes (toLowerCase key) word = true) /\
  (exists cell, In (key, cell) row /\ get row key = cell) /\
  (Forall (fun word => word <> EmptyString) words -> key <> EmptyString).
Proof.
  intros Hfind. unfold findKey in Hfind.
  destruct (find_some _ _ Hfind) as (Hin & Hmatch).
  unfold matchesAny in Hmatch. apply existsb_exists in Hmatch.
  destruct Hmatch as (word & Hword & Hinc).
  split; [exact Hin|]. split; [exists word; auto|].
  split; [apply get_of_key, Hin|].
  intros Hwords Hkey. rewrite Forall_forall in Hwords.
  apply (includes_nonempty _ _ Hinc (Hwords word Hword)).
  subst key. reflexivity.
Qed.

Lemma X1_credit_row_witness :
  In "Credit"%string (keys Example.creditAmountRow) /\
  (exists word, In word Modal.amountTokens /\
                includes (toLowerCase "Credit") word = true) /\
  (exists cell, In ("Credit"%string, cell) Example.creditAmountRow /\
                get Example.creditAmountRow "Credit" = cell) /\
  (Forall (fun word => word <> EmptyString) Modal.amountTokens ->
   "Credit"%string <> EmptyString).
Proof.
  apply (X1_found_key_is_a_header_of_the_row Modal.amountTokens
           Example.creditAmountRow "Credit"%string).
  vm_compute. reflexivity.
Defined.

(** ** Every row is accounted for *)

Section RowAccounting.

Variable H : Host.

(** The four outcomes of the body of the modal's loop. *)
Lemma transactionOfRow_cases (i : nat) (row : JS.object) :
  (lacksRequired row = true /\
   Modal.transactionOfRow H i row = ([], Normal None)) \/
  (lacksRequired row = false /\
   ((exists msg, Modal.transactionOfRow H i row = ([], Throw msg)) \/
    Modal.transactionOfRow H i row = ([Modal.invalidAmountWarning i], Normal None) \/
    (exists t, Modal.transactionOfRow H i row = ([], Normal (Some t)) /\
               nonNegative (Modal.amount t)))).
Proof.
  unfold lacksRequired, Modal.transactionOfRow.
  destruct (findKey Modal.dateTokens row) as [dk|]; [|left; auto].
  destruct (findKey Modal.descTokens row) as [sk|]; [|left; auto].
  destruct (findKey Modal.amountTokens row) as [ak|]; [|left; auto].
  right. split; [reflexivity|].
  destruct (decodeDate H (get row dk)) as [ds|msg].
  - rewrite bind_lift_normal.
    destruct (isNaN (decodeAmount (get row ak))) eqn:Hnan.
    + right. left. rewrite bind_warn. reflexivity.
    + right. right. eexists. split; [reflexivity|].
      simpl. apply abs_nonNegative, Hnan.
  - left. exists msg. rewrite bind_lift_throw. reflexivity.
Qed.

Lemma transactionsLoop_accounting (rows : list JS.object) :
  forall i acc w txs,
    Forall (fun t => nonNegative (Modal.amount t)) acc ->
    Modal.transactionsLoop H i rows acc = (w, Normal txs) ->
    List.length txs + List.length w + countRows lacksRequired rows =
      List.length acc + List.length rows /\
    Forall (fun t => nonNegative (Modal.amount t)) txs /\
    exists added, txs = acc ++ added.
Proof.
  unfold countRows.
  induction rows as [|row rows IH]; intros i acc w txs Hacc; simpl.
  - intros [= <- <-]. simpl. split; [lia|]. split; [exact Hacc|].
    exists []. rewrite app_nil_r. reflexivity.
  - destruct (transactionOfRow_cases i row)
      as [(Hlacks & ->)|(Hlacks & [(msg & ->)|[->|(t & -> & Ht)]])];
      rewrite Hlacks.
    + rewrite bind_ret_l. intros Hloop.
      destruct (IH _ _ _ _ Hacc Hloop) as (Hcount & Hall & Hadded).
      simpl. split; [lia|]. auto.
    + simpl. discriminate.
    + unfold bind.
      destruct (Modal.transactionsLoop H (S i) rows acc) as [w2 r] eqn:Hloop.
      intros [= <- ->].
      destruct (IH _ _ _ _ Hacc Hloop) as (Hcount & Hall & Hadded).
      simpl. split; [lia|]. auto.
    + rewrite bind_ret_l. intros Hloop.
      assert (Hacc' : Forall (fun t0 => nonNegative (Modal.amount t0)) (acc ++ [t])).
      { apply Forall_app. split; [exact Hacc|]. constructor; [exact Ht|constructor]. }
      destruct (IH _ _ _ _ Hacc' Hloop) as (Hcount & Hall & (added & Hadded)).
      rewrite length_app in Hcount. simpl in Hcount.
      split; [lia|]. split; [exact Hall|].
      exists (t :: added). rewrite Hadded, <- app_assoc. reflexivity.
Qed.

End RowAccounting.

(** X2.  When the modal's transactions normaliser returns, every row of
    the sheet is accounted for exactly once: it gave a record, or a
    warning for its amount, or it lacked one of the headers for date,
    description and amount and was passed over without a warning.  Every
    record returned has an amount that is not below zero. *)
Theorem X2_every_row_is_accounted_for
    (H : Host) (rows : list JS.object) (availableColumns : list string)
    (w : list string) (records : list Modal.ParsedTransaction) :
  Modal.parseTransactionsSheet H rows availableColumns = (w, Normal records) ->
  List.length records + List.length w + countRows lacksRequired rows =
    List.length rows /\
  Forall (fun t => nonNegative (Modal.amount t)) records.
Proof.
  intros Hparse.
  destruct (transactionsLoop_accounting H rows 0 [] w records (Forall_nil _) Hparse)
    as (Hcount & Hall & _).
  split; [exact Hcount|exact Hall].
Qed.

Lemma X2_ten_rows_witness :
  List.length (map Example.entryRecord [1; 2; 3; 5; 6; 7; 8; 9; 10]%Z) +
  List.length ["Row 5 has invalid amount, skipping"%string] +
  countRows lacksRequired Example.tenRows = List.length Example.tenRows /\
  Forall (fun t => nonNegative (Modal.amount t))
         (map Example.entryRecord [1; 2; 3; 5; 6; 7; 8; 9; 10]%Z).
Proof.
  apply (X2_every_row_is_accounted_for Example.host Example.tenRows
           ["Date"; "Description"; "Amount"]%string).
  vm_compute. reflexivity.
Defined.

(** ** The workbook loop *)

Section WorkbookLoop.

Variable H : Host.

Lemma sheetCallback_by_role (result : Modal.ParsedData) (sheetName : string)
    (firstRow : JS.object) (rest : list JS.object) :
  Modal.sheetCallback H result (sheetName, firstRow :: rest) =
    match Spec.classify sheetName with
    | Spec.Installments =>
        (parsed <- lift (Modal.parseEMISheet H (firstRow :: rest)) ;;
         ret {| Modal.transactions := Modal.transactions result;
                Modal.emis := parsed;
                Modal.savingsGoals := Modal.savingsGoals result |})%eff
    | Spec.SavingsGoals =>
        (parsed <- lift (Modal.parseSavingsSheet H (firstRow :: rest)) ;;
         ret {| Modal.transactions := Modal.transactions result;
                Modal.emis := Modal.emis result;
                Modal.savingsGoals := parsed |})%eff
    | Spec.Transactions =>
        (parsed <- Modal.parseTransactionsSheet H (firstRow :: rest) (keys firstRow) ;;
         ret {| Modal.transactions := Modal.transactions result ++ parsed;
                Modal.emis := Modal.emis result;
                Modal.savingsGoals := Modal.savingsGoals result |})%eff
    end.
Proof.
  unfold Modal.sheetCallback, Spec.classify, Spec.nameContains.
  destruct (includes (toLowerCase sheetName) "emi" ||
            includes (toLowerCase sheetName) "loan")%bool; [reflexivity|].
  destruct (includes (toLowerCase sheetName) "saving" ||
            includes (toLowerCase sheetName) "goal")%bool; reflexivity.
Qed.

Lemma pushEach_keeps {A} (P : A -> Prop) (body : JS.object -> Completion (option A)) :
  (forall row a, body row = Normal (Some a) -> P a) ->
  forall rows out l,
    Forall P out -> Modal.pushEach body rows out = Normal l -> Forall P l.
Proof.
  intros Hbody. induction rows as [|row rows IH]; intros out l Hout; simpl.
  - intros [= <-]. exact Hout.
  - destruct (body row) as [[a|]|msg] eqn:Hrow; simpl; [| |discriminate].
    + apply IH. apply Forall_app. split; [exact Hout|].
      constructor; [apply (Hbody row), Hrow|constructor].
    + apply IH, Hout.
Qed.

Lemma emiOfRow_amount (row : JS.object) (e : Modal.ParsedEMI) :
  Modal.emiOfRow H row = Normal (Some e) -> isNaN (Modal.emi_amount e) = false.
Proof.
  unfold Modal.emiOfRow.
  destruct (findKey Modal.emiNameTokens row) as [nk|]; [|discriminate].
  destruct (findKey Modal.emiAmountTokens row) as [ak|]; [|discriminate].
  destruct (findKey Modal.dueDateTokens row) as [dk|]; [|discriminate].
  destruct (decodeDate H (get row dk)) as [ds|msg]; simpl; [|discriminate].
  destruct (isNaN (decodeAmount (get row ak))) eqn:Hnan; [discriminate|].
  intros [= <-]. exact Hnan.
Qed.

Lemma goalOfRow_target (row : JS.object) (g : Modal.ParsedSavingsGoal) :
  Modal.goalOfRow H row = Normal (Some g) -> isNaN (Modal.targetAmount g) = false.
Proof.
  unfold Modal.goalOfRow.
  destruct (findKey Modal.goalNameTokens row) as [nk|]; [|discriminate].
  destruct (findKey Modal.targetTokens row) as [tk|]; [|discriminate].
  destruct (findKey Modal.deadlineTokens row) as [dk|]; [|discriminate].
  destruct (decodeDate H (get row dk)) as [ds|msg]; simpl; [|discriminate].
  destruct (isNaN (decodeAmount (get row tk))) eqn:Hnan; [discriminate|].
  intros [= <-]. exact Hnan.
Qed.

Lemma sheetCallback_sound (result : Modal.ParsedData) (sheet : string * list JS.object)
    (w : list string) (result' : Modal.ParsedData) :
  soundData result ->
  Modal.sheetCallback H result sheet = (w, Normal result') ->
  soundData result' /\
  Modal.transactions result' = Modal.transactions result ++ sheetTransactions H sheet.
Proof.
  intros (Ht & He & Hg). destruct sheet as [sheetName [|firstRow rest]].
  - simpl. intros [= <- <-]. unfold sheetTransactions. simpl.
    destruct (Spec.classify sheetName); rewrite app_nil_r; repeat split; assumption.
  - rewrite sheetCallback_by_role. unfold sheetTransactions. simpl fst. simpl snd.
    destruct (Spec.classify sheetName).
    + destruct (Modal.parseTransactionsSheet H (firstRow :: rest) (keys firstRow))
        as [w1 [parsed|msg]] eqn:Hparse; simpl; [|discriminate].
      intros [= <- <-]. simpl.
      destruct (transactionsLoop_accounting H _ 0 [] _ _ (Forall_nil _) Hparse)
        as (_ & Hall & _).
      repeat split; try assumption. apply Forall_app. auto.
    + unfold lift. destruct (Modal.parseEMISheet H (firstRow :: rest))
        as [parsed|msg] eqn:Hparse; simpl; [|discriminate].
      intros [= <- <-]. simpl. rewrite app_nil_r.
      repeat split; try assumption.
      apply (pushEach_keeps _ _ emiOfRow_amount _ _ _ (Forall_nil _) Hparse).
    + unfold lift. destruct (Modal.parseSavingsSheet H (firstRow :: rest))
        as [parsed|msg] eqn:Hparse; simpl; [|discriminate].
      intros [= <- <-]. simpl. rewrite app_nil_r.
      repeat split; try assumption.
      apply (pushEach_keeps _ _ goalOfRow_target _ _ _ (Forall_nil _) Hparse).
Qed.

Lemma forEachSheet_sound (workbook : XLSX.Workbook) :
  forall result w data,
    soundData result ->
    Modal.forEachSheet H workbook result = (w, Normal data) ->
    soundData data /\
    Modal.transactions data =
      Modal.transactions result ++ flat_map (sheetTransactions H) workbook.
Proof.
  induction workbook as [|sheet rest IH]; intros result w data Hresult; simpl.
  - intros [= <- <-]. rewrite app_nil_r. auto.
  - destruct (Modal.sheetCallback H result sheet) as [w1 [result'|msg]] eqn:Hsheet;
      simpl; [|discriminate].
    destruct (Modal.forEachSheet H rest result') as [w2 r] eqn:Hrest.
    intros [= <- ->].
    destruct (sheetCallback_sound _ _ _ _ Hresult Hsheet) as (Hsound & Htx).
    destruct (IH _ _ _ Hsound Hrest) as (Hdata & Hall).
    split; [exact Hdata|]. rewrite Hall, Htx, app_assoc. reflexivity.
Qed.

Lemma parseExcelFile_normal (file : Modal.FileRead) (w : list string)
    (data : Modal.ParsedData) :
  Modal.parseExcelFile H file = (w, Normal data) ->
  exists workbook,
    file = Modal.Loaded (Normal workbook) /\
    Modal.forEachSheet H workbook Modal.emptyData = (w, Normal data).
Proof.
  destruct file as [|[workbook|msg]]; unfold Modal.parseExcelFile, lift;
    try discriminate.
  destruct (Modal.forEachSheet H workbook Modal.emptyData) as [w1 [r|m]] eqn:Hloop;
    [|discriminate].
  intros [= <- <-]. exists workbook. auto.
Qed.

End WorkbookLoop.

(** X3.  Whatever the workbook, the data [parseExcelFile] of the modal
    resolves to keeps three invariants: no transaction has an amount
    below zero or NaN, no instalment has a NaN amount, and no savings
    goal has a NaN target. *)
Theorem X3_parsed_amounts_are_numbers
    (H : Host) (file : Modal.FileRead) (w : list string) (data : Modal.ParsedData) :
  Modal.parseExcelFile H file = (w, Normal data) ->
  Forall (fun t => nonNegative (Modal.amount t) /\ isNaN (Modal.amount t) = false)
         (Modal.transactions data) /\
  Forall (fun e => isNaN (Modal.emi_amount e) = false) (Modal.emis data) /\
  Forall (fun g => isNaN (Modal.targetAmount g) = false) (Modal.savingsGoals data).
Proof.
  intros Hparse.
  destruct (parseExcelFile_normal H _ _ _ Hparse) as (workbook & _ & Hloop).
  assert (Hempty : soundData Modal.emptyData) by (repeat split; constructor).
  destruct (forEachSheet_sound H workbook _ _ _ Hempty Hloop) as ((Ht & He & Hg) & _).
  split; [|split; assumption].
  eapply Forall_impl; [|exact Ht].
  intros t Hpos. split; [exact Hpos|].
  unfold nonNegative in Hpos. destruct (Modal.amount t); [reflexivity..|discriminate|reflexivity].
Qed.

Lemma X3_mixed_workbook_witness :
  Forall (fun t => nonNegative (Modal.amount t) /\ isNaN (Modal.amount t) = false)
         [Example.rentRecord; Example.typedRecord] /\
  Forall (fun e => isNaN (Modal.emi_amount e) = false) [Example.homeLoanRecord] /\
  Forall (fun g => isNaN (Modal.targetAmount g) = false) [].
Proof.
  apply (X3_parsed_amounts_are_numbers Example.host Example.mixedWorkbook []
           {| Modal.transactions := [Example.rentRecord; Example.typedRecord];
              Modal.emis := [Example.homeLoanRecord];
              Modal.savingsGoals := [] |}).
  vm_compute. reflexivity.
Defined.

(** X5.  The transactions of the result are the records of the sheets
    whose name gives the role Transactions, sheet after sheet in
    workbook order and row after row within a sheet; sheets of the other
    roles and sheets without rows add nothing to them. *)
Theorem X5_transactions_concatenate_over_sheets
    (H : Host) (workbook : XLSX.Workbook) (w : list string) (data : Modal.ParsedData) :
  Modal.parseExcelFile H (Modal.Loaded (Normal workbook)) = (w, Normal data) ->
  Modal.transactions data = flat_map (sheetTransactions H) workbook.
Proof.
  intros Hparse.
  destruct (parseExcelFile_normal H _ _ _ Hparse) as (workbook' & [= <-] & Hloop).
  assert (Hempty : soundData Modal.emptyData) by (repeat split; constructor).
  destruct (forEachSheet_sound H workbook _ _ _ Hempty Hloop) as (_ & Hall).
  exact Hall.
Qed.

Lemma X5_mixed_workbook_witness :
  [Example.rentRecord; Example.typedRecord] =
  flat_map (sheetTransactions Example.host)
    [("Q1", [Example.rentRow]); ("EMI 1", [Example.carLoanRow]);
     ("Q2", [Example.typedRow]); ("EMI 2", [Example.homeLoanRow])]%string.
Proof.
  apply (X5_transactions_concatenate_over_sheets Example.host
           [("Q1", [Example.rentRow]); ("EMI 1", [Example.carLoanRow]);
            ("Q2", [Example.typedRow]); ("EMI 2", [Example.homeLoanRow])]%string []
           {| Modal.transactions := [Example.rentRecord; Example.typedRecord];
              Modal.emis := [Example.homeLoanRecord];
              Modal.savingsGoals := [] |}).
  vm_compute. reflexivity.
Defined.

(** X6.  A sheet without rows is passed over before its name is looked
    at: deleting every such sheet from the workbook changes neither the
    data returned nor the warnings.  In particular an instalment or
    savings sheet without rows does not replace the records of an
    earlier sheet of its role. *)
Theorem X6_sheets_without_rows_are_ignored
    (H : Host) (workbook : XLSX.Workbook) :
  Modal.parseExcelFile H (Modal.Loaded (Normal (filter hasRows workbook))) =
  Modal.parseExcelFile H (Modal.Loaded (Normal workbook)) /\
  forall (before after : XLSX.Workbook) (sheetName : string),
    Modal.parseExcelFile H (Modal.Loaded (Normal (before ++ (sheetName, []) :: after))) =
    Modal.parseExcelFile H (Modal.Loaded (Normal (before ++ after))).
Proof.
  assert (Hloop : forall wb result,
    Modal.forEachSheet H (filter hasRows wb) result = Modal.forEachSheet H wb result).
  { induction wb as [|[name [|row rows]] rest IH]; intros result.
    - reflexivity.
    - change (filter hasRows ((name, []) :: rest)) with (filter hasRows rest).
      change (Modal.forEachSheet H ((name, []) :: rest) result)
        with (bind (ret result) (fun r => Modal.forEachSheet H rest r)).
      unfold ret. rewrite bind_ret_l. apply IH.
    - change (filter hasRows ((name, row :: rows) :: rest))
        with ((name, row :: rows) :: filter hasRows rest).
      cbn [Modal.forEachSheet]. unfold bind.
      destruct (Modal.sheetCallback H result (name, row :: rows)) as [w1 [r|msg]];
        [rewrite IH|]; reflexivity. }
  split.
  - unfold Modal.parseExcelFile. rewrite Hloop. reflexivity.
  - intros before after sheetName. unfold Modal.parseExcelFile.
    rewrite <- (Hloop (before ++ (sheetName, []) :: after)), <- (Hloop (before ++ after)).
    rewrite !filter_app. reflexivity.
Qed.

(** ** A date serial that the library refuses *)

Section RefusedDates.

Variable H : Host.

Lemma decodeDate_throws (cell : value) (msg : string) :
  decodeDate H cell = Throw msg -> msg = nullReadMessage H.
Proof.
  unfold decodeDate. destruct cell as [| |b|x|s].
  - simpl. discriminate.
  - simpl. discriminate.
  - destruct (toBoolean (Bool b)); [destruct (isoDate H (Bool b))|]; discriminate.
  - destruct (parse_date_code H x); [discriminate|]. intros [= <-]. reflexivity.
  - destruct (toBoolean (Str s)); [destruct (isoDate H (Str s))|]; discriminate.
Qed.

Lemma decodeDate_refused (x : number) :
  parse_date_code H x = None -> decodeDate H (Num x) = Throw (nullReadMessage H).
Proof. intros Hx. unfold decodeDate. rewrite Hx. reflexivity. Qed.

Lemma transactionOfRow_throws (i : nat) (row : JS.object) (msg : string) :
  snd (Modal.transactionOfRow H i row) = Throw msg -> msg = nullReadMessage H.
Proof.
  unfold Modal.transactionOfRow.
  destruct (findKey Modal.dateTokens row) as [dk|]; [|discriminate].
  destruct (findKey Modal.descTokens row) as [sk|]; [|discriminate].
  destruct (findKey Modal.amountTokens row) as [ak|]; [|discriminate].
  rewrite snd_bind.
  destruct (decodeDate H (get row dk)) as [ds|m] eqn:Hdate; simpl.
  - destruct (isNaN (decodeAmount (get row ak))); simpl; discriminate.
  - intros [= <-]. apply (decodeDate_throws _ _ Hdate).
Qed.

Lemma emiOfRow_throws (row : JS.object) (msg : string) :
  Modal.emiOfRow H row = Throw msg -> msg = nullReadMessage H.
Proof.
  unfold Modal.emiOfRow.
  destruct (findKey Modal.emiNameTokens row) as [nk|]; [|discriminate].
  destruct (findKey Modal.emiAmountTokens row) as [ak|]; [|discriminate].
  destruct (findKey Modal.dueDateTokens row) as [dk|]; [|discriminate].
  destruct (decodeDate H (get row dk)) as [ds|m] eqn:Hdate; simpl.
  - destruct (isNaN (decodeAmount (get row ak))); discriminate.
  - intros [= <-]. apply (decodeDate_throws _ _ Hdate).
Qed.

Lemma goalOfRow_throws (row : JS.object) (msg : string) :
  Modal.goalOfRow H row = Throw msg -> msg = nullReadMessage H.
Proof.
  unfold Modal.goalOfRow.
  destruct (findKey Modal.goalNameTokens row) as [nk|]; [|discriminate].
  destruct (findKey Modal.targetTokens row) as [tk|]; [|discriminate].
  destruct (findKey Modal.deadlineTokens row) as [dk|]; [|discriminate].
  destruct (decodeDate H (get row dk)) as [ds|m] eqn:Hdate; simpl.
  - destruct (isNaN (decodeAmount (get row tk))); discriminate.
  - intros [= <-]. apply (decodeDate_throws _ _ Hdate).
Qed.

Lemma transactionsLoop_throws (rows : list JS.object) :
  forall i acc msg,
    snd (Modal.transactionsLoop H i rows acc) = Throw msg -> msg = nullReadMessage H.
Proof.
  induction rows as [|row rows IH]; intros i acc msg; simpl; [discriminate|].
  rewrite snd_bind.
  destruct (snd (Modal.transactionOfRow H i row)) as [r|m] eqn:Hrow.
  - apply IH.
  - intros [= <-]. apply (transactionOfRow_throws _ _ _ Hrow).
Qed.

Lemma transactionsLoop_stops (rows : list JS.object) (row : JS.object) :
  In row rows ->
  (exists msg, snd (Modal.transactionOfRow H 0 row) = Throw msg) ->
  forall i acc,
    snd (Modal.transactionsLoop H i rows acc) = Throw (nullReadMessage H).
Proof.
  intros Hin (msg & Hthrow).
  induction rows as [|a rows IH]; [contradiction|]. intros i acc. simpl.
  rewrite snd_bind.
  destruct (snd (Modal.transactionOfRow H i a)) as [r|m] eqn:Ha.
  - destruct Hin as [->|Hin].
    + rewrite (row_result_at_any_index H row i 0), Hthrow in Ha. discriminate.
    + apply IH, Hin.
  - rewrite (transactionOfRow_throws _ _ _ Ha). reflexivity.
Qed.

Lemma pushEach_throws {A} (body : JS.object -> Completion (option A)) :
  (forall row msg, body row = Throw msg -> msg = nullReadMessage H) ->
  forall rows out msg,
    Modal.pushEach body rows out = Throw msg -> msg = nullReadMessage H.
Proof.
  intros Hbody. induction rows as [|row rows IH]; intros out msg; simpl;
    [discriminate|].
  destruct (body row) as [r|m] eqn:Hrow; simpl.
  - apply IH.
  - intros [= <-]. apply (Hbody _ _ Hrow).
Qed.

Lemma pushEach_stops {A} (body : JS.object -> Completion (option A))
    (rows : list JS.object) (row : JS.object) :
  (forall r msg, body r = Throw msg -> msg = nullReadMessage H) ->
  In row rows ->
  (exists msg, body row = Throw msg) ->
  forall out, Modal.pushEach body rows out = Throw (nullReadMessage H).
Proof.
  intros Hbody Hin (msg & Hthrow).
  induction rows as [|a rows IH]; [contradiction|]. intros out. simpl.
  destruct (body a) as [r|m] eqn:Ha; simpl.
  - destruct Hin as [->|Hin]; [congruence|apply IH, Hin].
  - rewrite (Hbody _ _ Ha). reflexivity.
Qed.

Lemma refusedDate_throws (sheetName : string) (row : JS.object) :
  refusedDate H sheetName row ->
  match Spec.classify sheetName with
  | Spec.Transactions => exists msg, snd (Modal.transactionOfRow H 0 row) = Throw msg
  | Spec.Installments => exists msg, Modal.emiOfRow H row = Throw msg
  | Spec.SavingsGoals => exists msg, Modal.goalOfRow H row = Throw msg
  end.
Proof.
  unfold refusedDate, dateRefused.
  destruct (Spec.classify sheetName);
    intros (Hrequired & dk & x & Hdk & Hcell & Hx);
    inversion Hrequired as [|? ? Hfirst Hrest]; subst;
    inversion Hrest as [|? ? Hsecond _]; subst;
    exists (nullReadMessage H).
  - unfold Modal.transactionOfRow. rewrite Hdk.
    destruct (findKey Modal.descTokens row); [|contradiction].
    destruct (findKey Modal.amountTokens row); [|contradiction].
    rewrite Hcell, (decodeDate_refused _ Hx). reflexivity.
  - unfold Modal.emiOfRow. rewrite Hdk.
    destruct (findKey Modal.emiNameTokens row); [|contradiction].
    destruct (findKey Modal.emiAmountTokens row); [|contradiction].
    rewrite Hcell, (decodeDate_refused _ Hx). reflexivity.
  - unfold Modal.goalOfRow. rewrite Hdk.
    destruct (findKey Modal.goalNameTokens row); [|contradiction].
    destruct (findKey Modal.targetTokens row); [|contradiction].
    rewrite Hcell, (decodeDate_refused _ Hx). reflexivity.
Qed.

Lemma sheetCallback_throws (result : Modal.ParsedData) (sheet : string * list JS.object)
    (msg : string) :
  snd (Modal.sheetCallback H result sheet) = Throw msg -> msg = nullReadMessage H.
Proof.
  destruct sheet as [sheetName [|firstRow rest]]; [discriminate|].
  rewrite sheetCallback_by_role.
  destruct (Spec.classify sheetName); rewrite snd_bind.
  - destruct (snd (Modal.parseTransactionsSheet H (firstRow :: rest) (keys firstRow)))
      as [r|m] eqn:Hparse; [discriminate|].
    intros [= <-]. apply (transactionsLoop_throws _ _ _ _ Hparse).
  - simpl. destruct (Modal.parseEMISheet H (firstRow :: rest)) as [r|m] eqn:Hparse;
      [discriminate|].
    intros [= <-]. apply (pushEach_throws _ emiOfRow_throws _ _ _ Hparse).
  - simpl. destruct (Modal.parseSavingsSheet H (firstRow :: rest)) as [r|m] eqn:Hparse;
      [discriminate|].
    intros [= <-]. apply (pushEach_throws _ goalOfRow_throws _ _ _ Hparse).
Qed.

Lemma sheetCallback_stops (result : Modal.ParsedData) (sheetName : string)
    (rows : list JS.object) (row : JS.object) :
  In row rows -> refusedDate H sheetName row ->
  snd (Modal.sheetCallback H result (sheetName, rows)) = Throw (nullReadMessage H).
Proof.
  intros Hin Hrow. apply refusedDate_throws in Hrow.
  destruct rows as [|firstRow rest]; [contradiction|].
  rewrite sheetCallback_by_role.
  destruct (Spec.classify sheetName); rewrite snd_bind.
  - unfold Modal.parseTransactionsSheet.
    rewrite (transactionsLoop_stops _ _ Hin Hrow). reflexivity.
  - simpl. unfold Modal.parseEMISheet.
    rewrite (pushEach_stops _ _ _ emiOfRow_throws Hin Hrow). reflexivity.
  - simpl. unfold Modal.parseSavingsSheet.
    rewrite (pushEach_stops _ _ _ goalOfRow_throws Hin Hrow). reflexivity.
Qed.

Lemma forEachSheet_stops (workbook : XLSX.Workbook) (sheetName : string)
    (rows : list JS.object) (row : JS.object) :
  In (sheetName, rows) workbook -> In row rows -> refusedDate H sheetName row ->
  forall result,
    snd (Modal.forEachSheet H workbook result) = Throw (nullReadMessage H).
Proof.
  intros Hsheet Hin Hrow.
  induction workbook as [|sheet rest IH]; [contradiction|]. intros result. simpl.
  rewrite snd_bind.
  destruct (snd (Modal.sheetCallback H result sheet)) as [r|m] eqn:Hs.
  - destruct Hsheet as [->|Hsheet].
    + rewrite (sheetCallback_stops _ _ _ _ Hin Hrow) in Hs. discriminate.
    + apply IH, Hsheet.
  - rewrite (sheetCallback_throws _ _ _ Hs). reflexivity.
Qed.

End RefusedDates.

(** X4.  One date cell is enough to lose the whole file.  When some row
    of some sheet has the headers its normaliser requires and holds,
    under its date header, a number for which [parse_date_code] answers
    [null], [parseExcelFile] rejects with "Failed to parse Excel file: "
    followed by the message of the TypeError, whatever the other rows
    and sheets hold, and [handleFileUpload] ends in its [catch] with
    that text: no record of any sheet is kept. *)
Theorem X4_refused_date_rejects_the_file
    (H : Host) (workbook : XLSX.Workbook) (sheetName : string)
    (rows : list JS.object) (row : JS.object) :
  In (sheetName, rows) workbook ->
  In row rows ->
  refusedDate H sheetName row ->
  snd (Modal.parseExcelFile H (Modal.Loaded (Normal workbook))) =
    Throw ("Failed to parse Excel file: " ++ nullReadMessage H)%string /\
  forall (api : Modal.Backend) (st : Modal.State) (fileName : string),
    failedWith st
      (snd (Modal.handleFileUpload H api st fileName (Modal.Loaded (Normal workbook))))
      ("Failed to parse Excel file: " ++ nullReadMessage H)%string.
Proof.
  intros Hsheet Hin Hrow.
  pose proof (forEachSheet_stops H workbook sheetName rows row Hsheet Hin Hrow
                Modal.emptyData) as Hloop.
  assert (Hparse :
    exists w, Modal.parseExcelFile H (Modal.Loaded (Normal workbook)) =
              (w, Throw ("Failed to parse Excel file: " ++ nullReadMessage H)%string)).
  { unfold Modal.parseExcelFile.
    destruct (Modal.forEachSheet H workbook Modal.emptyData) as [w [r|m]];
      simpl in Hloop; [discriminate|].
    injection Hloop as ->. exists w. reflexivity. }
  destruct Hparse as (w & Hparse).
  split; [rewrite Hparse; reflexivity|].
  intros api st fileName.
  unfold Modal.handleFileUpload, Modal.tryUpload. rewrite Hparse. simpl.
  repeat split. exists []. reflexivity.
Qed.

Lemma X4_negative_serial_witness :
  snd (Modal.parseExcelFile Example.host
         (Modal.Loaded (Normal
            [("Q1", [Example.rentRow;
                     [("Date", Num (ofZ (-1))); ("Description", Str "Refund");
                      ("Amount", Str "10")]])]%string))) =
    Throw ("Failed to parse Excel file: " ++ nullReadMessage Example.host)%string /\
  forall (api : Modal.Backend) (st : Modal.State) (fileName : string),
    failedWith st
      (snd (Modal.handleFileUpload Example.host api st fileName
              (Modal.Loaded (Normal
                 [("Q1", [Example.rentRow;
                          [("Date", Num (ofZ (-1))); ("Description", Str "Refund");
                           ("Amount", Str "10")]])]%string))))
      ("Failed to parse Excel file: " ++ nullReadMessage Example.host)%string.
Proof.
  apply (X4_refused_date_rejects_the_file Example.host _ "Q1"%string
           [Example.rentRow;
            [("Date", Num (ofZ (-1))); ("Description", Str "Refund");
             ("Amount", Str "10")]]%string
           [("Date", Num (ofZ (-1))); ("Description", Str "Refund");
            ("Amount", Str "10")]%string).
  - left. reflexivity.
  - right. left. reflexivity.
  - unfold refusedDate.
    change (Spec.classify "Q1") with Spec.Transactions.
    split.
    + repeat constructor; vm_compute; discriminate.
    + exists "Date"%string, (ofZ (-1)). repeat split; vm_compute; reflexivity.
Defined.

(** ** The two ends of the upload handler *)


(** ** The upload page *)

Section PageRows.

Variable H : Host.

(** The outcomes of the body of the page's loop: every row that gives
    no record gives one warning. *)
Lemma page_transactionOfRow_cases (i : nat) (row : JS.object) :
  (exists msg, Page.transactionOfRow H i row = ([], Throw msg)) \/
  (exists line, Page.transactionOfRow H i row = ([line], Normal None)) \/
  (exists t, Page.transactionOfRow H i row = ([], Normal (Some t)) /\
             nonNegative (Modal.amount t) /\
             exists typeKey, findKey Page.typeTokens row = Some typeKey /\
                             Modal.type t = toString (get row typeKey)).
Proof.
  unfold Page.transactionOfRow.
  destruct (findKey Page.dateTokens row) as [dk|];
    [|right; left; eexists; rewrite bind_warn; reflexivity].
  destruct (findKey Page.descTokens row) as [sk|];
    [|right; left; eexists; rewrite bind_warn; reflexivity].
  destruct (findKey Page.amountTokens row) as [ak|];
    [|right; left; eexists; rewrite bind_warn; reflexivity].
  destruct (findKey Page.typeTokens row) as [tk|];
    [|right; left; eexists; rewrite bind_warn; reflexivity].
  destruct (decodeDate H (get row dk)) as [ds|msg].
  - rewrite bind_lift_normal.
    destruct (isNaN (decodeAmount (get row ak))) eqn:Hnan.
    + right. left. eexists. rewrite bind_warn. reflexivity.
    + right. right. eexists. split; [reflexivity|]. simpl.
      split; [apply abs_nonNegative, Hnan|]. exists tk. auto.
  - left. exists msg. rewrite bind_lift_throw. reflexivity.
Qed.

Lemma page_loop_accounting (all rows : list JS.object) :
  (forall row, In row rows -> In row all) ->
  forall i acc w txs,
    Forall (pageRecord all) acc ->
    Page.transactionsLoop H i rows acc = (w, Normal txs) ->
    List.length txs + List.length w = List.length acc + List.length rows /\
    Forall (pageRecord all) txs.
Proof.
  induction rows as [|row rows IH]; intros Hsub i acc w txs Hacc; simpl.
  - intros [= <- <-]. simpl. split; [reflexivity|exact Hacc].
  - assert (Hsub' : forall r, In r rows -> In r all)
      by (intros r Hr; apply Hsub; right; exact Hr).
    destruct (page_transactionOfRow_cases i row)
      as [(msg & ->)|[(line & ->)|(t & -> & Ht & tk & Htk & Htype)]].
    + simpl. discriminate.
    + unfold bind.
      destruct (Page.transactionsLoop H (S i) rows acc) as [w2 r] eqn:Hloop.
      intros [= <- ->].
      destruct (IH Hsub' _ _ _ _ Hacc Hloop) as (Hcount & Hall).
      simpl. split; [lia|exact Hall].
    + rewrite bind_ret_l. intros Hloop.
      assert (Hacc' : Forall (pageRecord all) (acc ++ [t])).
      { apply Forall_app. split; [exact Hacc|].
        constructor; [|constructor]. split; [exact Ht|].
        exists row, tk. split; [apply Hsub; left; reflexivity|]. auto. }
      destruct (IH Hsub' _ _ _ _ Hacc' Hloop) as (Hcount & Hall).
      rewrite length_app in Hcount. simpl in Hcount. split; [lia|exact Hall].
Qed.

End PageRows.

(** X8.  When [parseExcelFile] of the upload page resolves, the list it
    gives is not empty; its records and its warnings together are as
    many as the rows of the first sheet, every row without a record
    having been warned about; every record has an amount that is not
    below zero and a kind that is [String] of the cell under the "type"
    header of a row, never a kind inferred from a sign. *)
Theorem X8_page_resolves_with_records_only
    (H : Host) (workbook : XLSX.Workbook) (w : list string)
    (records : list Page.ParsedTransaction) :
  Page.parseExcelFile H (Modal.Loaded (Normal workbook)) = (w, Normal records) ->
  records <> [] /\
  List.length records + List.length w = List.length (Page.firstSheet workbook) /\
  Forall (fun t =>
            nonNegative (Modal.amount t) /\
            exists row typeKey,
              In row (Page.firstSheet workbook) /\
              findKey Page.typeTokens row = Some typeKey /\
              Modal.type t = toString (get row typeKey)) records.
Proof.
  unfold Page.parseExcelFile.
  destruct (Page.firstSheet workbook) as [|row rows] eqn:Hsheet; [discriminate|].
  destruct (Page.transactionsLoop H 0 (row :: rows) []) as [w1 [[|t txs]|msg]] eqn:Hloop;
    try discriminate.
  intros [= <- <-].
  destruct (page_loop_accounting H (row :: rows) (row :: rows) (fun r Hr => Hr)
              0 [] _ _ (Forall_nil _) Hloop) as (Hcount & Hall).
  split; [discriminate|]. split; [exact Hcount|exact Hall].
Qed.

Lemma X8_typed_sheet_witness :
  [Example.typedRecord] <> [] /\
  List.length [Example.typedRecord] +
  List.length ["Row 3 is missing required fields, skipping"%string] =
    List.length (Page.firstSheet [("Q1"%string, [Example.typedRow; Example.rentRow])]) /\
  Forall (fun t =>
            nonNegative (Modal.amount t) /\
            exists row typeKey,
              In row (Page.firstSheet
                        [("Q1"%string, [Example.typedRow; Example.rentRow])]) /\
              findKey Page.typeTokens row = Some typeKey /\
              Modal.type t = toString (get row typeKey)) [Example.typedRecord].
Proof.
  apply (X8_page_resolves_with_records_only Example.host
           [("Q1"%string, [Example.typedRow; Example.rentRow])]).
  vm_compute. reflexivity.
Defined.

(* ================================================================== *)
(** * Properties of the server routes and of the client *)
(* ================================================================== *)

Lemma update_same {A} (m : string -> A) (k : string) (v : A) :
  Server.update m k v k = v.
Proof. unfold Server.update. rewrite String.eqb_refl. reflexivity. Qed.

Lemma update_other {A} (m : string -> A) (k k' : string) (v : A) :
  k' <> k -> Server.update m k v k' = m k'.
Proof.
  intros Hk. unfold Server.update.
  destruct (String.eqb k' k) eqn:Heq; [|reflexivity].
  apply String.eqb_eq in Heq. contradiction.
Qed.

Section ServerRoutes.

Variable P : Server.Platform.

Lemma authorised_user {A} (authHeader : option string) (user : string)
    (store : Server.Store) (route : string -> Server.Reply A * Server.Store) :
  Server.verifyUser P authHeader = inr user ->
  Server.authorised P authHeader store route = route user.
Proof. intros Hu. unfold Server.authorised. rewrite Hu. reflexivity. Qed.

Lemma authorised_error {A} (authHeader : option string) (error : string)
    (store : Server.Store) (route : string -> Server.Reply A * Server.Store) :
  Server.verifyUser P authHeader = inl error ->
  Server.authorised P authHeader store route = (Server.Failed 401 error, store).
Proof. intros Hu. unfold Server.authorised. rewrite Hu. reflexivity. Qed.

End ServerRoutes.

(** X9.  A request that [verifyUser] turns down is answered 401 with
    the error of [verifyUser], which is one of three texts, on each of
    the seven routes the uploads and the listing use, and leaves the
    store as it was: nothing is read for or written by a caller who is
    not signed in. *)
Theorem X9_unverified_requests_change_nothing
    (P : Server.Platform) (authHeader : option string) (error : string)
    (store : Server.Store) :
  Server.verifyUser P authHeader = inl error ->
  (error = "No authorization header"%string \/
   error = "No token provided"%string \/
   error = "Invalid token or user not found"%string) /\
  (forall body, Server.postTransaction P authHeader body store =
                (Server.Failed 401 error, store)) /\
  (forall query, Server.getTransactions P authHeader query store =
                 (Server.Failed 401 error, store)) /\
  (forall id, Server.deleteTransaction P authHeader id store =
              (Server.Failed 401 error, store)) /\
  (forall body, Server.postEmi P authHeader body store =
                (Server.Failed 401 error, store)) /\
  (forall body, Server.postSavings P authHeader body store =
                (Server.Failed 401 error, store)) /\
  (forall body, Server.postFile P authHeader body store =
                (Server.Failed 401 error, store)) /\
  (forall body, Server.postActiveFile P authHeader body store =
                (Server.Failed 401 error, store)).
Proof.
  intros Hu. split.
  - unfold Server.verifyUser in Hu.
    destruct authHeader as [[|c header]|]; try (injection Hu as <-; auto).
    destruct (nth_error (Server.split " " (String c header)) 1) as [[|c' token]|];
      try (injection Hu as <-; auto).
    destruct (Server.getUser P (String c' token)); [discriminate|].
    injection Hu as <-. auto.
  - repeat split; intros x;
      [ unfold Server.postTransaction | unfold Server.getTransactions
      | unfold Server.deleteTransaction | unfold Server.postEmi
      | unfold Server.postSavings | unfold Server.postFile
      | unfold Server.postActiveFile ];
      apply authorised_error, Hu.
Qed.

Lemma X9_unknown_token_witness :
  ("Invalid token or user not found"%string = "No authorization header"%string \/
   "Invalid token or user not found"%string = "No token provided"%string \/
   "Invalid token or user not found"%string = "Invalid token or user not found"%string) /\
  (forall body, Server.postTransaction ServerExample.platform (Api.bearer "guess") body
                  ServerExample.emptyStore =
                (Server.Failed 401 "Invalid token or user not found",
                 ServerExample.emptyStore)) /\
  (forall query, Server.getTransactions ServerExample.platform (Api.bearer "guess") query
                   ServerExample.emptyStore =
                 (Server.Failed 401 "Invalid token or user not found",
                  ServerExample.emptyStore)) /\
  (forall id, Server.deleteTransaction ServerExample.platform (Api.bearer "guess") id
                ServerExample.emptyStore =
              (Server.Failed 401 "Invalid token or user not found",
               ServerExample.emptyStore)) /\
  (forall body, Server.postEmi ServerExample.platform (Api.bearer "guess") body
                  ServerExample.emptyStore =
                (Server.Failed 401 "Invalid token or user not found",
                 ServerExample.emptyStore)) /\
  (forall body, Server.postSavings ServerExample.platform (Api.bearer "guess") body
                  ServerExample.emptyStore =
                (Server.Failed 401 "Invalid token or user not found",
                 ServerExample.emptyStore)) /\
  (forall body, Server.postFile ServerExample.platform (Api.bearer "guess") body
                  ServerExample.emptyStore =
                (Server.Failed 401 "Invalid token or user not found",
                 ServerExample.emptyStore)) /\
  (forall body, Server.postActiveFile ServerExample.platform (Api.bearer "guess") body
                  ServerExample.emptyStore =
                (Server.Failed 401 "Invalid token or user not found",
                 ServerExample.emptyStore)).
Proof.
  apply (X9_unverified_requests_change_nothing ServerExample.platform
           (Api.bearer "guess") "Invalid token or user not found"
           ServerExample.emptyStore).
  vm_compute. reflexivity.
Defined.

(** ** Adding, listing and deleting transactions *)

Section TransactionRoutes.

Variable P : Server.Platform.

(** The store after the transactions route has kept the record of
    [body] for [user]. *)
Lemma postTransaction_outcome (authHeader : option string) (user : string)
    (body : JS.object) (store : Server.Store) :
  Server.verifyUser P authHeader = inr user ->
  (JS.toBoolean (get body "date") && JS.toBoolean (get body "description") &&
   JS.toBoolean (get body "category") && JS.toBoolean (get body "amount") &&
   JS.toBoolean (get body "type") = false /\
   Server.postTransaction P authHeader body store =
     (Server.Failed 400 "Missing required fields", store)) \/
  (JS.toBoolean (get body "date") && JS.toBoolean (get body "description") &&
   JS.toBoolean (get body "category") && JS.toBoolean (get body "amount") &&
   JS.toBoolean (get body "type") = true /\
   exists store',
     Server.postTransaction P authHeader body store =
       (Server.Ok (storedTransaction P (Server.created store) body), store') /\
     Server.transactions store' user =
       Server.transactions store user ++
       [storedTransaction P (Server.created store) body] /\
     onlyTransactionsOf user store store' /\
     Server.created store' = S (Server.created store)).
Proof.
  intros Hu. unfold Server.postTransaction. rewrite (authorised_user P _ _ _ _ Hu).
  destruct (JS.toBoolean (get body "date")); [|left; auto].
  destruct (JS.toBoolean (get body "description")); [|left; auto].
  destruct (JS.toBoolean (get body "category")); [|left; auto].
  destruct (JS.toBoolean (get body "amount")); [|left; auto].
  destruct (JS.toBoolean (get body "type")); [|left; auto].
  right. split; [reflexivity|]. eexists. split; [reflexivity|]. simpl.
  split; [apply update_same|]. split; [|reflexivity].
  repeat split. intros other Hother. apply update_other, Hother.
Qed.

End TransactionRoutes.



(** ** What the handlers send *)

Lemma modalBody_fields (fileId : value) (t : Modal.ParsedTransaction) :
  get (modalBody fileId t) "date" = Api.jsonValue (Modal.date t) /\
  get (modalBody fileId t) "description" = Str (Modal.description t) /\
  get (modalBody fileId t) "category" = Str (Modal.category t) /\
  get (modalBody fileId t) "amount" = Api.jsonValue (Num (Modal.amount t)) /\
  get (modalBody fileId t) "type" = Str (Modal.type t) /\
  get (modalBody fileId t) "fileId" = Api.jsonValue fileId.
Proof.
  destruct t as [d description category amount type [source|]];
    destruct d, fileId; repeat split; reflexivity.
Qed.

Lemma pageBody_fields (t : Modal.ParsedTransaction) :
  get (pageBody t) "date" = Api.jsonValue (Modal.date t) /\
  get (pageBody t) "description" = Str (Modal.description t) /\
  get (pageBody t) "category" = Str (Modal.category t) /\
  get (pageBody t) "amount" = Api.jsonValue (Num (Modal.amount t)) /\
  get (pageBody t) "type" = Str (Modal.type t) /\
  get (pageBody t) "fileId" = Undefined.
Proof.
  destruct t as [d description category amount type [source|]];
    destruct d; repeat split; reflexivity.
Qed.

Section ClientCalls.

Variable P : Server.Platform.
Variable accessToken user : string.
Hypothesis Huser : signedIn P accessToken user.

(** The client's call for a body whose required fields are those of the
    record [t]. *)
Lemma add_outcome (body : JS.object) (t : Modal.ParsedTransaction)
    (store : Server.Store) :
  get body "date" = Api.jsonValue (Modal.date t) ->
  get body "description" = Str (Modal.description t) ->
  get body "category" = Str (Modal.category t) ->
  get body "amount" = Api.jsonValue (Num (Modal.amount t)) ->
  get body "type" = Str (Modal.type t) ->
  (sendable t = false /\
   Api.apiCall (Server.postTransaction P (Api.bearer accessToken) body store) =
     (Throw "Missing required fields", store)) \/
  (sendable t = true /\
   exists store',
     Api.apiCall (Server.postTransaction P (Api.bearer accessToken) body store) =
       (Normal (storedTransaction P (Server.created store) body), store') /\
     Server.transactions store' user =
       Server.transactions store user ++
       [storedTransaction P (Server.created store) body] /\
     onlyTransactionsOf user store store' /\
     Server.created store' = S (Server.created store)).
Proof.
  intros Hdate Hdescription Hcategory Hamount Htype.
  unfold sendable. rewrite <- Hdate, <- Hdescription, <- Hcategory, <- Hamount, <- Htype.
  destruct (postTransaction_outcome P _ user body store Huser)
    as [(Hfields & Hpost)|(Hfields & store' & Hpost & Hrest)];
    rewrite Hfields, Hpost.
  - left. auto.
  - right. split; [reflexivity|]. exists store'. auto.
Qed.

Lemma modal_add_outcome (fileId : value) (t : Modal.ParsedTransaction)
    (store : Server.Store) :
  (sendable t = false /\
   Api.transactionApi_add P accessToken
     (Flow.withFileId (Flow.transactionObject t) fileId) store =
     (Throw "Missing required fields", store)) \/
  (sendable t = true /\
   exists store',
     Api.transactionApi_add P accessToken
       (Flow.withFileId (Flow.transactionObject t) fileId) store =
       (Normal (storedTransaction P (Server.created store) (modalBody fileId t)), store') /\
     Server.transactions store' user =
       Server.transactions store user ++
       [storedTransaction P (Server.created store) (modalBody fileId t)] /\
     onlyTransactionsOf user store store' /\
     Server.created store' = S (Server.created store)).
Proof.
  destruct (modalBody_fields fileId t) as (Hd & Hs & Hc & Ha & Ht & _).
  apply (add_outcome (modalBody fileId t) t store Hd Hs Hc Ha Ht).
Qed.

Lemma page_add_outcome (t : Modal.ParsedTransaction) (store : Server.Store) :
  (sendable t = false /\
   Api.transactionApi_add P accessToken (Flow.transactionObject t) store =
     (Throw "Missing required fields", store)) \/
  (sendable t = true /\
   exists store',
     Api.transactionApi_add P accessToken (Flow.transactionObject t) store =
       (Normal (storedTransaction P (Server.created store) (pageBody t)), store') /\
     Server.transactions store' user =
       Server.transactions store user ++
       [storedTransaction P (Server.created store) (pageBody t)] /\
     onlyTransactionsOf user store store' /\
     Server.created store' = S (Server.created store)).
Proof.
  destruct (pageBody_fields t) as (Hd & Hs & Hc & Ha & Ht & _).
  apply (add_outcome (pageBody t) t store Hd Hs Hc Ha Ht).
Qed.

End ClientCalls.

Lemma zero_is_not_sendable (t : Modal.ParsedTransaction) :
  (exists s, Modal.amount t = S754_zero s) \/
  (exists s, Modal.amount t = S754_infinity s) \/
  Modal.amount t = S754_nan ->
  sendable t = false.
Proof.
  intros Hamount.
  assert (Hfalsy : toBoolean (Api.jsonValue (Num (Modal.amount t))) = false).
  { destruct Hamount as [(s & ->) | [(s & ->) | ->]];
      try destruct s; reflexivity. }
  unfold sendable. rewrite Hfalsy, andb_false_r. reflexivity.
Qed.

(** X11.  The transactions route asks for a truthy amount, so a record
    whose amount is 0 is turned down although it was parsed: for a
    signed-in caller, sending any parsed transaction whose amount is
    zero or infinite, or whose description, category or kind is the
    empty text, or whose date is a falsy cell, throws "Missing required
    fields" and keeps nothing, with or without a file id. *)
Theorem X11_zero_amount_is_refused
    (P : Server.Platform) (accessToken user : string)
    (t : Modal.ParsedTransaction) (store : Server.Store) :
  signedIn P accessToken user ->
  (exists s, Modal.amount t = S754_zero s) \/
  (exists s, Modal.amount t = S754_infinity s) \/
  Modal.description t = EmptyString \/
  Modal.category t = EmptyString \/
  Modal.type t = EmptyString \/
  toBoolean (Modal.date t) = false ->
  (forall fileId,
      Api.transactionApi_add P accessToken
        (Flow.withFileId (Flow.transactionObject t) fileId) store =
      (Throw "Missing required fields", store)) /\
  Api.transactionApi_add P accessToken (Flow.transactionObject t) store =
    (Throw "Missing required fields", store).
Proof.
  intros Huser Hbad.
  assert (Hno : sendable t = false).
  { destruct Hbad as [Hz|[Hi|[Hd|[Hc|[Ht|Hdate]]]]].
    - apply zero_is_not_sendable. auto.
    - apply zero_is_not_sendable. auto.
    - unfold sendable. rewrite Hd. change (toBoolean (Str "")) with false.
      rewrite andb_false_r. reflexivity.
    - unfold sendable. rewrite Hc. change (toBoolean (Str "")) with false.
      rewrite andb_false_r. reflexivity.
    - unfold sendable. rewrite Ht. change (toBoolean (Str "")) with false.
      rewrite andb_false_r. reflexivity.
    - unfold sendable.
      assert (toBoolean (Api.jsonValue (Modal.date t)) = false) as ->; [|reflexivity].
      destruct (Modal.date t) as [| |b|x|s]; try exact Hdate.
      destruct x as [sg|sg| |sg m e]; try reflexivity; try discriminate. }
  split.
  - intros fileId.
    destruct (modal_add_outcome P accessToken user Huser fileId t store)
      as [(_ & Hth)|(Hyes & _)]; [exact Hth|congruence].
  - destruct (page_add_outcome P accessToken user Huser t store)
      as [(_ & Hth)|(Hyes & _)]; [exact Hth|congruence].
Qed.

(** ** The calls of an upload, one after the other *)

Lemma addEach_outcome {A B}
    (add : A -> Server.Store -> Completion B * Server.Store)
    (ok : A -> bool) (body : A -> JS.object)
    (make : nat -> JS.object -> JS.object)
    (R : Server.Store -> Server.Store -> list JS.object -> Prop) :
  (forall s, R s s []) ->
  (forall s s1 s2 l l', R s s1 l -> R s1 s2 l' -> R s s2 (l ++ l')) ->
  (forall s s' l, R s s' l -> Server.created s' = Server.created s + List.length l) ->
  (forall item s,
      (ok item = false /\ add item s = (Throw "Missing required fields", s)) \/
      (ok item = true /\
       exists r s', add item s = (Normal r, s') /\
                    R s s' [make (Server.created s) (body item)])) ->
  forall items s,
    (Forall (fun item => ok item = true) items ->
     exists s', Flow.addEach add items s = (Normal tt, s') /\
                R s s' (storedFrom make (Server.created s) (map body items))) /\
    (forall before t after,
        items = before ++ t :: after ->
        Forall (fun item => ok item = true) before ->
        ok t = false ->
        exists s', Flow.addEach add items s = (Throw "Missing required fields", s') /\
                   R s s' (storedFrom make (Server.created s) (map body before))).
Proof.
  intros Hrefl Htrans Hcreated Hadd.
  induction items as [|item items IH]; intros s.
  - split.
    + intros _. exists s. split; [reflexivity|apply Hrefl].
    + intros [|b before] t after Heq; discriminate.
  - split.
    + intros Hall. inversion Hall as [|? ? Hitem Hrest]; subst.
      destruct (Hadd item s) as [(Hno & _)|(_ & r & s1 & Hcall & Hstep)];
        [congruence|].
      destruct (proj1 (IH s1) Hrest) as (s' & Hloop & Hgrow).
      exists s'. simpl. rewrite Hcall. split; [exact Hloop|].
      rewrite (Hcreated _ _ _ Hstep) in Hgrow. simpl in Hgrow.
      rewrite Nat.add_1_r in Hgrow.
      apply (Htrans s s1 s' [_] _ Hstep Hgrow).
    + intros [|b before] t after Heq Hbefore Ht; simpl in Heq;
        injection Heq as -> ->.
      * destruct (Hadd t s) as [(_ & Hcall)|(Hyes & _)]; [|congruence].
        exists s. simpl. rewrite Hcall. split; [reflexivity|apply Hrefl].
      * inversion Hbefore as [|? ? Hb Hrest]; subst.
        destruct (Hadd b s) as [(Hno & _)|(_ & r & s1 & Hcall & Hstep)];
          [congruence|].
        destruct (proj2 (IH s1) before t after eq_refl Hrest Ht)
          as (s' & Hloop & Hgrow).
        exists s'. simpl. rewrite Hcall. split; [exact Hloop|].
        rewrite (Hcreated _ _ _ Hstep) in Hgrow. simpl in Hgrow.
        rewrite Nat.add_1_r in Hgrow.
        apply (Htrans s s1 s' [_] _ Hstep Hgrow).
Qed.

Section Growth.

Variable user : string.

Lemma grown_refl (s : Server.Store) : grown user s s [] [] [].
Proof.
  unfold grown. rewrite !app_nil_r. simpl. rewrite !Nat.add_0_r.
  repeat split; reflexivity.
Qed.

Lemma grown_trans (s s1 s2 : Server.Store) (t1 e1 g1 t2 e2 g2 : list JS.object) :
  grown user s s1 t1 e1 g1 -> grown user s1 s2 t2 e2 g2 ->
  grown user s s2 (t1 ++ t2) (e1 ++ e2) (g1 ++ g2).
Proof.
  intros (Ht1 & He1 & Hg1 & Ho1 & Hf1 & Ha1 & Hc1)
         (Ht2 & He2 & Hg2 & Ho2 & Hf2 & Ha2 & Hc2).
  unfold grown. repeat split.
  - rewrite Ht2, Ht1, app_assoc. reflexivity.
  - rewrite He2, He1, app_assoc. reflexivity.
  - rewrite Hg2, Hg1, app_assoc. reflexivity.
  - destruct (Ho1 other H) as (A & _). destruct (Ho2 other H) as (A' & _).
    rewrite A'. exact A.
  - destruct (Ho1 other H) as (_ & B & _). destruct (Ho2 other H) as (_ & B' & _).
    rewrite B'. exact B.
  - destruct (Ho1 other H) as (_ & _ & C). destruct (Ho2 other H) as (_ & _ & C').
    rewrite C'. exact C.
  - rewrite Hf2. exact Hf1.
  - rewrite Ha2. exact Ha1.
  - rewrite Hc2, Hc1, !length_app. lia.
Qed.

End Growth.

Lemma emiBody_fields (fileId : value) (e : Modal.ParsedEMI) :
  get (emiBody fileId e) "name" = Str (Modal.emi_name e) /\
  get (emiBody fileId e) "amount" = Api.jsonValue (Num (Modal.emi_amount e)) /\
  get (emiBody fileId e) "dueDate" = Api.jsonValue (Modal.dueDate e) /\
  get (emiBody fileId e) "fileId" = Api.jsonValue fileId.
Proof.
  destruct e as [name amount due [total|] paid];
    destruct due, fileId; repeat split; reflexivity.
Qed.

Lemma goalBody_fields (fileId : value) (g : Modal.ParsedSavingsGoal) :
  get (goalBody fileId g) "name" = Str (Modal.goal_name g) /\
  get (goalBody fileId g) "targetAmount" = Api.jsonValue (Num (Modal.targetAmount g)) /\
  get (goalBody fileId g) "deadline" = Api.jsonValue (Modal.deadline g) /\
  get (goalBody fileId g) "fileId" = Api.jsonValue fileId.
Proof.
  destruct g as [name target current deadline];
    destruct deadline, fileId; repeat split; reflexivity.
Qed.

Section UploadCalls.

Variable P : Server.Platform.
Variable accessToken user : string.
Hypothesis Huser : signedIn P accessToken user.

Lemma transaction_step (fileId : value) (t : Modal.ParsedTransaction)
    (s : Server.Store) :
  (sendable t = false /\
   Api.transactionApi_add P accessToken
     (Flow.withFileId (Flow.transactionObject t) fileId) s =
     (Throw "Missing required fields", s)) \/
  (sendable t = true /\
   exists r s',
     Api.transactionApi_add P accessToken
       (Flow.withFileId (Flow.transactionObject t) fileId) s = (Normal r, s') /\
     grown user s s' [storedTransaction P (Server.created s) (modalBody fileId t)] [] []).
Proof.
  destruct (modal_add_outcome P accessToken user Huser fileId t s)
    as [Hno|(Hyes & s' & Hcall & Hlist & (Hothers & He & Hg & Hf & Ha) & Hc)];
    [left; exact Hno|].
  right. split; [exact Hyes|]. eexists. exists s'. split; [exact Hcall|].
  unfold grown. rewrite He, Hg, Hf, Ha, Hc, Hlist, !app_nil_r. simpl.
  repeat split; try reflexivity; try lia. apply Hothers, H.
Qed.

Lemma emi_step (fileId : value) (e : Modal.ParsedEMI) (s : Server.Store) :
  (sendableEmi e = false /\
   Api.emiApi_add P accessToken (Flow.withFileId (Flow.emiObject e) fileId) s =
     (Throw "Missing required fields", s)) \/
  (sendableEmi e = true /\
   exists r s',
     Api.emiApi_add P accessToken (Flow.withFileId (Flow.emiObject e) fileId) s =
       (Normal r, s') /\
     grown user s s' [] [storedEmi P (Server.created s) (emiBody fileId e)] []).
Proof.
  destruct (emiBody_fields fileId e) as (Hn & Ha & Hd & _).
  unfold Api.emiApi_add, Server.postEmi, sendableEmi.
  change (Api.json (Flow.withFileId (Flow.emiObject e) fileId)) with (emiBody fileId e).
  rewrite (authorised_user P _ _ _ _ Huser), <- Hn, <- Ha, <- Hd.
  destruct (toBoolean (get (emiBody fileId e) "name")); [|left; auto].
  destruct (toBoolean (get (emiBody fileId e) "amount")); [|left; auto].
  destruct (toBoolean (get (emiBody fileId e) "dueDate")); [|left; auto].
  right. split; [reflexivity|]. eexists. eexists. split; [reflexivity|].
  unfold grown. simpl. rewrite update_same, !app_nil_r.
  repeat split; try reflexivity; try lia. apply update_other, H.
Qed.

Lemma goal_step (fileId : value) (g : Modal.ParsedSavingsGoal) (s : Server.Store) :
  (sendableGoal g = false /\
   Api.savingsApi_add P accessToken (Flow.withFileId (Flow.goalObject g) fileId) s =
     (Throw "Missing required fields", s)) \/
  (sendableGoal g = true /\
   exists r s',
     Api.savingsApi_add P accessToken (Flow.withFileId (Flow.goalObject g) fileId) s =
       (Normal r, s') /\
     grown user s s' [] [] [storedGoal P (Server.created s) (goalBody fileId g)]).
Proof.
  destruct (goalBody_fields fileId g) as (Hn & Ha & Hd & _).
  unfold Api.savingsApi_add, Server.postSavings, sendableGoal.
  change (Api.json (Flow.withFileId (Flow.goalObject g) fileId)) with (goalBody fileId g).
  rewrite (authorised_user P _ _ _ _ Huser), <- Hn, <- Ha, <- Hd.
  destruct (toBoolean (get (goalBody fileId g) "name")); [|left; auto].
  destruct (toBoolean (get (goalBody fileId g) "targetAmount")); [|left; auto].
  destruct (toBoolean (get (goalBody fileId g) "deadline")); [|left; auto].
  right. split; [reflexivity|]. eexists. eexists. split; [reflexivity|].
  unfold grown. simpl. rewrite update_same, !app_nil_r.
  repeat split; try reflexivity; try lia. apply update_other, H.
Qed.

(** The id of the file record created as the [n]-th record. *)
Lemma storedFile_id (n : nat) (body : JS.object) :
  get (storedFile P n body) "id" = Str (Server.newId "file" (Server.stamp P n)) /\
  toBoolean (get (storedFile P n body) "id") = true.
Proof. split; reflexivity. Qed.

Lemma file_step (fileName : string) (count : nat) (s : Server.Store) :
  ((toBoolean (Str fileName) &&
    toBoolean (Api.jsonValue (Num (ofZ (Z.of_nat count)))))%bool = false /\
   Api.fileApi_add P accessToken
     [("fileName", Str fileName);
      ("transactionCount", Num (ofZ (Z.of_nat count)))]%string s =
     (Throw "Missing required fields", s)) \/
  ((toBoolean (Str fileName) &&
    toBoolean (Api.jsonValue (Num (ofZ (Z.of_nat count)))))%bool = true /\
   exists s',
     Api.fileApi_add P accessToken
       [("fileName", Str fileName);
        ("transactionCount", Num (ofZ (Z.of_nat count)))]%string s =
       (Normal (storedFile P (Server.created s) (fileBody fileName count)), s') /\
     Server.transactions s' = Server.transactions s /\
     Server.emis s' = Server.emis s /\
     Server.savings s' = Server.savings s /\
     Server.files s' user =
       Server.files s user ++ [storedFile P (Server.created s) (fileBody fileName count)] /\
     Server.activeFile s' user =
       Str (Server.newId "file" (Server.stamp P (Server.created s))) /\
     (forall other, other <> user ->
        Server.files s' other = Server.files s other /\
        Server.activeFile s' other = Server.activeFile s other) /\
     Server.created s' = S (Server.created s)).
Proof.
  unfold Api.fileApi_add, Server.postFile.
  change (Api.json [("fileName", Str fileName);
                    ("transactionCount", Num (ofZ (Z.of_nat count)))]%string)
    with (fileBody fileName count).
  rewrite (authorised_user P _ _ _ _ Huser).
  change (get (fileBody fileName count) "fileName") with (Str fileName).
  change (get (fileBody fileName count) "transactionCount")
    with (Api.jsonValue (Num (ofZ (Z.of_nat count)))).
  destruct (toBoolean (Str fileName)); [|left; auto].
  destruct (toBoolean (Api.jsonValue (Num (ofZ (Z.of_nat count))))); [|left; auto].
  right. split; [reflexivity|]. eexists. split; [reflexivity|]. simpl.
  rewrite !update_same.
  repeat split; try reflexivity; apply update_other, H.
Qed.

Lemma setActive_step (fileId : string) (s : Server.Store) :
  fileId <> EmptyString ->
  exists r s',
    Api.fileApi_setActive P accessToken (Str fileId) s = (Normal r, s') /\
    Server.transactions s' = Server.transactions s /\
    Server.emis s' = Server.emis s /\
    Server.savings s' = Server.savings s /\
    Server.files s' = Server.files s /\
    Server.activeFile s' user = Str fileId /\
    (forall other, other <> user ->
       Server.activeFile s' other = Server.activeFile s other) /\
    Server.created s' = Server.created s.
Proof.
  intros Hid. unfold Api.fileApi_setActive, Server.postActiveFile.
  rewrite (authorised_user P _ _ _ _ Huser).
  change (get (Api.json [("fileId"%string, Str fileId)]) "fileId") with (Str fileId).
  destruct fileId as [|c fileId]; [contradiction|].
  eexists. eexists. split; [reflexivity|]. simpl.
  rewrite update_same. repeat split. intros other Hother. apply update_other, Hother.
Qed.

End UploadCalls.

(** A caller whom [verifyUser] turns down gets the error of
    [verifyUser] from every call. *)
Lemma verifyUser_error_text (P : Server.Platform) (authHeader : option string)
    (error : string) :
  Server.verifyUser P authHeader = inl error -> toBoolean (Str error) = true.
Proof.
  unfold Server.verifyUser.
  destruct authHeader as [[|c header]|]; try (intros [= <-]; reflexivity).
  destruct (nth_error (Server.split " " (String c header)) 1) as [[|c' token]|];
    try (intros [= <-]; reflexivity).
  destruct (Server.getUser P (String c' token)); [discriminate|].
  intros [= <-]. reflexivity.
Qed.

Lemma unverified_call {A} (P : Server.Platform) (authHeader : option string)
    (error : string) (store : Server.Store)
    (route : string -> Server.Reply A * Server.Store) :
  Server.verifyUser P authHeader = inl error ->
  Api.apiCall (Server.authorised P authHeader store route) = (Throw error, store).
Proof.
  intros Hu. rewrite (authorised_error P _ _ _ _ Hu). unfold Api.apiCall.
  rewrite (verifyUser_error_text P _ _ Hu). reflexivity.
Qed.

Lemma failure_failedWith (st : Modal.State) (text : string) (shown : list Modal.Toast) :
  toBoolean (Str text) = true -> failedWith st (Flow.failure st text shown) text.
Proof.
  intros Htext. unfold Flow.failure, failedWith. rewrite Htext. simpl.
  repeat split. exists shown. reflexivity.
Qed.

(** X12.  A workbook without a transaction cannot be imported through
    the modal.  Its first call, [fileApi.add], sends the number of
    transactions as [transactionCount], and the files route turns a
    count of 0 down as a missing field: when the parsed data hold
    instalments or savings goals but no transaction, the handler ends
    in its [catch], with "Missing required fields" for a signed-in
    caller and with the error of [verifyUser] otherwise, and the store
    is left as it was, so none of the instalments and goals is kept.
    (With no record at all the error is the "No valid data" text.) *)
Theorem X12_upload_without_transactions_is_refused
    (H : Host) (P : Server.Platform) (accessToken : string) (st : Modal.State)
    (fileName : string) (file : Modal.FileRead) (store : Server.Store)
    (w : list string) (data : Modal.ParsedData) :
  Modal.parseExcelFile H file = (w, Normal data) ->
  Modal.transactions data = [] ->
  exists st' text,
    Flow.handleFileUpload H P accessToken st fileName file store = (w, st', store) /\
    failedWith st st' text /\
    (~ hasRecords data -> text = Modal.noValidData) /\
    (hasRecords data ->
     (forall user, signedIn P accessToken user ->
                   text = "Missing required fields"%string) /\
     (forall error, Server.verifyUser P (Api.bearer accessToken) = inl error ->
                    text = error)).
Proof.
  intros Hparse Htx. unfold Flow.handleFileUpload. rewrite Hparse, Htx.
  change (Nat.eqb (List.length (@nil Modal.ParsedTransaction)) 0 &&
          Nat.eqb (List.length (Modal.emis data)) 0 &&
          Nat.eqb (List.length (Modal.savingsGoals data)) 0)%bool
    with (Nat.eqb (List.length (Modal.emis data)) 0 &&
          Nat.eqb (List.length (Modal.savingsGoals data)) 0)%bool.
  destruct (Nat.eqb (List.length (Modal.emis data)) 0 &&
            Nat.eqb (List.length (Modal.savingsGoals data)) 0)%bool eqn:Hempty.
  - eexists. exists Modal.noValidData.
    split; [reflexivity|]. split; [apply failure_failedWith; reflexivity|].
    split; [reflexivity|].
    intros [Hno|[Hno|Hno]].
    + contradiction.
    + apply andb_prop in Hempty. destruct Hempty as (He & _).
      destruct (Modal.emis data); [contradiction|discriminate].
    + apply andb_prop in Hempty. destruct Hempty as (_ & Hg).
      destruct (Modal.savingsGoals data); [contradiction|discriminate].
  - assert (Hrecords : hasRecords data).
    { unfold hasRecords.
      destruct (Modal.emis data); [|right; left; discriminate].
      destruct (Modal.savingsGoals data); [discriminate|right; right; discriminate]. }
    unfold Flow.persist. rewrite Htx.
    change (Z.of_nat (List.length (@nil Modal.ParsedTransaction))) with 0%Z.
    destruct (Server.verifyUser P (Api.bearer accessToken)) as [error|user] eqn:Hu.
    + unfold Api.fileApi_add, Server.postFile.
      rewrite (unverified_call P _ _ _ _ Hu).
      eexists. exists error. split; [reflexivity|].
      split; [apply failure_failedWith, (verifyUser_error_text P _ _ Hu)|].
      split; [intros Hno; contradiction|].
      intros _. split; [|intros e [= <-]; reflexivity].
      intros user Hsigned. unfold signedIn in Hsigned. congruence.
    + destruct (file_step P accessToken user Hu fileName 0 store)
        as [(_ & Hcall)|(Hcount & _)].
      * change (Z.of_nat 0) with 0%Z in Hcall. rewrite Hcall.
        eexists. exists "Missing required fields"%string. split; [reflexivity|].
        split; [apply failure_failedWith; reflexivity|].
        split; [intros Hno; contradiction|].
        intros _. split; [reflexivity|]. intros e He. discriminate.
      * rewrite andb_false_r in Hcount. discriminate.
Qed.

Lemma X12_loans_only_witness :
  exists st' text,
    Flow.handleFileUpload Example.host ServerExample.platform "secret" Example.idle
        "loans.xlsx" ServerExample.loansOnly ServerExample.emptyStore =
      ([], st', ServerExample.emptyStore) /\
    failedWith Example.idle st' text /\
    (~ hasRecords {| Modal.transactions := [];
                     Modal.emis := [Example.homeLoanRecord];
                     Modal.savingsGoals := [] |} -> text = Modal.noValidData) /\
    (hasRecords {| Modal.transactions := [];
                   Modal.emis := [Example.homeLoanRecord];
                   Modal.savingsGoals := [] |} ->
     (forall user, signedIn ServerExample.platform "secret" user ->
                   text = "Missing required fields"%string) /\
     (forall error, Server.verifyUser ServerExample.platform (Api.bearer "secret") =
                      inl error -> text = error)).
Proof.
  apply (X12_upload_without_transactions_is_refused Example.host ServerExample.platform
           "secret" Example.idle "loans.xlsx" ServerExample.loansOnly
           ServerExample.emptyStore []
           {| Modal.transactions := [];
              Modal.emis := [Example.homeLoanRecord];
              Modal.savingsGoals := [] |}).
  - vm_compute. reflexivity.
  - reflexivity.
Defined.

Lemma X11_zero_amount_witness :
  (forall fileId,
      Api.transactionApi_add ServerExample.platform "secret"
        (Flow.withFileId
           (Flow.transactionObject
              {| Modal.date := Str "2023-03-16"; Modal.description := "Reversal";
                 Modal.category := "Uncategorized"; Modal.amount := S754_zero false;
                 Modal.type := "Income"; Modal.source := None |}) fileId)
        ServerExample.emptyStore =
      (Throw "Missing required fields", ServerExample.emptyStore)) /\
  Api.transactionApi_add ServerExample.platform "secret"
    (Flow.transactionObject
       {| Modal.date := Str "2023-03-16"; Modal.description := "Reversal";
          Modal.category := "Uncategorized"; Modal.amount := S754_zero false;
          Modal.type := "Income"; Modal.source := None |})
    ServerExample.emptyStore =
    (Throw "Missing required fields", ServerExample.emptyStore).
Proof.
  apply (X11_zero_amount_is_refused ServerExample.platform "secret" "user-1").
  - vm_compute. reflexivity.
  - left. exists false. reflexivity.
Defined.

(** ** Deleting a transaction *)

Lemma filter_keeps_all {A} (p : A -> bool) (l : list A) :
  List.length (filter p l) = List.length l <-> Forall (fun x => p x = true) l.
Proof.
  induction l as [|a l IH]; simpl.
  - split; [constructor|reflexivity].
  - destruct (p a) eqn:Ha; simpl.
    + split.
      * intros [= Hlen]. constructor; [exact Ha|apply IH, Hlen].
      * intros Hall. inversion Hall; subst. f_equal. apply IH. assumption.
    + split.
      * intros Hlen. pose proof (filter_length_le p l). lia.
      * intros Hall. inversion Hall; subst. congruence.
Qed.

(** X15.  Deleting a transaction by id, for a signed-in caller: when no
    transaction of the caller has the id, the answer is 404 and the
    store is left as it was; otherwise every transaction of the caller
    with that id is removed, the others stay in their order, nothing
    else in the store changes, and a second request for the same id is
    answered 404. *)
Theorem X15_delete_removes_exactly_that_id
    (P : Server.Platform) (authHeader : option string) (user id : string)
    (store : Server.Store) :
  Server.verifyUser P authHeader = inr user ->
  (noneWithId id (Server.transactions store user) /\
   Server.deleteTransaction P authHeader id store =
     (Server.Failed 404 "Transaction not found", store)) \/
  (~ noneWithId id (Server.transactions store user) /\
   exists store',
     Server.deleteTransaction P authHeader id store = (Server.Ok tt, store') /\
     Server.transactions store' user =
       filter (fun t => negb (Server.strictEq (get t "id") (Str id)))
              (Server.transactions store user) /\
     noneWithId id (Server.transactions store' user) /\
     onlyTransactionsOf user store store' /\
     Server.deleteTransaction P authHeader id store' =
       (Server.Failed 404 "Transaction not found", store')).
Proof.
  intros Hu.
  assert (Hnone : forall l,
    noneWithId id l <->
    Forall (fun t => negb (Server.strictEq (get t "id") (Str id)) = true) l).
  { intros l. unfold noneWithId. split; intros Hall;
      (eapply Forall_impl; [|exact Hall]); intros t Ht; cbv beta in Ht |- *.
    - rewrite Ht. reflexivity.
    - destruct (Server.strictEq (get t "id") (Str id)); [discriminate|reflexivity]. }
  assert (Hfiltered : forall l,
    noneWithId id (filter (fun t => negb (Server.strictEq (get t "id") (Str id))) l)).
  { intros l. apply Hnone. apply Forall_forall. intros t Ht.
    apply filter_In in Ht. apply Ht. }
  assert (Hmiss : forall s,
    noneWithId id (Server.transactions s user) ->
    Server.deleteTransaction P authHeader id s =
      (Server.Failed 404 "Transaction not found", s)).
  { intros s Hs. unfold Server.deleteTransaction.
    rewrite (authorised_user P _ _ _ _ Hu).
    apply Hnone, filter_keeps_all in Hs. rewrite Hs, Nat.eqb_refl. reflexivity. }
  destruct (Nat.eqb (List.length (Server.transactions store user))
              (List.length (filter (fun t => negb (Server.strictEq (get t "id") (Str id)))
                                   (Server.transactions store user)))) eqn:Hlen.
  - left. apply Nat.eqb_eq in Hlen. symmetry in Hlen.
    apply filter_keeps_all, Hnone in Hlen. split; [exact Hlen|apply Hmiss, Hlen].
  - right. split.
    + intros Hall. apply Hnone, filter_keeps_all in Hall.
      rewrite Hall, Nat.eqb_refl in Hlen. discriminate.
    + eexists. split.
      * unfold Server.deleteTransaction. rewrite (authorised_user P _ _ _ _ Hu).
        rewrite Hlen. reflexivity.
      * simpl. rewrite update_same. split; [reflexivity|].
        split; [apply Hfiltered|]. split.
        -- repeat split. intros other Hother. apply update_other, Hother.
        -- apply Hmiss. simpl. rewrite update_same. apply Hfiltered.
Qed.

(** ** A whole upload *)

Lemma storedFrom_length (make : nat -> JS.object -> JS.object) (bodies : list JS.object) :
  forall n, List.length (storedFrom make n bodies) = List.length bodies.
Proof.
  induction bodies as [|b bodies IH]; intros n; simpl; [reflexivity|].
  rewrite IH. reflexivity.
Qed.

Section UploadLoops.

Variable P : Server.Platform.
Variable accessToken user : string.
Hypothesis Huser : signedIn P accessToken user.
Variable fileId : value.

Lemma transactions_loop (items : list Modal.ParsedTransaction) (s : Server.Store) :
  (Forall (fun t => sendable t = true) items ->
   exists s',
     Flow.addEach (fun t => Api.transactionApi_add P accessToken
                              (Flow.withFileId (Flow.transactionObject t) fileId))
                  items s = (Normal tt, s') /\
     grown user s s'
       (storedFrom (storedTransaction P) (Server.created s) (map (modalBody fileId) items))
       [] []) /\
  (forall before t after,
      items = before ++ t :: after ->
      Forall (fun t => sendable t = true) before ->
      sendable t = false ->
      exists s',
        Flow.addEach (fun t => Api.transactionApi_add P accessToken
                                 (Flow.withFileId (Flow.transactionObject t) fileId))
                     items s = (Throw "Missing required fields", s') /\
        grown user s s'
          (storedFrom (storedTransaction P) (Server.created s)
             (map (modalBody fileId) before))
          [] []).
Proof.
  apply (addEach_outcome _ sendable (modalBody fileId) (storedTransaction P)
           (fun s s' l => grown user s s' l [] [])).
  - apply grown_refl.
  - intros s0 s1 s2 l l' H1 H2. apply (grown_trans user s0 s1 s2 l [] [] l' [] [] H1 H2).
  - intros s0 s' l (_ & _ & _ & _ & _ & _ & Hc). rewrite Hc. simpl. lia.
  - intros t s0. apply (transaction_step P accessToken user Huser fileId t s0).
Qed.

Lemma emis_loop (items : list Modal.ParsedEMI) (s : Server.Store) :
  Forall (fun e => sendableEmi e = true) items ->
  exists s',
    Flow.addEach (fun e => Api.emiApi_add P accessToken
                             (Flow.withFileId (Flow.emiObject e) fileId))
                 items s = (Normal tt, s') /\
    grown user s s' []
      (storedFrom (storedEmi P) (Server.created s) (map (emiBody fileId) items)) [].
Proof.
  apply (addEach_outcome _ sendableEmi (emiBody fileId) (storedEmi P)
           (fun s s' l => grown user s s' [] l [])).
  - apply grown_refl.
  - intros s0 s1 s2 l l' H1 H2. apply (grown_trans user s0 s1 s2 [] l [] [] l' [] H1 H2).
  - intros s0 s' l (_ & _ & _ & _ & _ & _ & Hc). rewrite Hc. simpl. lia.
  - intros e s0. apply (emi_step P accessToken user Huser fileId e s0).
Qed.

Lemma goals_loop (items : list Modal.ParsedSavingsGoal) (s : Server.Store) :
  Forall (fun g => sendableGoal g = true) items ->
  exists s',
    Flow.addEach (fun g => Api.savingsApi_add P accessToken
                             (Flow.withFileId (Flow.goalObject g) fileId))
                 items s = (Normal tt, s') /\
    grown user s s' [] []
      (storedFrom (storedGoal P) (Server.created s) (map (goalBody fileId) items)).
Proof.
  apply (addEach_outcome _ sendableGoal (goalBody fileId) (storedGoal P)
           (fun s s' l => grown user s s' [] [] l)).
  - apply grown_refl.
  - intros s0 s1 s2 l l' H1 H2. apply (grown_trans user s0 s1 s2 [] [] l [] [] l' H1 H2).
  - intros s0 s' l (_ & _ & _ & _ & _ & _ & Hc). rewrite Hc. simpl. lia.
  - intros g s0. apply (goal_step P accessToken user Huser fileId g s0).
Qed.

End UploadLoops.

Section WholeUpload.

Variable H : Host.
Variable P : Server.Platform.
Variable accessToken user : string.
Hypothesis Huser : signedIn P accessToken user.

(** The store after [fileApi.add] and the transactions that were
    accepted. *)
Lemma upload_begins (fileName : string) (data : Modal.ParsedData)
    (store : Server.Store) :
  fileName <> EmptyString ->
  toBoolean (Api.jsonValue
               (Num (ofZ (Z.of_nat (List.length (Modal.transactions data)))))) = true ->
  exists s1,
    Api.fileApi_add P accessToken
      [("fileName", Str fileName);
       ("transactionCount",
        Num (ofZ (Z.of_nat (List.length (Modal.transactions data)))))]%string store =
      (Normal (storedFile P (Server.created store)
                 (fileBody fileName (List.length (Modal.transactions data)))), s1) /\
    Server.transactions s1 = Server.transactions store /\
    Server.emis s1 = Server.emis store /\
    Server.savings s1 = Server.savings store /\
    Server.files s1 user =
      Server.files store user ++
      [storedFile P (Server.created store)
         (fileBody fileName (List.length (Modal.transactions data)))] /\
    Server.activeFile s1 user =
      Str (Server.newId "file" (Server.stamp P (Server.created store))) /\
    (forall other, other <> user ->
       Server.files s1 other = Server.files store other /\
       Server.activeFile s1 other = Server.activeFile store other) /\
    Server.created s1 = S (Server.created store).
Proof.
  intros Hname Hcount.
  destruct (file_step P accessToken user Huser fileName
              (List.length (Modal.transactions data)) store)
    as [(Hno & _)|(_ & s1 & Hfacts)].
  - rewrite Hcount, andb_true_r in Hno.
    destruct fileName; [contradiction|discriminate].
  - exists s1. exact Hfacts.
Qed.

End WholeUpload.

(** X13.  An upload is not all or nothing.  When the transaction [t]
    is one the transactions route turns down (its amount is 0, say) and
    the transactions before it are acceptable, the handler of a
    signed-in caller ends in its [catch] with "Missing required
    fields", but by then the file record has been created and made the
    active file and the transactions before [t] have been kept under
    it; [t], the transactions after it, and every instalment and
    savings goal of the workbook are not kept. *)
Theorem X13_refused_record_stops_the_upload_half_way
    (H : Host) (P : Server.Platform) (accessToken user : string)
    (st : Modal.State) (fileName : string) (file : Modal.FileRead)
    (store : Server.Store) (w : list string) (data : Modal.ParsedData)
    (before after : list Modal.ParsedTransaction) (t : Modal.ParsedTransaction) :
  signedIn P accessToken user ->
  Modal.parseExcelFile H file = (w, Normal data) ->
  Modal.transactions data = before ++ t :: after ->
  fileName <> EmptyString ->
  toBoolean (Api.jsonValue
               (Num (ofZ (Z.of_nat (List.length (Modal.transactions data)))))) = true ->
  Forall (fun t => sendable t = true) before ->
  sendable t = false ->
  let fileId := Str (Server.newId "file" (Server.stamp P (Server.created store))) in
  exists st' store',
    Flow.handleFileUpload H P accessToken st fileName file store = (w, st', store') /\
    failedWith st st' "Missing required fields" /\
    Server.files store' user =
      Server.files store user ++
      [storedFile P (Server.created store)
         (fileBody fileName (List.length (Modal.transactions data)))] /\
    Server.activeFile store' user = fileId /\
    Server.transactions store' user =
      Server.transactions store user ++
      storedFrom (storedTransaction P) (S (Server.created store))
        (map (modalBody fileId) before) /\
    (forall anyone, Server.emis store' anyone = Server.emis store anyone /\
                    Server.savings store' anyone = Server.savings store anyone).
Proof.
  intros Huser Hparse Htx Hname Hcount Hbefore Ht fileId.
  unfold Flow.handleFileUpload. rewrite Hparse.
  assert (Hsome : Nat.eqb (List.length (Modal.transactions data)) 0 = false).
  { rewrite Htx, length_app. simpl. apply Nat.eqb_neq. lia. }
  rewrite Hsome. cbn [andb].
  unfold Flow.persist.
  destruct (upload_begins P accessToken user Huser fileName data store Hname Hcount)
    as (s1 & Hfile & Htx1 & He1 & Hg1 & Hf1 & Ha1 & _ & Hc1).
  rewrite Hfile. cbv beta iota zeta.
  change (get (storedFile P (Server.created store)
                 (fileBody fileName (List.length (Modal.transactions data)))) "id")
    with fileId.
  destruct (proj2 (transactions_loop P accessToken user Huser fileId
                     (Modal.transactions data) s1) before t after Htx Hbefore Ht)
    as (s2 & Hloop & (Ht2 & He2 & Hg2 & Hothers & Hf2 & Ha2 & _)).
  rewrite Hloop.
  eexists. exists s2. split; [reflexivity|].
  split; [apply failure_failedWith; reflexivity|].
  rewrite Hf2, Ha2, Ht2, Htx1, Hc1.
  split; [exact Hf1|]. split; [exact Ha1|]. split; [reflexivity|].
  intros anyone. destruct (string_dec anyone user) as [->|Hother].
  - rewrite He2, Hg2, He1, Hg1, !app_nil_r. split; reflexivity.
  - destruct (Hothers anyone Hother) as (_ & He & Hg).
    rewrite He, Hg, He1, Hg1. split; reflexivity.
Qed.

Lemma ofFile_app (fileId : string) (l l' : list JS.object) :
  ofFile fileId (l ++ l') = ofFile fileId l ++ ofFile fileId l'.
Proof. apply filter_app. Qed.

Section StoredUnderFile.

Variable P : Server.Platform.

(** The transactions kept for bodies sent by the modal for the file
    [id] all carry that id. *)
Lemma ofFile_modal_records (id : string) (items : list Modal.ParsedTransaction) :
  id <> EmptyString ->
  forall n,
    ofFile id (storedFrom (storedTransaction P) n (map (modalBody (Str id)) items)) =
    storedFrom (storedTransaction P) n (map (modalBody (Str id)) items).
Proof.
  intros Hid. induction items as [|t items IH]; intros n; [reflexivity|].
  simpl map. simpl storedFrom. unfold ofFile in *. cbn [filter].
  change (get (storedTransaction P n (modalBody (Str id) t)) "fileId")
    with (Server.orElse (get (modalBody (Str id) t) "fileId") Null).
  destruct (modalBody_fields (Str id) t) as (_ & _ & _ & _ & _ & Hfile).
  rewrite Hfile. destruct id as [|c id]; [contradiction|].
  cbn [Api.jsonValue Server.orElse toBoolean Server.strictEq].
  rewrite String.eqb_refl, IH. reflexivity.
Qed.

(** The transactions kept for bodies sent by the page carry no file
    id. *)
Lemma ofFile_page_record (id : string) (n : nat) (t : Modal.ParsedTransaction) :
  ofFile id [storedTransaction P n (pageBody t)] = [].
Proof.
  unfold ofFile. cbn [filter].
  change (get (storedTransaction P n (pageBody t)) "fileId")
    with (Server.orElse (get (pageBody t) "fileId") Null).
  destruct (pageBody_fields t) as (_ & _ & _ & _ & _ & Hfile).
  rewrite Hfile. reflexivity.
Qed.

End StoredUnderFile.

(** X14.  An upload of acceptable records with at least one
    transaction keeps all of them under one new file.  For a signed-in
    caller, a file name that is not empty and parsed data that hold at
    least one transaction, so that the [transactionCount] sent with the
    file record is not 0 and is truthy when the files route reads it,
    and whose records all have the fields the routes require, the
    modal's handler ends in success and the store has grown, for the caller only, by one file record, which is now the
    active file, and by one record for every transaction, instalment
    and savings goal of the workbook, in the order parsed and created
    one after the other.  When no older transaction carries the id of
    the new file, asking for the transactions of that file returns the
    transactions of this upload and no other. *)
Theorem X14_upload_keeps_every_record_under_one_file
    (H : Host) (P : Server.Platform) (accessToken user : string)
    (st : Modal.State) (fileName : string) (file : Modal.FileRead)
    (store : Server.Store) (w : list string) (data : Modal.ParsedData) :
  signedIn P accessToken user ->
  Modal.parseExcelFile H file = (w, Normal data) ->
  fileName <> EmptyString ->
  toBoolean (Api.jsonValue
               (Num (ofZ (Z.of_nat (List.length (Modal.transactions data)))))) = true ->
  Forall (fun t => sendable t = true) (Modal.transactions data) ->
  Forall (fun e => sendableEmi e = true) (Modal.emis data) ->
  Forall (fun g => sendableGoal g = true) (Modal.savingsGoals data) ->
  let c := Server.created store in
  let id := Server.newId "file" (Server.stamp P c) in
  let kept :=
    storedFrom (storedTransaction P) (S c)
      (map (modalBody (Str id)) (Modal.transactions data)) in
  exists store',
    Flow.handleFileUpload H P accessToken st fileName file store =
      (w,
       {| Modal.uploadedFile := Some fileName;
          Modal.isProcessing := false;
          Modal.parsedData := data;
          Modal.parseError := None;
          Modal.toasts :=
            Modal.toasts st ++
            [Modal.ToastSuccess ("Success! Imported " ++
                                 join ", " (Modal.summary data) ++
                                 " from " ++ fileName)%string] |},
       store') /\
    Server.files store' user =
      Server.files store user ++
      [storedFile P c (fileBody fileName (List.length (Modal.transactions data)))] /\
    Server.activeFile store' user = Str id /\
    Server.transactions store' user = Server.transactions store user ++ kept /\
    Server.emis store' user =
      Server.emis store user ++
      storedFrom (storedEmi P) (S c + List.length (Modal.transactions data))
        (map (emiBody (Str id)) (Modal.emis data)) /\
    Server.savings store' user =
      Server.savings store user ++
      storedFrom (storedGoal P)
        (S c + List.length (Modal.transactions data) + List.length (Modal.emis data))
        (map (goalBody (Str id)) (Modal.savingsGoals data)) /\
    (forall other, other <> user ->
       Server.files store' other = Server.files store other /\
       Server.activeFile store' other = Server.activeFile store other /\
       Server.transactions store' other = Server.transactions store other /\
       Server.emis store' other = Server.emis store other /\
       Server.savings store' other = Server.savings store other) /\
    (ofFile id (Server.transactions store user) = [] ->
     Server.getTransactions P (Api.bearer accessToken) (byFile id) store' =
       (Server.Ok kept, store')).
Proof.
  intros Huser Hparse Hname Hcount Htxs Hes Hgs c id kept.
  unfold Flow.handleFileUpload. rewrite Hparse.
  assert (Hsome : Nat.eqb (List.length (Modal.transactions data)) 0 = false).
  { destruct (Modal.transactions data); [discriminate Hcount|reflexivity]. }
  rewrite Hsome. cbn [andb].
  unfold Flow.persist.
  destruct (upload_begins P accessToken user Huser fileName data store Hname Hcount)
    as (s1 & Hfile & Htx1 & He1 & Hg1 & Hf1 & Ha1 & Hothers1 & Hc1).
  rewrite Hfile. cbv beta iota zeta.
  change (get (storedFile P (Server.created store)
                 (fileBody fileName (List.length (Modal.transactions data)))) "id")
    with (Str id).
  destruct (proj1 (transactions_loop P accessToken user Huser (Str id)
                     (Modal.transactions data) s1) Htxs)
    as (s2 & Hloop2 & (Ht2 & He2 & Hg2 & Hothers2 & Hf2 & Ha2 & Hc2)).
  rewrite Hloop2.
  destruct (emis_loop P accessToken user Huser (Str id) (Modal.emis data) s2 Hes)
    as (s3 & Hloop3 & (Ht3 & He3 & Hg3 & Hothers3 & Hf3 & Ha3 & Hc3)).
  rewrite Hloop3.
  destruct (goals_loop P accessToken user Huser (Str id) (Modal.savingsGoals data) s3 Hgs)
    as (s4 & Hloop4 & (Ht4 & He4 & Hg4 & Hothers4 & Hf4 & Ha4 & Hc4)).
  rewrite Hloop4.
  assert (Hid : id <> EmptyString) by discriminate.
  destruct (setActive_step P accessToken user Huser id s4 Hid)
    as (r & s5 & Hactive & Ht5 & He5 & Hg5 & Hf5 & Ha5 & Hothers5 & _).
  rewrite Hactive.
  rewrite storedFrom_length, length_map in Hc2. simpl in Hc2.
  assert (Hn2 : Server.created s2 = S c + List.length (Modal.transactions data))
    by (rewrite Hc2, Hc1; unfold c; lia).
  rewrite storedFrom_length, length_map in Hc3. simpl in Hc3.
  assert (Hn3 : Server.created s3 =
                S c + List.length (Modal.transactions data) +
                List.length (Modal.emis data))
    by (rewrite Hc3, Hn2; lia).
  assert (Htransactions :
    Server.transactions s5 user = Server.transactions store user ++ kept).
  { rewrite Ht5, Ht4, Ht3, Ht2, Htx1, Hc1, !app_nil_r. reflexivity. }
  exists s5. split; [reflexivity|].
  split; [rewrite Hf5, Hf4, Hf3, Hf2; exact Hf1|].
  split; [exact Ha5|].
  split; [exact Htransactions|].
  split; [rewrite He5, He4, He3, He2, He1, Hn2, !app_nil_r; reflexivity|].
  split; [rewrite Hg5, Hg4, Hg3, Hg2, Hg1, Hn3, !app_nil_r; reflexivity|].
  split.
  - intros other Hother.
    destruct (Hothers1 other Hother) as (Hfo & Hao).
    destruct (Hothers2 other Hother) as (Ht2o & He2o & Hg2o).
    destruct (Hothers3 other Hother) as (Ht3o & He3o & Hg3o).
    destruct (Hothers4 other Hother) as (Ht4o & He4o & Hg4o).
    rewrite (Hothers5 other Hother), Hf5, Hf4, Hf3, Hf2, Ha4, Ha3, Ha2.
    rewrite Ht5, Ht4o, Ht3o, Ht2o, Htx1, He5, He4o, He3o, He2o, He1.
    rewrite Hg5, Hg4o, Hg3o, Hg2o, Hg1.
    repeat split; assumption || reflexivity.
  - intros Hfresh.
    unfold Server.getTransactions.
    rewrite (authorised_user P _ _ _ _ Huser).
    unfold byFile, Server.filterIf. cbn [Server.q_fileId Server.q_year
      Server.q_month Server.q_type].
    destruct id as [|ch rest] eqn:Hideq; [contradiction|].
    rewrite Htransactions.
    change (filter (fun t => Server.strictEq (get t "fileId") (Str (String ch rest)))
                   (Server.transactions store user ++ kept))
      with (ofFile (String ch rest) (Server.transactions store user ++ kept)).
    rewrite ofFile_app, Hfresh. unfold kept.
    rewrite (ofFile_modal_records P (String ch rest)); [reflexivity|discriminate].
Qed.

Section PageCalls.

Variable P : Server.Platform.
Variable accessToken : string.

(** One call of the page's loop leaves the records of every file, and
    everything but the transactions, as they were. *)
Lemma page_call_keeps_files (t : Modal.ParsedTransaction) (store : Server.Store) :
  let store' := snd (Api.transactionApi_add P accessToken (Flow.transactionObject t) store) in
  (forall user id,
      ofFile id (Server.transactions store' user) =
      ofFile id (Server.transactions store user)) /\
  Server.emis store' = Server.emis store /\
  Server.savings store' = Server.savings store /\
  Server.files store' = Server.files store /\
  Server.activeFile store' = Server.activeFile store.
Proof.
  destruct (Server.verifyUser P (Api.bearer accessToken)) as [error|user] eqn:Hu.
  - unfold Api.transactionApi_add, Server.postTransaction.
    rewrite (unverified_call P _ _ _ _ Hu). simpl. auto.
  - destruct (page_add_outcome P accessToken user Hu t store)
      as [(_ & Hcall)|(_ & s' & Hcall & Hown & (Hothers & He & Hg & Hf & Ha) & _)];
      rewrite Hcall; simpl; [auto|].
    split; [|auto].
    intros anyone id. destruct (string_dec anyone user) as [->|Hother].
    + rewrite Hown, ofFile_app, ofFile_page_record, app_nil_r. reflexivity.
    + rewrite (Hothers anyone Hother). reflexivity.
Qed.

Lemma page_loop_keeps_files (items : list Modal.ParsedTransaction) :
  forall store,
    let store' :=
      snd (Flow.addEach
             (fun t => Api.transactionApi_add P accessToken (Flow.transactionObject t))
             items store) in
    (forall user id,
        ofFile id (Server.transactions store' user) =
        ofFile id (Server.transactions store user)) /\
    Server.emis store' = Server.emis store /\
    Server.savings store' = Server.savings store /\
    Server.files store' = Server.files store /\
    Server.activeFile store' = Server.activeFile store.
Proof.
  induction items as [|t items IH]; intros store; [simpl; auto|].
  cbv zeta. cbn [Flow.addEach].
  pose proof (page_call_keeps_files t store) as Hcall. cbv zeta in Hcall.
  destruct (Api.transactionApi_add P accessToken (Flow.transactionObject t) store)
    as [[r|msg] s1]; cbn [snd] in Hcall |- *; [|exact Hcall].
  specialize (IH s1). cbv zeta in IH.
  destruct Hcall as (Ht & He & Hg & Hf & Ha).
  destruct IH as (Ht' & He' & Hg' & Hf' & Ha').
  split; [intros user id; rewrite Ht'; apply Ht|].
  split; [rewrite He'; exact He|].
  split; [rewrite Hg'; exact Hg|].
  split; [rewrite Hf'; exact Hf|rewrite Ha'; exact Ha].
Qed.

End PageCalls.

(** X16.  What the upload page imports belongs to no file.  The page
    sends its records without a [fileId], the transactions route keeps
    them with [fileId: null], and the page calls no other route:
    whatever the file, the caller and the outcome of the upload, the
    transactions that carry a given file id are afterwards the same as
    before for every user, so a listing filtered by any file id never
    shows a record imported through the page, and the instalments, the
    savings goals, the file records and the active files are
    untouched. *)
Theorem X16_page_uploads_belong_to_no_file
    (H : Host) (P : Server.Platform) (accessToken : string)
    (st : Flow.PageState) (fileName : string) (file : Modal.FileRead)
    (store : Server.Store) :
  let store' := snd (Flow.pageHandleFileUpload H P accessToken st fileName file store) in
  (forall user id,
      ofFile id (Server.transactions store' user) =
      ofFile id (Server.transactions store user)) /\
  (forall authHeader id,
      id <> EmptyString ->
      fst (Server.getTransactions P authHeader (byFile id) store') =
      fst (Server.getTransactions P authHeader (byFile id) store)) /\
  Server.emis store' = Server.emis store /\
  Server.savings store' = Server.savings store /\
  Server.files store' = Server.files store /\
  Server.activeFile store' = Server.activeFile store.
Proof.
  cbv zeta.
  assert (Hkept :
    (forall user id,
        ofFile id (Server.transactions
                     (snd (Flow.pageHandleFileUpload H P accessToken st fileName file store))
                     user) =
        ofFile id (Server.transactions store user)) /\
    Server.emis (snd (Flow.pageHandleFileUpload H P accessToken st fileName file store)) =
      Server.emis store /\
    Server.savings (snd (Flow.pageHandleFileUpload H P accessToken st fileName file store)) =
      Server.savings store /\
    Server.files (snd (Flow.pageHandleFileUpload H P accessToken st fileName file store)) =
      Server.files store /\
    Server.activeFile (snd (Flow.pageHandleFileUpload H P accessToken st fileName file store)) =
      Server.activeFile store).
  { unfold Flow.pageHandleFileUpload.
    destruct (Page.parseExcelFile H file) as [w [transactions|msg]]; [|simpl; auto].
    pose proof (page_loop_keeps_files P accessToken transactions store) as Hloop.
    cbv zeta in Hloop.
    destruct (Flow.addEach
                (fun t => Api.transactionApi_add P accessToken (Flow.transactionObject t))
                transactions store) as [[r|msg] s']; exact Hloop. }
  destruct Hkept as (Ht & He & Hg & Hf & Ha).
  split; [exact Ht|]. split; [|auto].
  intros authHeader id Hid.
  unfold Server.getTransactions.
  destruct (Server.verifyUser P authHeader) as [error|user] eqn:Hu.
  - rewrite !(authorised_error P _ _ _ _ Hu). reflexivity.
  - rewrite !(authorised_user P _ _ _ _ Hu).
    unfold byFile, Server.filterIf.
    cbn [Server.q_fileId Server.q_year Server.q_month Server.q_type].
    destruct id as [|ch rest]; [contradiction|].
    specialize (Ht user (String ch rest)). unfold ofFile in Ht.
    simpl. rewrite Ht. reflexivity.
Qed.

Lemma X13_reversal_statement_witness :
  let fileId :=
    Str (Server.newId "file"
           (Server.stamp ServerExample.platform
              (Server.created ServerExample.emptyStore))) in
  exists st' store',
    Flow.handleFileUpload Example.host ServerExample.platform "secret" Example.idle
        "march.xlsx" ServerExample.reversalStatement ServerExample.emptyStore =
      ([], st', store') /\
    failedWith Example.idle st' "Missing required fields" /\
    Server.files store' "user-1" =
      Server.files ServerExample.emptyStore "user-1" ++
      [storedFile ServerExample.platform (Server.created ServerExample.emptyStore)
         (fileBody "march.xlsx"
            (List.length (Modal.transactions ServerExample.reversalData)))] /\
    Server.activeFile store' "user-1" = fileId /\
    Server.transactions store' "user-1" =
      Server.transactions ServerExample.emptyStore "user-1" ++
      storedFrom (storedTransaction ServerExample.platform)
        (S (Server.created ServerExample.emptyStore))
        (map (modalBody fileId) [Example.rentRecord]) /\
    (forall anyone,
        Server.emis store' anyone = Server.emis ServerExample.emptyStore anyone /\
        Server.savings store' anyone = Server.savings ServerExample.emptyStore anyone).
Proof.
  apply (X13_refused_record_stops_the_upload_half_way Example.host
           ServerExample.platform "secret" "user-1" Example.idle "march.xlsx"
           ServerExample.reversalStatement ServerExample.emptyStore []
           ServerExample.reversalData [Example.rentRecord] [Example.typedRecord]
           ServerExample.zeroAmountRecord).
  - reflexivity.
  - vm_compute. reflexivity.
  - reflexivity.
  - discriminate.
  - vm_compute. reflexivity.
  - repeat constructor.
  - vm_compute. reflexivity.
Defined.

Lemma X14_mixed_workbook_upload_witness :
  let c := Server.created ServerExample.emptyStore in
  let id := Server.newId "file" (Server.stamp ServerExample.platform c) in
  let kept :=
    storedFrom (storedTransaction ServerExample.platform) (S c)
      (map (modalBody (Str id)) (Modal.transactions ServerExample.mixedData)) in
  exists store',
    Flow.handleFileUpload Example.host ServerExample.platform "secret" Example.idle
        "year.xlsx" Example.mixedWorkbook ServerExample.emptyStore =
      ([],
       {| Modal.uploadedFile := Some "year.xlsx"%string;
          Modal.isProcessing := false;
          Modal.parsedData := ServerExample.mixedData;
          Modal.parseError := None;
          Modal.toasts :=
            Modal.toasts Example.idle ++
            [Modal.ToastSuccess ("Success! Imported " ++
                                 join ", " (Modal.summary ServerExample.mixedData) ++
                                 " from " ++ "year.xlsx")%string] |},
       store') /\
    Server.files store' "user-1" =
      Server.files ServerExample.emptyStore "user-1" ++
      [storedFile ServerExample.platform c
         (fileBody "year.xlsx"
            (List.length (Modal.transactions ServerExample.mixedData)))] /\
    Server.activeFile store' "user-1" = Str id /\
    Server.transactions store' "user-1" =
      Server.transactions ServerExample.emptyStore "user-1" ++ kept /\
    Server.emis store' "user-1" =
      Server.emis ServerExample.emptyStore "user-1" ++
      storedFrom (storedEmi ServerExample.platform)
        (S c + List.length (Modal.transactions ServerExample.mixedData))
        (map (emiBody (Str id)) (Modal.emis ServerExample.mixedData)) /\
    Server.savings store' "user-1" =
      Server.savings ServerExample.emptyStore "user-1" ++
      storedFrom (storedGoal ServerExample.platform)
        (S c + List.length (Modal.transactions ServerExample.mixedData) +
         List.length (Modal.emis ServerExample.mixedData))
        (map (goalBody (Str id)) (Modal.savingsGoals ServerExample.mixedData)) /\
    (forall other, other <> "user-1"%string ->
       Server.files store' other = Server.files ServerExample.emptyStore other /\
       Server.activeFile store' other = Server.activeFile ServerExample.emptyStore other /\
       Server.transactions store' other =
         Server.transactions ServerExample.emptyStore other /\
       Server.emis store' other = Server.emis ServerExample.emptyStore other /\
       Server.savings store' other = Server.savings ServerExample.emptyStore other) /\
    (ofFile id (Server.transactions ServerExample.emptyStore "user-1") = [] ->
     Server.getTransactions ServerExample.platform (Api.bearer "secret") (byFile id)
         store' =
       (Server.Ok kept, store')).
Proof.
  apply (X14_upload_keeps_every_record_under_one_file Example.host
           ServerExample.platform "secret" "user-1" Example.idle "year.xlsx"
           Example.mixedWorkbook ServerExample.emptyStore []
           ServerExample.mixedData).
  - reflexivity.
  - vm_compute. reflexivity.
  - discriminate.
  - vm_compute. reflexivity.
  - repeat constructor.
  - repeat constructor.
  - constructor.
Defined.

Lemma X15_rent_record_witness :
  (noneWithId "txn_1700000000000_k3x9q0z7a"
     (Server.transactions ServerExample.rentKept "user-1") /\
   Server.deleteTransaction ServerExample.platform (Api.bearer "secret")
       "txn_1700000000000_k3x9q0z7a" ServerExample.rentKept =
     (Server.Failed 404 "Transaction not found", ServerExample.rentKept)) \/
  (~ noneWithId "txn_1700000000000_k3x9q0z7a"
       (Server.transactions ServerExample.rentKept "user-1") /\
   exists store',
     Server.deleteTransaction ServerExample.platform (Api.bearer "secret")
         "txn_1700000000000_k3x9q0z7a" ServerExample.rentKept =
       (Server.Ok tt, store') /\
     Server.transactions store' "user-1" =
       filter (fun t => negb (Server.strictEq (get t "id")
                                (Str "txn_1700000000000_k3x9q0z7a")))
              (Server.transactions ServerExample.rentKept "user-1") /\
     noneWithId "txn_1700000000000_k3x9q0z7a" (Server.transactions store' "user-1") /\
     onlyTransactionsOf "user-1" ServerExample.rentKept store' /\
     Server.deleteTransaction ServerExample.platform (Api.bearer "secret")
         "txn_1700000000000_k3x9q0z7a" store' =
       (Server.Failed 404 "Transaction not found", store')).
Proof.
  apply (X15_delete_removes_exactly_that_id ServerExample.platform
           (Api.bearer "secret") "user-1" "txn_1700000000000_k3x9q0z7a"
           ServerExample.rentKept).
  reflexivity.
Defined.
